(** * TpmSecurityClient: a shallow embedding of [security/tpm/src/tpm.ts]

    The client drives a TPM through the callback interface of tss.js and
    serialises its public operations through a machina state machine with the
    states [disconnected], [connecting] and [connected].  The embedding keeps
    the callback structure of the source: every closure of the source is a
    constructor of a defunctionalised continuation type, a synchronous turn of
    JavaScript is a computation in a state-and-exception monad over the
    [World], and the answers of the module arrive one at a time through
    [deliver]. *)

From Stdlib Require Import ZArith List String Ascii Strings.Byte Lia Bool.
From stdpp Require Import base option list gmap strings.

Local Open Scope Z_scope.

(** ** Buffers *)

Abbreviation Buffer := (list Byte.byte).

Definition byte_to_Z (b : Byte.byte) : Z := Z.of_N (Byte.to_N b).

Definition hex_digit (c : ascii) : N :=
  let n := N_of_ascii c in
  if (48 <=? n)%N && (n <=? 57)%N then (n - 48)%N
  else if (97 <=? n)%N && (n <=? 102)%N then (n - 87)%N
  else if (65 <=? n)%N && (n <=? 70)%N then (n - 55)%N
  else 0%N.

(** [new Buffer(s, 'hex')] *)
Fixpoint Buffer_from_hex (s : string) : Buffer :=
  match s with
  | String h (String l rest) =>
      match Byte.of_N (16 * hex_digit h + hex_digit l)%N with
      | Some b => b :: Buffer_from_hex rest
      | None => []
      end
  | _ => []
  end.

(** [buf.slice(start, end)] for [0 <= start <= end] *)
Definition slice (buf : Buffer) (start stop : Z) : Buffer :=
  take (Z.to_nat (stop - start)) (drop (Z.to_nat start) buf).

Definition Buffer_length (buf : Buffer) : Z := Z.of_nat (length buf).

(** ** Constants of the TPM 2.0 library, as tss.js names them *)

Module TPM_RC.
Definition SUCCESS : Z := 0x000.
Definition HANDLE : Z := 0x08B.
Definition FAILURE : Z := 0x101.
Definition NV_DEFINED : Z := 0x14C.
End TPM_RC.

Module TPM_ALG_ID.
Definition RSA : Z := 0x0001.
Definition HMAC : Z := 0x0005.
Definition AES : Z := 0x0006.
Definition KEYEDHASH : Z := 0x0008.
Definition SHA256 : Z := 0x000B.
Definition NULL : Z := 0x0010.
Definition CFB : Z := 0x0043.
End TPM_ALG_ID.

Module TPMA_OBJECT.
Definition fixedTPM : Z := 0x2.
Definition fixedParent : Z := 0x10.
Definition sensitiveDataOrigin : Z := 0x20.
Definition userWithAuth : Z := 0x40.
Definition adminWithPolicy : Z := 0x80.
Definition noDA : Z := 0x400.
Definition restricted : Z := 0x10000.
Definition decrypt : Z := 0x20000.
End TPMA_OBJECT.

Module TPM_RH.
Definition OWNER : Z := 0x40000001.
Definition NULL : Z := 0x40000007.
Definition ENDORSEMENT : Z := 0x4000000B.
End TPM_RH.

Module TPM_CAP.
Definition TPM_PROPERTIES : Z := 0x6.
End TPM_CAP.

Module TPM_PT.
Definition INPUT_BUFFER : Z := 0x10D.
End TPM_PT.

Module TPM_SE.
Definition POLICY : Z := 0x1.
End TPM_SE.

Module tss.
Definition Endorsement : Z := TPM_RH.ENDORSEMENT.
Definition Owner : Z := TPM_RH.OWNER.
End tss.

(** ** Structures of tss.js the client touches *)

Record TPMT_SYM_DEF_OBJECT := mkSymDef {
  algorithm : Z;
  keyBits : Z;
  mode : Z
}.

Inductive KeyedHashScheme :=
| TPMS_SCHEME_HMAC (hashAlg : Z)
| TPMS_NULL_SCHEME.

Inductive PublicParms :=
| TPMS_RSA_PARMS (symmetric : TPMT_SYM_DEF_OBJECT) (scheme : Z) (rsaKeyBits exponent : Z)
| TPMS_KEYEDHASH_PARMS (scheme : KeyedHashScheme).

(** A member of the union [TPMU_PUBLIC_ID]: each of them holds its bytes in
    a field [buffer], which is a Buffer or null. *)
Record TPMU_PUBLIC_ID := mkUnique {
  buffer : option Buffer
}.

(** [authPolicy] and [unique] are objects or null. *)
Record TPMT_PUBLIC := mkPublic {
  nameAlg : Z;
  objectAttributes : Z;
  authPolicy : option Buffer;
  parameters : PublicParms;
  unique : option TPMU_PUBLIC_ID
}.

Record TPMS_ID_OBJECT := mkIdObject {
  integrityHMAC : Buffer;
  encIdentity : Buffer
}.

(** The [new TPMT_PUBLIC()] of a response the module did not fill: no name
    algorithm, no attributes, and null for [authPolicy] and for [unique].
    Its [parameters] are left at the null scheme; the client reads the
    parameters of the identity key only, which is unmarshalled from a blob
    and never taken from a response. *)
Definition empty_PUBLIC : TPMT_PUBLIC :=
  mkPublic TPM_ALG_ID.NULL 0 None (TPMS_KEYEDHASH_PARMS TPMS_NULL_SCHEME) None.

(** ** RFC 4648 base-32, lower-casing and the removal of [=]

    [base32Encode] follows the accumulator loop of the base32-encode package:
    eight bits enter [value] per byte and leave it five at a time. *)

Definition RFC4648 : list ascii :=
  list_ascii_of_string "ABCDEFGHIJKLMNOPQRSTUVWXYZ234567".

Definition alphabet_at (v : Z) : ascii :=
  nth (Z.to_nat v) RFC4648 "A"%char.

Fixpoint base32_loop (view : Buffer) (bits value : Z) : list ascii :=
  match view with
  | [] =>
      if 0 <? bits
      then [alphabet_at (Z.land (Z.shiftl value (5 - bits)) 31)]
      else []
  | b :: rest =>
      let value := Z.lor (Z.shiftl value 8) (byte_to_Z b) in
      let bits := bits + 8 in
      let c1 := alphabet_at (Z.land (Z.shiftr value (bits - 5)) 31) in
      if 5 <=? bits - 5
      then c1 :: alphabet_at (Z.land (Z.shiftr value (bits - 10)) 31)
              :: base32_loop rest (bits - 10) value
      else c1 :: base32_loop rest (bits - 5) value
  end.

Definition base32_padding (n : nat) : list ascii :=
  repeat "="%char ((8 - n mod 8) mod 8)%nat.

Definition base32Encode_chars (buffer : Buffer) : list ascii :=
  let output := base32_loop buffer 0 0 in
  output ++ base32_padding (length output).

Definition base32Encode (buffer : Buffer) : string :=
  string_of_list_ascii (base32Encode_chars buffer).

Definition lower_char (c : ascii) : ascii :=
  let n := N_of_ascii c in
  if (65 <=? n)%N && (n <=? 90)%N then ascii_of_N (n + 32) else c.

Definition is_eq_sign (c : ascii) : bool := Ascii.eqb c "="%char.

(** [s.toLowerCase()] *)
Definition toLowerCase (s : string) : string :=
  string_of_list_ascii (map lower_char (list_ascii_of_string s)).

(** [s.replace(/=/g, '')] *)
Definition replace_eq_signs (s : string) : string :=
  string_of_list_ascii
    (List.filter (fun c => negb (is_eq_sign c)) (list_ascii_of_string s)).



(** ** The TPM command interface

    One constructor per command the client sends, with the arguments the
    source passes.  [Connect] is [tpm.connect]. *)

Inductive Command :=
| Connect
| ReadPublic (objectHandle : Z)
| CreatePrimary (primaryHandle : Z) (inPublic : TPMT_PUBLIC)
| EvictControl (auth objectHandle persistentHandle : Z)
| FlushContext (flushHandle : Z)
| GetCapability (capability property propertyCount : Z)
| HMAC (keyHandle : Z) (buffer : Buffer) (hashAlg : Z)
| HMAC_Start (keyHandle : Z) (auth : Buffer) (hashAlg : Z)
| SequenceUpdate (sequenceHandle : Z) (buffer : Buffer)
| SequenceComplete (sequenceHandle : Z) (buffer : Buffer) (hierarchy : Z)
| GetRandom (bytesRequested : Z)
| StartAuthSession (nonceCaller : Buffer) (sessionType authHash : Z)
| PolicySecret (authHandle policySession : Z)
| ActivateCredential (activateHandle keyHandle : Z)
    (credentialBlob : option TPMS_ID_OBJECT) (secret : Buffer)
| Import (parentHandle : Z) (encryptionKey : Buffer)
    (objectPublic : option TPMT_PUBLIC) (duplicate inSymSeed : Buffer)
    (symmetricAlg : TPMT_SYM_DEF_OBJECT)
| Load (parentHandle : Z) (inPrivate : Buffer) (inPublic : option TPMT_PUBLIC).

(** What a continuation receives.  A command fills the fields it has. *)
Record Response := mkResponse {
  resp_handle : Z;
  outPublic : TPMT_PUBLIC;
  outBuffer : Buffer;
  tpmProperty : list (Z * Z)
}.

Definition no_response : Response := mkResponse 0 empty_PUBLIC [] [].

(** What the source takes from outside this file: the marshalling of tss.js,
    the SHA-256 of Node's crypto module, and the cryptography inside the
    module.  The unmarshalling functions return [None] where tss.js throws.
    [tss.marshal.sizedFromTpm] returns the object it read, or null when the
    size in front of it is zero, and the position behind it.
    [primary_unique] is the public key the module makes for a primary
    object. *)
Class External := {
  asTpm2B : TPMT_PUBLIC -> Buffer;
  ID_OBJECT_sizedFromTpm : Buffer -> Z -> option (option TPMS_ID_OBJECT * Z);
  ENCRYPTED_SECRET_fromTpm : Buffer -> Z -> option (Buffer * Z);
  PRIVATE_fromTpm : Buffer -> Z -> option (Buffer * Z);
  PUBLIC_sizedFromTpm : Buffer -> Z -> option (option TPMT_PUBLIC * Z);
  sha256 : Buffer -> Buffer;
  sha256_length : forall b, length (sha256 b) = 32%nat;
  primary_unique : Z -> TPMT_PUBLIC -> Buffer;
  keyed_hash : option TPMT_PUBLIC -> Z -> Buffer -> Buffer;
  module_bytes : Command -> Buffer
}.

(** ** The module

    The persistent and transient object spaces, the open hash sequences, the
    answer to the input-buffer capability query, and a script of forced
    response codes: the head of [faults] is the response code of the next
    command, and a code other than [SUCCESS] makes the command fail with no
    effect on the object spaces.  An exhausted script lets every command
    run. *)

Record Tpm := mkTpm {
  persistent : gmap Z TPMT_PUBLIC;
  transient : gmap Z TPMT_PUBLIC;
  sequences : gmap Z (option TPMT_PUBLIC * Z * Buffer);
  allocated : Z;
  capabilityData : list (Z * Z);
  faults : list Z;
  lastResponseCode : Z;
  connectThrows : bool
}.

Definition is_persistent (h : Z) : bool := Z.shiftr h 24 =? 0x81.

Definition fresh_handle (t : Tpm) : Z := 0x80000000 + allocated t mod 0x1000000.

Definition with_rc (rc : Z) (t : Tpm) : Tpm :=
  mkTpm (persistent t) (transient t) (sequences t) (allocated t)
        (capabilityData t) (faults t) rc (connectThrows t).

Definition with_persistent (p : gmap Z TPMT_PUBLIC) (t : Tpm) : Tpm :=
  mkTpm p (transient t) (sequences t) (allocated t)
        (capabilityData t) (faults t) (lastResponseCode t) (connectThrows t).

Definition with_transient (m : gmap Z TPMT_PUBLIC) (t : Tpm) : Tpm :=
  mkTpm (persistent t) m (sequences t) (allocated t)
        (capabilityData t) (faults t) (lastResponseCode t) (connectThrows t).

Definition with_sequences (m : gmap Z (option TPMT_PUBLIC * Z * Buffer)) (t : Tpm) : Tpm :=
  mkTpm (persistent t) (transient t) m (allocated t)
        (capabilityData t) (faults t) (lastResponseCode t) (connectThrows t).

Definition allocate (t : Tpm) : Tpm :=
  mkTpm (persistent t) (transient t) (sequences t) (allocated t + 1)
        (capabilityData t) (faults t) (lastResponseCode t) (connectThrows t).

Definition next_fault (t : Tpm) : Tpm :=
  mkTpm (persistent t) (transient t) (sequences t) (allocated t)
        (capabilityData t) (tail (faults t)) (lastResponseCode t) (connectThrows t).

Definition forced (t : Tpm) : option Z :=
  match faults t with
  | rc :: _ => if rc =? TPM_RC.SUCCESS then None else Some rc
  | [] => None
  end.

Definition lookup_object (t : Tpm) (h : Z) : option TPMT_PUBLIC :=
  if is_persistent h then persistent t !! h else transient t !! h.

Definition succeed (t : Tpm) (r : Response) : Tpm * Response :=
  (with_rc TPM_RC.SUCCESS t, r).

Definition fail (rc : Z) (t : Tpm) : Tpm * Response :=
  (with_rc rc t, no_response).

Section Module.
Context `{External}.

(** The public area of a primary object: the template, with the key the
    module made. *)
Definition primary_public (hierarchy : Z) (template : TPMT_PUBLIC) : TPMT_PUBLIC :=
  mkPublic (nameAlg template) (objectAttributes template) (authPolicy template)
           (parameters template)
           (Some (mkUnique (Some (primary_unique hierarchy template)))).

(** A command that was not forced to fail. *)
Definition perform (t : Tpm) (c : Command) : Tpm * Response :=
  match c with
  | Connect => (t, no_response)
  | ReadPublic h =>
      match lookup_object t h with
      | Some pub => succeed t (mkResponse 0 pub [] [])
      | None => fail TPM_RC.HANDLE t
      end
  | CreatePrimary hierarchy template =>
      let h := fresh_handle t in
      let pub := primary_public hierarchy template in
      succeed (allocate (with_transient (<[h := pub]> (transient t)) t))
              (mkResponse h pub [] [])
  | EvictControl _ obj target =>
      if is_persistent obj then
        match persistent t !! obj with
        | Some _ =>
            if obj =? target
            then succeed (with_persistent (delete obj (persistent t)) t) no_response
            else fail TPM_RC.HANDLE t
        | None => fail TPM_RC.HANDLE t
        end
      else
        match transient t !! obj, persistent t !! target with
        | Some pub, None =>
            if is_persistent target
            then succeed (with_persistent (<[target := pub]> (persistent t)) t) no_response
            else fail TPM_RC.HANDLE t
        | Some _, Some _ => fail TPM_RC.NV_DEFINED t
        | None, _ => fail TPM_RC.HANDLE t
        end
  | FlushContext h =>
      match transient t !! h, sequences t !! h with
      | None, None => fail TPM_RC.HANDLE t
      | _, _ =>
          succeed (with_sequences (delete h (sequences t))
                     (with_transient (delete h (transient t)) t)) no_response
      end
  | GetCapability _ _ _ =>
      succeed t (mkResponse 0 empty_PUBLIC [] (capabilityData t))
  | HMAC h data alg =>
      match lookup_object t h with
      | Some key => succeed t (mkResponse 0 empty_PUBLIC (keyed_hash (Some key) alg data) [])
      | None => fail TPM_RC.HANDLE t
      end
  | HMAC_Start h _ alg =>
      let hs := fresh_handle t in
      succeed (allocate (with_sequences (<[hs := (lookup_object t h, alg, [])]> (sequences t)) t))
              (mkResponse hs empty_PUBLIC [] [])
  | SequenceUpdate hs chunk =>
      match sequences t !! hs with
      | Some (key, alg, acc) =>
          succeed (with_sequences (<[hs := (key, alg, acc ++ chunk)]> (sequences t)) t)
                  no_response
      | None => fail TPM_RC.HANDLE t
      end
  | SequenceComplete hs chunk _ =>
      match sequences t !! hs with
      | Some (key, alg, acc) =>
          succeed (with_sequences (delete hs (sequences t)) t)
                  (mkResponse 0 empty_PUBLIC (keyed_hash key alg (acc ++ chunk)) [])
      | None => fail TPM_RC.HANDLE t
      end
  | StartAuthSession _ _ _ =>
      succeed (allocate t) (mkResponse (fresh_handle t) empty_PUBLIC (module_bytes c) [])
  | PolicySecret _ _ => succeed t no_response
  | GetRandom _ | ActivateCredential _ _ _ _ | Import _ _ _ _ _ _ =>
      succeed t (mkResponse 0 empty_PUBLIC (module_bytes c) [])
  | Load _ _ pub =>
      match pub with
      | Some pub =>
          let h := fresh_handle t in
          succeed (allocate (with_transient (<[h := pub]> (transient t)) t))
                  (mkResponse h pub [] [])
      | None => fail TPM_RC.FAILURE t
      end
  end.

(** The module answers one command. *)
Definition exec (t : Tpm) (c : Command) : Tpm * Response :=
  match c with
  | Connect => (t, no_response)
  | _ =>
      match forced t with
      | Some rc => fail rc (next_fault t)
      | None => perform (next_fault t) c
      end
  end.
End Module.

Arguments exec : simpl never.

(** ** The client's data *)

Inductive Error :=
| ReferenceError (message : string)
| InvalidOperationError (message : string)
| SecurityDeviceError (message : string) (rc : option Z)
| TypeError (message : string)
| TssError (message : string).

(** Arguments a callback is called with after the error. *)
Inductive Value :=
| VUndefined
| VNull
| VBuffer (b : Buffer)
| VString (s : string).

Inductive State := disconnected | connecting | connected.

Inductive Op :=
| GetEndorsementKey
| GetStorageRootKey
| SignWithIdentity (dataToSign : Buffer)
| ActivateSymmetricIdentity (identityKey : Buffer).

(** The callbacks handed to the state machine: the caller's own, the closure
    of the [disconnected] handlers that dispatches the operation again once
    [connect] has answered, and the closure of [getRegistrationId]. *)
Inductive Callback :=
| User (id : nat)
| Redispatch (op : Op) (callback : Callback)
| DeriveRegistrationId (callback : Callback).

(** Inputs of the state machine: [this._fsm.handle(name, ...args)]. *)
Inductive Input :=
| connect (connectCallback : Callback)
| request (op : Op) (callback : Callback)
| disconnect (callback : option Callback).

(** The callback of [_createPersistentPrimary]: the two closures of
    [connecting._onEnter], or a caller that records what it is given. *)
Inductive ProvisionCallback :=
| EkCreated (callback : Callback)
| SrkCreated (callback : Callback)
| Observe (id : nat).

(** The four components of the activation blob held in local variables. *)
Record ActivationParts := mkParts {
  credentialBlob : option TPMS_ID_OBJECT;
  encodedSecret : Buffer;
  idKeyDupBlob : Buffer;
  encWrapKey : Buffer
}.

(** The variables [loopFn] closes over in [_signData]. *)
Record SignLoop := mkLoop {
  loop_data : Buffer;
  maxInputBuffer : Z;
  hSequence : Z;
  curPos : Z;
  bytesLeft : Z
}.

(** The continuation passed with each command. *)
Inductive Kont :=
| K_connect (callback : Callback)
| K_ReadPublic (name : string) (hierarchy handle : Z) (template : TPMT_PUBLIC)
    (callback : ProvisionCallback)
| K_CreatePrimary (name : string) (handle : Z) (callback : ProvisionCallback)
| K_EvictControl (name : string) (created : Response) (callback : ProvisionCallback)
| K_FlushContext (name : string) (created : Response) (callback : ProvisionCallback)
| K_GetCapability (dataToSign : Buffer) (idKeyHashAlg : Z) (callback : Callback)
| K_HMAC (callback : Callback)
| K_HMAC_Start (dataToSign : Buffer) (maxInputBuffer : Z)
| K_loopFn (l : SignLoop)
| K_SequenceComplete
| K_GetRandom (parts : ActivationParts) (activateCallback : Callback)
| K_StartAuthSession (parts : ActivationParts) (activateCallback : Callback)
| K_PolicySecret (parts : ActivationParts) (policySession : Z) (activateCallback : Callback)
| K_ActivateCredential (parts : ActivationParts) (policySession : Z)
    (activateCallback : Callback)
| K_Import (policySession : Z) (activateCallback : Callback)
| K_Load (policySession : Z) (activateCallback : Callback)
| K_EvictIdKey (hIdKey policySession : Z) (activateCallback : Callback)
| K_PersistIdKey (hIdKey policySession : Z) (activateCallback : Callback)
| K_FlushIdKey (policySession : Z) (activateCallback : Callback)
| K_FlushSession (activateCallback : Callback).

(** What an observer of a run sees, in order. *)
Inductive Event :=
| Issued (c : Command)
| Called (id : nat) (err : option Error) (value : Value)
| Provisioned (id : nat) (err : option Error) (resultPublicKey : TPMT_PUBLIC)
| Handling (s : State) (i : Input)
| NoHandler (s : State) (i : Input)
| Deferred (i : Input)
| Transition (from to : State).

Record Client := mkClient {
  _ek : option TPMT_PUBLIC;
  _srk : option TPMT_PUBLIC;
  _registrationId : string;
  _idKeyPub : option TPMT_PUBLIC;
  state : State;
  inputQueue : list Input;
  targetReplayState : State
}.

Record World := mkWorld {
  client : Client;
  tpm : Tpm;
  inflight : list (Command * Kont);
  trace : list Event
}.

Definition State_eqb (a b : State) : bool :=
  match a, b with
  | disconnected, disconnected | connecting, connecting | connected, connected => true
  | _, _ => false
  end.

(** Field updates. *)
Definition set_ek (v : option TPMT_PUBLIC) (c : Client) : Client :=
  mkClient v (_srk c) (_registrationId c) (_idKeyPub c) (state c) (inputQueue c)
           (targetReplayState c).
Definition set_srk (v : option TPMT_PUBLIC) (c : Client) : Client :=
  mkClient (_ek c) v (_registrationId c) (_idKeyPub c) (state c) (inputQueue c)
           (targetReplayState c).
Definition set_registrationId (v : string) (c : Client) : Client :=
  mkClient (_ek c) (_srk c) v (_idKeyPub c) (state c) (inputQueue c)
           (targetReplayState c).
Definition set_idKeyPub (v : option TPMT_PUBLIC) (c : Client) : Client :=
  mkClient (_ek c) (_srk c) (_registrationId c) v (state c) (inputQueue c)
           (targetReplayState c).
Definition set_state (v : State) (c : Client) : Client :=
  mkClient (_ek c) (_srk c) (_registrationId c) (_idKeyPub c) v (inputQueue c) v.
Definition set_inputQueue (v : list Input) (c : Client) : Client :=
  mkClient (_ek c) (_srk c) (_registrationId c) (_idKeyPub c) (state c) v
           (targetReplayState c).

Definition on_client (f : Client -> Client) (w : World) : World :=
  mkWorld (f (client w)) (tpm w) (inflight w) (trace w).
Definition set_tpm (t : Tpm) (w : World) : World :=
  mkWorld (client w) t (inflight w) (trace w).
Definition set_inflight (l : list (Command * Kont)) (w : World) : World :=
  mkWorld (client w) (tpm w) l (trace w).
Definition log (e : Event) (w : World) : World :=
  mkWorld (client w) (tpm w) (inflight w) (trace w ++ [e]).

(** ** Synchronous turns

    A turn runs in a world and returns, throws, or runs out of the fuel that
    bounds the nesting of [handle], [transition] and the callbacks. *)

Inductive Outcome (A : Type) :=
| Returned (a : A) (w : World)
| Thrown (e : Error) (w : World)
| Exhausted.
Arguments Returned {A} a w.
Arguments Thrown {A} e w.
Arguments Exhausted {A}.

Definition Turn (A : Type) : Type := World -> Outcome A.

Definition ret {A} (a : A) : Turn A := fun w => Returned a w.

Definition bind {A B} (m : Turn A) (k : A -> Turn B) : Turn B :=
  fun w =>
    match m w with
    | Returned a w' => k a w'
    | Thrown e w' => Thrown e w'
    | Exhausted => Exhausted
    end.

Notation "x <- m ;; k" := (bind m (fun x => k))
  (at level 100, m at next level, right associativity).
Notation "m ;; k" := (bind m (fun _ => k))
  (at level 100, right associativity).

Definition throw {A} (e : Error) : Turn A := fun w => Thrown e w.
Definition exhausted {A} : Turn A := fun _ => Exhausted.
Definition get : Turn World := fun w => Returned w w.
Definition modify (f : World -> World) : Turn unit := fun w => Returned tt (f w).
Definition emit (e : Event) : Turn unit := modify (log e).
Definition update (f : Client -> Client) : Turn unit := modify (on_client f).

(** [try m catch (err) { h err }]: an exception of [m] is handled in the
    world it was thrown in. *)
Definition try_catch {A} (m : Turn A) (h : Error -> Turn A) : Turn A :=
  fun w =>
    match m w with
    | Thrown e w' => h e w'
    | r => r
    end.

(** A command leaves for the module with its continuation. *)
Definition issue (c : Command) (k : Kont) : Turn unit :=
  modify (fun w => log (Issued c) (set_inflight (inflight w ++ [(c, k)]) w)).

(** [_.each(items, f)] *)
Fixpoint each {A} (f : A -> Turn unit) (items : list A) : Turn unit :=
  match items with
  | [] => ret tt
  | x :: rest => f x ;; each f rest
  end.

(** ** Static members of [TpmSecurityClient] *)

Definition _aes128SymDef : TPMT_SYM_DEF_OBJECT :=
  mkSymDef TPM_ALG_ID.AES 128 TPM_ALG_ID.CFB.

Definition _ekPersistentHandle : Z := 0x81010001.
Definition _srkPersistentHandle : Z := 0x81000001.
Definition _idKeyPersistentHandle : Z := 0x81000100.

Definition _ekTemplate : TPMT_PUBLIC :=
  mkPublic TPM_ALG_ID.SHA256
    (Z.lor (Z.lor (Z.lor (Z.lor (Z.lor TPMA_OBJECT.restricted TPMA_OBJECT.decrypt)
       TPMA_OBJECT.fixedTPM) TPMA_OBJECT.fixedParent) TPMA_OBJECT.adminWithPolicy)
       TPMA_OBJECT.sensitiveDataOrigin)
    (Some (Buffer_from_hex
             "837197674484b3f81a90cc8d46a5d724fd52d76e06520b64f2a1da1b331469aa"))
    (TPMS_RSA_PARMS _aes128SymDef TPM_ALG_ID.NULL 2048 0)
    (Some (mkUnique None)).

Definition _srkTemplate : TPMT_PUBLIC :=
  mkPublic TPM_ALG_ID.SHA256
    (Z.lor (Z.lor (Z.lor (Z.lor (Z.lor (Z.lor TPMA_OBJECT.restricted TPMA_OBJECT.decrypt)
       TPMA_OBJECT.fixedTPM) TPMA_OBJECT.fixedParent) TPMA_OBJECT.noDA)
       TPMA_OBJECT.userWithAuth) TPMA_OBJECT.sensitiveDataOrigin)
    None
    (TPMS_RSA_PARMS _aes128SymDef TPM_ALG_ID.NULL 2048 0)
    (Some (mkUnique None)).

(** [new TpmSecurityClient(registrationId, customTpm)]: the fields, and the
    state machine in its initial state. *)
Definition TpmSecurityClient (registrationId : option string) : Client :=
  mkClient None None
    (match registrationId with Some id => id | None => EmptyString end)
    None disconnected [] disconnected.

Definition new_world (registrationId : option string) (customTpm : Tpm) : World :=
  mkWorld (TpmSecurityClient registrationId) customTpm [] [].

(** ** The methods and the state machine *)

Section Client.
Context `{External}.

Definition _createPersistentPrimary (name : string) (hierarchy handle : Z)
    (template : TPMT_PUBLIC) (callback : ProvisionCallback) : Turn unit :=
  issue (ReadPublic handle) (K_ReadPublic name hierarchy handle template callback).

(** [(<TPMS_SCHEME_HMAC>(<TPMS_KEYEDHASH_PARMS>pub.parameters).scheme).hashAlg];
    the casts are unchecked, and a scheme without the field gives no
    algorithm. *)
Definition idKeyHashAlg_of (pub : TPMT_PUBLIC) : Z :=
  match parameters pub with
  | TPMS_KEYEDHASH_PARMS (TPMS_SCHEME_HMAC alg) => alg
  | _ => TPM_ALG_ID.NULL
  end.

Definition _signData (dataToSign : Buffer) (callback : Callback) : Turn unit :=
  w <- get ;;
  match _idKeyPub (client w) with
  | None => throw (TypeError "Cannot read property 'parameters' of null")
  | Some pub =>
      issue (GetCapability TPM_CAP.TPM_PROPERTIES TPM_PT.INPUT_BUFFER 1)
            (K_GetCapability dataToSign (idKeyHashAlg_of pub) callback)
  end.

Definition loopFn (l : SignLoop) : Turn unit :=
  if maxInputBuffer l <? bytesLeft l
  then
    issue (SequenceUpdate (hSequence l)
             (slice (loop_data l) (curPos l) (curPos l + maxInputBuffer l)))
          (K_loopFn (mkLoop (loop_data l) (maxInputBuffer l) (hSequence l)
                            (curPos l + maxInputBuffer l)
                            (bytesLeft l - maxInputBuffer l)))
  else
    issue (SequenceComplete (hSequence l)
             (slice (loop_data l) (curPos l) (curPos l + bytesLeft l)) TPM_RH.NULL)
          K_SequenceComplete.

(** The five fields of the activation blob, consumed one after the other. *)
Definition unmarshal (activationBlob : Buffer)
    : option (ActivationParts * option TPMT_PUBLIC) :=
  let currentPosition := 0 in
  '(credentialBlob, currentPosition) ← ID_OBJECT_sizedFromTpm activationBlob currentPosition;
  '(encodedSecret, currentPosition) ← ENCRYPTED_SECRET_fromTpm activationBlob currentPosition;
  '(idKeyDupBlob, currentPosition) ← PRIVATE_fromTpm activationBlob currentPosition;
  '(encWrapKey, currentPosition) ← ENCRYPTED_SECRET_fromTpm activationBlob currentPosition;
  '(idKeyPub, currentPosition) ← PUBLIC_sizedFromTpm activationBlob currentPosition;
  Some (mkParts credentialBlob encodedSecret idKeyDupBlob encWrapKey, idKeyPub).

(** The last field is unmarshalled straight into [this._idKeyPub], null
    included. *)
Definition _activateSymmetricIdentity (activationBlob : Buffer)
    (activateCallback : Callback) : Turn unit :=
  match unmarshal activationBlob with
  | None => throw (TssError "unmarshal")
  | Some (parts, idKeyPub) =>
      update (set_idKeyPub idKeyPub) ;;
      issue (GetRandom 20) (K_GetRandom parts activateCallback)
  end.

(** [this._tpm.connect(continuation)] *)
Definition tpm_connect (k : Kont) : Turn unit :=
  w <- get ;;
  if connectThrows (tpm w) then throw (TssError "connect") else issue Connect k.

(** [this._fsm.deferUntilTransition()] *)
Definition deferUntilTransition (i : Input) : Turn unit :=
  update (fun c => set_inputQueue (inputQueue c ++ [i]) c) ;;
  emit (Deferred i).

(** machina's [handle], [transition] and [processQueue], with the handlers and
    [_onEnter] functions of the three states, and the callbacks. *)
Fixpoint handle (fuel : nat) (i : Input) {struct fuel} : Turn unit :=
  match fuel with
  | O => exhausted
  | S n =>
      w <- get ;;
      match state (client w) with
      | disconnected =>
          emit (Handling disconnected i) ;;
          match i with
          | connect connectCallback => transition n connecting connectCallback None
          | request op callback => handle n (connect (Redispatch op callback))
          | disconnect (Some callback) => invoke n callback None VUndefined
          | disconnect None => ret tt
          end
      | connecting =>
          emit (Handling connecting i) ;;
          deferUntilTransition i
      | connected =>
          match i with
          | request GetEndorsementKey callback =>
              emit (Handling connected i) ;;
              match _ek (client w) with
              | Some ek => invoke n callback None (VBuffer (asTpm2B ek))
              | None => throw (TypeError "Cannot read property 'asTpm2B' of null")
              end
          | request GetStorageRootKey callback =>
              emit (Handling connected i) ;;
              match _srk (client w) with
              | Some srk => invoke n callback None (VBuffer (asTpm2B srk))
              | None => throw (TypeError "Cannot read property 'asTpm2B' of null")
              end
          | request (SignWithIdentity dataToSign) callback =>
              emit (Handling connected i) ;;
              _signData dataToSign callback
          | request (ActivateSymmetricIdentity identityKey) callback =>
              emit (Handling connected i) ;;
              _activateSymmetricIdentity identityKey callback
          | _ => emit (NoHandler connected i)
          end
      end
  end
with transition (fuel : nat) (newState : State) (callback : Callback)
    (err : option Error) {struct fuel} : Turn unit :=
  match fuel with
  | O => exhausted
  | S n =>
      w <- get ;;
      let curState := state (client w) in
      if State_eqb newState curState then ret tt
      else
        update (set_state newState) ;;
        emit (Transition curState newState) ;;
        match newState with
        | disconnected =>
            update (set_ek None) ;;
            update (set_srk None) ;;
            match err with
            | Some e => invoke n callback (Some e) VUndefined
            | None => invoke n callback None VNull
            end
        | connecting =>
            try_catch (tpm_connect (K_connect callback))
                      (fun e => transition n disconnected callback (Some e))
        | connected => invoke n callback None VUndefined
        end ;;
        w' <- get ;;
        if State_eqb (targetReplayState (client w')) newState
        then processQueue n
        else ret tt
  end
with invoke (fuel : nat) (callback : Callback) (err : option Error) (value : Value)
    {struct fuel} : Turn unit :=
  match fuel with
  | O => exhausted
  | S n =>
      match callback with
      | User id => emit (Called id err value)
      | Redispatch op callback =>
          match err with
          | Some e => invoke n callback (Some e) VUndefined
          | None => handle n (request op callback)
          end
      | DeriveRegistrationId callback =>
          match err with
          | Some endorsementError => invoke n callback (Some endorsementError) VNull
          | None =>
              match value with
              | VBuffer endorsementKey =>
                  let id := replace_eq_signs
                              (toLowerCase (base32Encode (sha256 endorsementKey))) in
                  update (set_registrationId id) ;;
                  invoke n callback None (VString id)
              | _ => throw (TypeError "Data must be a string or a buffer")
              end
          end
      end
  end
with processQueue (fuel : nat) {struct fuel} : Turn unit :=
  match fuel with
  | O => exhausted
  | S n =>
      w <- get ;;
      update (set_inputQueue []) ;;
      each (handle n) (inputQueue (client w))
  end.

(** The two callbacks [connecting._onEnter] gives [_createPersistentPrimary]. *)
Definition provisioned (fuel : nat) (k : ProvisionCallback) (err : option Error)
    (resultPublicKey : TPMT_PUBLIC) : Turn unit :=
  match k with
  | EkCreated callback =>
      match err with
      | Some ekCreateErr => transition fuel disconnected callback (Some ekCreateErr)
      | None =>
          update (set_ek (Some resultPublicKey)) ;;
          _createPersistentPrimary "SRK" tss.Owner _srkPersistentHandle _srkTemplate
            (SrkCreated callback)
      end
  | SrkCreated callback =>
      match err with
      | Some srkCreateErr => transition fuel disconnected callback (Some srkCreateErr)
      | None =>
          update (set_srk (Some resultPublicKey)) ;;
          transition fuel connected callback None
      end
  | Observe id => emit (Provisioned id err resultPublicKey)
  end.

(** The callback [connected.signWithIdentity] gives [_signData]. *)
Definition signData_callback (fuel : nat) (callback : Callback) (err : option Error)
    (signedData : Value) : Turn unit :=
  match err with
  | Some e => transition fuel disconnected callback (Some e)
  | None => invoke fuel callback None signedData
  end.

(** The callback [connected.activateSymmetricIdentity] gives
    [_activateSymmetricIdentity]. *)
Definition activate_callback (fuel : nat) (callback : Callback) (err : option Error)
    : Turn unit :=
  match err with
  | Some e => transition fuel disconnected callback (Some e)
  | None => invoke fuel callback None VUndefined
  end.

(** [this._tpm.getLastResponseCode() !== TPM_RC.SUCCESS] *)
Definition command_failed (w : World) : bool :=
  negb (lastResponseCode (tpm w) =? TPM_RC.SUCCESS).

Definition device_error (message : string) (w : World) : Error :=
  SecurityDeviceError message (Some (lastResponseCode (tpm w))).

(** The continuation of a command runs on its response. *)
Definition resume (fuel : nat) (k : Kont) (resp : Response) : Turn unit :=
  w <- get ;;
  match k with
  | K_connect callback =>
      _createPersistentPrimary "EK" tss.Endorsement _ekPersistentHandle _ekTemplate
        (EkCreated callback)
  | K_ReadPublic name hierarchy handle template callback =>
      if command_failed w
      then issue (CreatePrimary hierarchy template) (K_CreatePrimary name handle callback)
      else provisioned fuel callback None (outPublic resp)
  | K_CreatePrimary name handle callback =>
      (* the argument of [debug], [resp.outPublic.unique.buffer.length], is
         evaluated whether debugging is on or not *)
      match unique (outPublic resp) with
      | None => throw (TypeError "Cannot read property 'buffer' of null")
      | Some key =>
          match buffer key with
          | None => throw (TypeError "Cannot read property 'length' of null")
          | Some _ =>
              issue (EvictControl tss.Owner (resp_handle resp) handle)
                    (K_EvictControl name resp callback)
          end
      end
  | K_EvictControl name created callback =>
      issue (FlushContext (resp_handle created)) (K_FlushContext name created callback)
  | K_FlushContext name created callback =>
      provisioned fuel callback None (outPublic created)
  | K_GetCapability dataToSign idKeyHashAlg callback =>
      match tpmProperty resp with
      | [(property, value)] =>
          if property =? TPM_PT.INPUT_BUFFER then
            let maxInputBuffer := value in
            if Buffer_length dataToSign <=? maxInputBuffer
            then issue (HMAC _idKeyPersistentHandle dataToSign idKeyHashAlg)
                       (K_HMAC callback)
            else issue (HMAC_Start _idKeyPersistentHandle [] idKeyHashAlg)
                       (K_HMAC_Start dataToSign maxInputBuffer)
          else
            signData_callback fuel callback
              (Some (SecurityDeviceError
                 "Unexpected result of TPM2_GetCapability(TPM_PT.INPUT_BUFFER)" None))
              VNull
      | _ =>
          signData_callback fuel callback
            (Some (SecurityDeviceError
               "Unexpected result of TPM2_GetCapability(TPM_PT.INPUT_BUFFER)" None))
            VNull
      end
  | K_HMAC callback =>
      signData_callback fuel callback None (VBuffer (outBuffer resp))
  | K_HMAC_Start dataToSign maxInputBuffer =>
      loopFn (mkLoop dataToSign maxInputBuffer (resp_handle resp) 0
                     (Buffer_length dataToSign))
  | K_loopFn l => loopFn l
  | K_SequenceComplete => ret tt
  | K_GetRandom parts activateCallback =>
      issue (StartAuthSession (outBuffer resp) TPM_SE.POLICY TPM_ALG_ID.SHA256)
            (K_StartAuthSession parts activateCallback)
  | K_StartAuthSession parts activateCallback =>
      if command_failed w
      then activate_callback fuel activateCallback
             (Some (device_error "Authorization session unable to be created.  RC value: " w))
      else issue (PolicySecret tss.Endorsement (resp_handle resp))
                 (K_PolicySecret parts (resp_handle resp) activateCallback)
  | K_PolicySecret parts policySession activateCallback =>
      if command_failed w
      then activate_callback fuel activateCallback
             (Some (device_error
                "Upable to apply the necessary policy to authorize the EK.  RC value: " w))
      else issue (ActivateCredential _srkPersistentHandle _ekPersistentHandle
                    (credentialBlob parts) (encodedSecret parts))
                 (K_ActivateCredential parts policySession activateCallback)
  | K_ActivateCredential parts policySession activateCallback =>
      if command_failed w
      then activate_callback fuel activateCallback
             (Some (device_error
                "Upable to decrypt the symmetric key used to protect duplication blob.  RC value: " w))
      else
        let innerWrapKey := outBuffer resp in
        let symDef := mkSymDef TPM_ALG_ID.AES (Buffer_length innerWrapKey * 8)
                               TPM_ALG_ID.CFB in
        issue (Import _srkPersistentHandle innerWrapKey (_idKeyPub (client w))
                 (idKeyDupBlob parts) (encWrapKey parts) symDef)
              (K_Import policySession activateCallback)
  | K_Import policySession activateCallback =>
      if command_failed w
      then activate_callback fuel activateCallback
             (Some (device_error
                "Upable to import the device id key into the TPM.  RC value: " w))
      else issue (Load _srkPersistentHandle (outBuffer resp) (_idKeyPub (client w)))
                 (K_Load policySession activateCallback)
  | K_Load policySession activateCallback =>
      if command_failed w
      then activate_callback fuel activateCallback
             (Some (device_error
                "Upable to load the device id key into the TPM.  RC value: " w))
      else issue (EvictControl tss.Owner _idKeyPersistentHandle _idKeyPersistentHandle)
                 (K_EvictIdKey (resp_handle resp) policySession activateCallback)
  | K_EvictIdKey hIdKey policySession activateCallback =>
      issue (EvictControl tss.Owner hIdKey _idKeyPersistentHandle)
            (K_PersistIdKey hIdKey policySession activateCallback)
  | K_PersistIdKey hIdKey policySession activateCallback =>
      if command_failed w
      then activate_callback fuel activateCallback
             (Some (device_error
                "Upable to persist the device id key into the TPM.  RC value: " w))
      else issue (FlushContext hIdKey) (K_FlushIdKey policySession activateCallback)
  | K_FlushIdKey policySession activateCallback =>
      issue (FlushContext policySession) (K_FlushSession activateCallback)
  | K_FlushSession activateCallback =>
      activate_callback fuel activateCallback None
  end.

(** The module answers the oldest command in flight and its continuation
    runs. *)
Definition deliver (fuel : nat) : Turn unit :=
  fun w =>
    match inflight w with
    | [] => Returned tt w
    | (c, k) :: rest =>
        let answer := exec (tpm w) c in
        resume fuel k (snd answer) (set_inflight rest (set_tpm (fst answer) w))
    end.

(** Answers are delivered until nothing is in flight. *)
Fixpoint run (steps fuel : nat) (w : World) : Outcome unit :=
  match inflight w, steps with
  | [], _ => Returned tt w
  | _ :: _, O => Exhausted
  | _ :: _, S n =>
      match deliver fuel w with
      | Returned _ w' => run n fuel w'
      | r => r
      end
  end.

(** *** Public methods *)

Definition getEndorsementKey (fuel : nat) (callback : Callback) : Turn unit :=
  handle fuel (request GetEndorsementKey callback).

Definition getStorageRootKey (fuel : nat) (callback : Callback) : Turn unit :=
  handle fuel (request GetStorageRootKey callback).

Definition signWithIdentity (fuel : nat) (dataToSign : option Buffer)
    (callback : Callback) : Turn unit :=
  match dataToSign with
  | None => throw (ReferenceError "'dataToSign' cannot be 'null'")
  | Some [] => throw (ReferenceError "'dataToSign' cannot be ''")
  | Some data =>
      w <- get ;;
      match _idKeyPub (client w) with
      | None =>
          throw (InvalidOperationError
            "activateSymmetricIdentity must be invoked before any signing is attempted.")
      | Some _ => handle fuel (request (SignWithIdentity data) callback)
      end
  end.

Definition activateSymmetricIdentity (fuel : nat) (identityKey : option Buffer)
    (callback : Callback) : Turn unit :=
  match identityKey with
  | None => throw (ReferenceError "'identityKey' cannot be 'null'")
  | Some [] => throw (ReferenceError "'identityKey' cannot be ''")
  | Some blob => handle fuel (request (ActivateSymmetricIdentity blob) callback)
  end.

Definition getRegistrationId (fuel : nat) (callback : Callback) : Turn unit :=
  w <- get ;;
  match _registrationId (client w) with
  | EmptyString => getEndorsementKey fuel (DeriveRegistrationId callback)
  | registrationId => invoke fuel callback None (VString registrationId)
  end.

End Client.

(** ** A reference environment

    A stand-in for the marshalling and the cryptography outside this file, in
    the way a [customTpm] stands in for the module: every field of the blob
    is a two-byte big-endian size followed by that many bytes, and reading
    past the end throws.  It is used to run the client on concrete inputs. *)

Module Reference.

Definition read_sized (buf : Buffer) (pos : Z) : option (Buffer * Z) :=
  match drop (Z.to_nat pos) buf with
  | hi :: lo :: _ =>
      let size := 256 * byte_to_Z hi + byte_to_Z lo in
      if pos + 2 + size <=? Buffer_length buf
      then Some (slice buf (pos + 2) (pos + 2 + size), pos + 2 + size)
      else None
  | _ => None
  end.

(** A sized object: null when the size is zero. *)
Definition read_ID_OBJECT (buf : Buffer) (pos : Z)
    : option (option TPMS_ID_OBJECT * Z) :=
  '(content, next) ← read_sized buf pos;
  match content with
  | [] => Some (None, next)
  | _ =>
      '(integrity, used) ← read_sized content 0;
      Some (Some (mkIdObject integrity (drop (Z.to_nat used) content)), next)
  end.

Definition read_PUBLIC (buf : Buffer) (pos : Z) : option (option TPMT_PUBLIC * Z) :=
  '(content, next) ← read_sized buf pos;
  match content with
  | [] => Some (None, next)
  | n1 :: n0 :: h1 :: h0 :: rest =>
      Some (Some (mkPublic (256 * byte_to_Z n1 + byte_to_Z n0) 0 (Some [])
                    (TPMS_KEYEDHASH_PARMS
                       (TPMS_SCHEME_HMAC (256 * byte_to_Z h1 + byte_to_Z h0)))
                    (Some (mkUnique (Some rest)))), next)
  | _ => None
  end.

(** The bytes of a field that may be null. *)
Definition bytes_of (b : option Buffer) : Buffer :=
  match b with
  | Some bytes => bytes
  | None => []
  end.

Definition unique_bytes (pub : TPMT_PUBLIC) : Buffer :=
  match unique pub with
  | Some key => bytes_of (buffer key)
  | None => []
  end.

Definition digest32 (b : Buffer) : Buffer :=
  map (fun i => nth i b "000"%byte) (seq 0 32).

#[global] Instance env : External := {|
  asTpm2B pub := bytes_of (authPolicy pub) ++ unique_bytes pub;
  ID_OBJECT_sizedFromTpm := read_ID_OBJECT;
  ENCRYPTED_SECRET_fromTpm := read_sized;
  PRIVATE_fromTpm := read_sized;
  PUBLIC_sizedFromTpm := read_PUBLIC;
  sha256 := digest32;
  sha256_length := fun _ => eq_refl;
  primary_unique hierarchy template :=
    if hierarchy =? tss.Endorsement then Buffer_from_hex "e0" else Buffer_from_hex "50";
  keyed_hash key alg data :=
    match key with
    | Some pub => unique_bytes pub ++ data
    | None => data
    end;
  module_bytes c :=
    match c with
    | GetRandom n => repeat "000"%byte (Z.to_nat n)
    | _ => repeat "001"%byte 16
    end
|}.

(** A module with nothing stored that reports an input buffer of [limit]
    bytes and follows the script [script]. *)
Definition tpm_with (limit : Z) (script : list Z) : Tpm :=
  mkTpm ∅ ∅ ∅ 0 [(TPM_PT.INPUT_BUFFER, limit)] script TPM_RC.SUCCESS false.

(** An activation blob: credential, secret, duplicate, wrap key, and the
    public area of an HMAC-SHA256 key with [unique = aabb]. *)
Definition blob : Buffer :=
  Buffer_from_hex "0004000111220002333300024444000255550006000b000baabb".

(** The same blob cut before its fifth field. *)
Definition truncated_blob : Buffer :=
  Buffer_from_hex "000400011122000233330002444400025555".

(** The same blob with a fifth field of size zero. *)
Definition blob_without_key : Buffer :=
  Buffer_from_hex "0004000111220002333300024444000255550000".

Definition idKey : TPMT_PUBLIC :=
  mkPublic TPM_ALG_ID.SHA256 0 (Some [])
    (TPMS_KEYEDHASH_PARMS (TPMS_SCHEME_HMAC TPM_ALG_ID.SHA256))
    (Some (mkUnique (Some (Buffer_from_hex "aabb")))).

(** The four fields in front of the public area in the blobs. *)
Definition parts : ActivationParts :=
  mkParts (Some (mkIdObject (Buffer_from_hex "11") (Buffer_from_hex "22")))
          (Buffer_from_hex "3333") (Buffer_from_hex "4444") (Buffer_from_hex "5555").

(** The world a run ends in. *)
Definition world_of (o : Outcome unit) : World :=
  match o with
  | Returned _ w | Thrown _ w => w
  | Exhausted => new_world None (tpm_with 0 [])
  end.

(** A new client on an empty module, connected by a first request for the
    endorsement key. *)
Definition connected_world (limit : Z) (script : list Z) : World :=
  world_of (run 30 9 (world_of
    (getEndorsementKey 9 (User 0) (new_world None (tpm_with limit script))))).

(** A new client on an empty module after the activation of [blob]. *)
Definition activated_world (limit : Z) (script : list Z) : World :=
  world_of (run 30 9 (world_of
    (activateSymmetricIdentity 9 (Some blob) (User 0)
       (new_world None (tpm_with limit script))))).

(** A second blob, for a key with [unique = ccdd]. *)
Definition blob2 : Buffer :=
  Buffer_from_hex "0004000111220002333300024444000255550006000b000bccdd".

End Reference.

(** The next [n] answers of the module. *)
Fixpoint answers `{External} (n fuel : nat) : Turn unit :=
  match n with
  | O => ret tt
  | S m => deliver fuel ;; answers m fuel
  end.

(** A turn followed by the delivery of every answer. *)
Definition settle `{External} (steps fuel : nat) (o : Outcome unit) : Outcome unit :=
  match o with
  | Returned _ w => run steps fuel w
  | r => r
  end.

Arguments run : simpl never.
Arguments settle : simpl never.

(** ** Vocabulary of the statements *)

(** One turn, then the next in the world the first returned. *)
Definition after (o : Outcome unit) (next : Turn unit) : Outcome unit :=
  match o with
  | Returned _ w => next w
  | r => r
  end.

(** The events of [w'] that [w] did not have yet. *)
Definition since (w w' : World) : list Event :=
  drop (length (trace w)) (trace w').

(** The callback a continuation of signing or of activation still owes. *)
Definition operation_callback (k : Kont) : option Callback :=
  match k with
  | K_GetCapability _ _ callback | K_HMAC callback
  | K_GetRandom _ callback | K_StartAuthSession _ callback
  | K_PolicySecret _ _ callback | K_ActivateCredential _ _ callback
  | K_Import _ callback | K_Load _ callback | K_EvictIdKey _ _ callback
  | K_PersistIdKey _ _ callback | K_FlushIdKey _ callback
  | K_FlushSession callback => Some callback
  | _ => None
  end.

(** [w] after the transition to [disconnected] that hands [e] to the caller's
    callback: the cached keys are cleared, nothing is added in flight. *)
Definition disconnect_with (id : nat) (e : Error) (w : World) : World :=
  mkWorld (mkClient None None (_registrationId (client w)) (_idKeyPub (client w))
                    disconnected [] disconnected)
          (tpm w) (inflight w)
          (trace w ++ [Transition connected disconnected; Called id (Some e) VUndefined]).

(** A disconnected [w] after a request: [connecting], with [tpm.connect] in
    flight. *)
Definition connect_started (op : Op) (callback : Callback) (w : World) : World :=
  mkWorld (mkClient (_ek (client w)) (_srk (client w)) (_registrationId (client w))
                    (_idKeyPub (client w)) connecting [] connecting)
          (tpm w)
          (inflight w ++ [(Connect, K_connect (Redispatch op callback))])
          (trace w ++ [Handling disconnected (request op callback);
                       Handling disconnected (connect (Redispatch op callback));
                       Transition disconnected connecting;
                       Issued Connect]).

(** The module after a primary object was created and made persistent. *)
Definition provisioned_tpm `{External} (hierarchy handle : Z) (template : TPMT_PUBLIC)
    (t : Tpm) : Tpm :=
  mkTpm (<[handle := primary_public hierarchy template]> (persistent t))
        (delete (fresh_handle t)
           (<[fresh_handle t := primary_public hierarchy template]> (transient t)))
        (delete (fresh_handle t) (sequences t))
        (allocated t + 1) (capabilityData t) [] TPM_RC.SUCCESS (connectThrows t).

(** What the module reports as its input-buffer limit. *)
Definition reported_input_buffer `{External} (t : Tpm) : list (Z * Z) :=
  tpmProperty (snd (exec t (GetCapability TPM_CAP.TPM_PROPERTIES TPM_PT.INPUT_BUFFER 1))).

(** The chunks of the signing loop: [k] of [limit] bytes, then the rest. *)
Definition update_chunk (data : Buffer) (limit : Z) (i : nat) : Buffer :=
  slice data (Z.of_nat i * limit) ((Z.of_nat i + 1) * limit).

Definition final_chunk (data : Buffer) (limit : Z) (k : nat) (r : Z) : Buffer :=
  slice data (Z.of_nat k * limit) (Z.of_nat k * limit + r).


(** The registration id as [getRegistrationId] computes it. *)
Definition registrationId_of `{External} (endorsementKey : Buffer) : string :=
  replace_eq_signs (toLowerCase (base32Encode (sha256 endorsementKey))).

(** A new client that was asked for the storage root key and is connecting:
    the endorsement key has come, the last command for the storage root key
    is in flight. *)
Definition connecting_world : World :=
  Reference.world_of (answers 8 9 (Reference.world_of
    (getStorageRootKey 9 (User 0) (new_world None (Reference.tpm_with 2 []))))).

(** A new client given three operations in a row: the first starts the
    connection, the activation of a truncated blob and the request for the
    storage root key find the machine connecting. *)
Definition three_submitted : Outcome unit :=
  after (after (getEndorsementKey 9 (User 0) (new_world None (Reference.tpm_with 2 [])))
               (activateSymmetricIdentity 9 (Some Reference.truncated_blob) (User 1)))
        (getStorageRootKey 9 (User 2)).

(** [w] after the inputs [l] were deferred in the [connecting] state. *)
Definition deferred (l : list Input) (w : World) : World :=
  mkWorld (set_inputQueue (inputQueue (client w) ++ l) (client w)) (tpm w) (inflight w)
          (trace w ++ concat (map (fun i => [Handling connecting i; Deferred i]) l)).

(** [w] when the storage root key has come and [connected] is entered. *)
Definition entered_connected (srkPublicKey : TPMT_PUBLIC) (w : World) : World :=
  mkWorld (mkClient (_ek (client w)) (Some srkPublicKey) (_registrationId (client w))
                    (_idKeyPub (client w)) connected (inputQueue (client w)) connected)
          (tpm w) (inflight w)
          (trace w ++ [Transition (state (client w)) connected]).

(** In the [connected] state a dispatch and the callbacks it calls leave the
    state of the machine and its queue as they are. *)
Definition settled (w w' : World) : Prop :=
  state (client w') = connected
  /\ targetReplayState (client w') = connected
  /\ inputQueue (client w') = inputQueue (client w).

(** A character that is no [=], also when lower-cased. *)
Definition plain (c : ascii) : Prop := is_eq_sign (lower_char c) = false.

(** The commands that write the persistent object space. *)
Definition writes_persistent (c : Command) : bool :=
  match c with
  | EvictControl _ _ _ => true
  | _ => false
  end.

(** The failures of activation that come before the old key is evicted. *)
Definition failures_before_evict : list string :=
  ["Authorization session unable to be created.  RC value: ";
   "Upable to apply the necessary policy to authorize the EK.  RC value: ";
   "Upable to decrypt the symmetric key used to protect duplication blob.  RC value: ";
   "Upable to import the device id key into the TPM.  RC value: ";
   "Upable to load the device id key into the TPM.  RC value: "]%string.

(** ** Vocabulary of the further statements *)

(** A disconnected [w] after a request whose [tpm.connect] threw: the machine
    went to [connecting] and back, and the caller's callback has the
    exception. *)
Definition connect_failed (op : Op) (id : nat) (e : Error) (w : World) : World :=
  mkWorld (mkClient None None (_registrationId (client w)) (_idKeyPub (client w))
                    disconnected [] disconnected)
          (tpm w) (inflight w)
          (trace w ++ [Handling disconnected (request op (User id));
                       Handling disconnected (connect (Redispatch op (User id)));
                       Transition disconnected connecting;
                       Transition connecting disconnected;
                       Called id (Some e) VUndefined]).

(** The key an operation of the [connected] state hands over. *)
Definition cached_key (op : Op) (c : Client) : option TPMT_PUBLIC :=
  match op with
  | GetEndorsementKey => _ek c
  | GetStorageRootKey => _srk c
  | _ => None
  end.

(** The error a continuation of signing or of activation makes of the
    module's answer, where the source makes one: the tests before each
    [new errors.SecurityDeviceError(...)] of [_signData] and
    [_activateSymmetricIdentity]. *)
Definition failure (k : Kont) (resp : Response) (w : World) : option Error :=
  let failed message :=
    if negb (lastResponseCode (tpm w) =? TPM_RC.SUCCESS)
    then Some (SecurityDeviceError message (Some (lastResponseCode (tpm w))))
    else None in
  match k with
  | K_GetCapability _ _ _ =>
      match tpmProperty resp with
      | [(property, _)] =>
          if property =? TPM_PT.INPUT_BUFFER then None
          else Some (SecurityDeviceError
                 "Unexpected result of TPM2_GetCapability(TPM_PT.INPUT_BUFFER)" None)
      | _ => Some (SecurityDeviceError
                 "Unexpected result of TPM2_GetCapability(TPM_PT.INPUT_BUFFER)" None)
      end
  | K_StartAuthSession _ _ =>
      failed "Authorization session unable to be created.  RC value: "%string
  | K_PolicySecret _ _ _ =>
      failed "Upable to apply the necessary policy to authorize the EK.  RC value: "%string
  | K_ActivateCredential _ _ _ =>
      failed "Upable to decrypt the symmetric key used to protect duplication blob.  RC value: "%string
  | K_Import _ _ =>
      failed "Upable to import the device id key into the TPM.  RC value: "%string
  | K_Load _ _ =>
      failed "Upable to load the device id key into the TPM.  RC value: "%string
  | K_PersistIdKey _ _ _ =>
      failed "Upable to persist the device id key into the TPM.  RC value: "%string
  | _ => None
  end.

(** Two signing requests made one after the other on a client with an
    identity key, on a module whose two capability answers are forced to
    fail. *)
Definition two_signatures_failing : Outcome unit :=
  settle 9 9
    (after (signWithIdentity 9 (Some (Buffer_from_hex "01")) (User 1)
              (Reference.activated_world 2
                 (repeat TPM_RC.SUCCESS 18 ++ [TPM_RC.FAILURE; TPM_RC.FAILURE])))
           (signWithIdentity 9 (Some (Buffer_from_hex "02")) (User 2))).


(** The alphabet of RFC 4648 base 32, lower-cased. *)
Definition lower_RFC4648 : list ascii :=
  list_ascii_of_string "abcdefghijklmnopqrstuvwxyz234567".

(** The releases of a handle among the events of a run. *)
Definition is_flush (e : Event) : bool :=
  match e with
  | Issued (FlushContext _) => true
  | _ => false
  end.

(** The continuations that test the answer of the module and report a
    failure. *)
Definition tests_the_answer (k : Kont) : bool :=
  match k with
  | K_GetCapability _ _ _ | K_StartAuthSession _ _ | K_PolicySecret _ _ _
  | K_ActivateCredential _ _ _ | K_Import _ _ | K_Load _ _ | K_PersistIdKey _ _ _ => true
  | _ => false
  end.

(** [tpm.connect] is no command of the module. *)
Definition is_Connect (c : Command) : bool :=
  match c with
  | Connect => true
  | _ => false
  end.

(** A connected client on which an activation and then a signature were
    started; the capability query of the signature was forced to fail, so the
    machine went to [disconnected] with the activation still running; a
    request for the endorsement key then started a new connection, which has
    read the endorsement key.  The next command of the activation and the
    read of the storage root key are in flight, and the module is about to
    fail the former. *)
Definition reconnecting_world : World :=
  let script := repeat TPM_RC.SUCCESS 9
                ++ [TPM_RC.FAILURE; TPM_RC.SUCCESS; TPM_RC.SUCCESS; TPM_RC.SUCCESS;
                    TPM_RC.FAILURE] in
  Reference.world_of
    (after
       (after
          (after
             (after
                (activateSymmetricIdentity 9 (Some Reference.blob) (User 1)
                   (Reference.connected_world 2 script))
                (signWithIdentity 9 (Some (Buffer_from_hex "01")) (User 2)))
             (answers 2 9))
          (getEndorsementKey 9 (User 3)))
       (answers 4 9)).

(** ** Properties that every turn keeps

    A turn keeps the relation [R] when the world it ends in, returning or
    throwing, is related to the world it started in. *)
Definition keeps (R : World -> World -> Prop) {A} (m : Turn A) : Prop :=
  forall w,
    match m w with
    | Returned _ w' | Thrown _ w' => R w w'
    | Exhausted => True
    end.

(** [Q] is a property of the registration id that the later world has
    whenever the earlier had it. *)
Definition stable (Q : string -> Prop) (w w' : World) : Prop :=
  Q (_registrationId (client w)) -> Q (_registrationId (client w')).

(** The calls of a callback in the style of Node: an error comes with no
    value or with null, and a call without an error never has null for its
    value. *)
Definition node_style (e : Event) : bool :=
  match e with
  | Called _ (Some _) VUndefined | Called _ (Some _) VNull => true
  | Called _ (Some _) _ => false
  | Called _ None VNull => false
  | _ => true
  end.

(** The later world has the events of the earlier and then only events in
    that style. *)
Definition adds_node_style (w w' : World) : Prop :=
  exists l, trace w' = trace w ++ l /\ forallb node_style l = true.

(** A [connecting] world after a failure was handed to the callback [id]:
    the machine went to [disconnected], the first deferred request started a
    new connection, and the other deferred inputs were deferred again. *)
Definition connection_restarted (id : nat) (e : Error) (op : Op) (callback : Callback)
    (rest : list Input) (w : World) : World :=
  mkWorld (mkClient None None (_registrationId (client w)) (_idKeyPub (client w))
                    connecting rest connecting)
          (tpm w)
          (inflight w ++ [(Connect, K_connect (Redispatch op callback))])
          (trace w
           ++ [Transition connecting disconnected;
               Called id (Some e) VUndefined;
               Handling disconnected (request op callback);
               Handling disconnected (connect (Redispatch op callback));
               Transition disconnected connecting;
               Issued Connect]
           ++ concat (map (fun i => [Handling connecting i; Deferred i]) rest)).

(** The calls of a caller's callback among the events of a run. *)
Definition is_call (e : Event) : bool :=
  match e with
  | Called _ _ _ => true
  | _ => false
  end.

(** ** The life of a client

    The public methods, each called with a callback of the caller's own. *)
Inductive Method :=
| method_getEndorsementKey
| method_getStorageRootKey
| method_signWithIdentity (dataToSign : option Buffer)
| method_activateSymmetricIdentity (identityKey : option Buffer)
| method_getRegistrationId.

Definition call `{External} (fuel : nat) (m : Method) (id : nat) : Turn unit :=
  match m with
  | method_getEndorsementKey => getEndorsementKey fuel (User id)
  | method_getStorageRootKey => getStorageRootKey fuel (User id)
  | method_signWithIdentity dataToSign => signWithIdentity fuel dataToSign (User id)
  | method_activateSymmetricIdentity identityKey =>
      activateSymmetricIdentity fuel identityKey (User id)
  | method_getRegistrationId => getRegistrationId fuel (User id)
  end.

(** What happens to a client: a caller calls a method, or the module answers
    the oldest command in flight. *)
Inductive Occurrence :=
| called (m : Method) (id : nat)
| answered.

Definition occur `{External} (fuel : nat) (o : Occurrence) : Turn unit :=
  match o with
  | called m id => call fuel m id
  | answered => deliver fuel
  end.

(** The world after a list of occurrences.  An exception goes to the caller
    of the method, or to whoever called the continuation, and the client
    lives on in the world it was thrown in. *)
Fixpoint history `{External} (fuel : nat) (l : list Occurrence) (w : World)
    : option World :=
  match l with
  | [] => Some w
  | o :: rest =>
      match occur fuel o w with
      | Returned _ w' | Thrown _ w' => history fuel rest w'
      | Exhausted => None
      end
  end.






(** * Properties *)

Ltac open_world w :=
  let c := fresh "c" in
  destruct w as [c ? ? ?]; destruct c; simpl in *; subst.

(** Evaluation of a turn. *)
Ltac turn :=
  repeat (progress (cbv [bind get ret throw exhausted modify emit update issue try_catch
                         signData_callback activate_callback provisioned after
                         _createPersistentPrimary _signData loopFn deferUntilTransition
                         tpm_connect command_failed device_error resume
                         on_client set_tpm set_inflight log
                         set_ek set_srk set_registrationId set_idKeyPub set_state
                         set_inputQueue] in *; cbn in * )).

(** Evaluation of the innermost answer of the module. *)
Ltac exec_step :=
  match goal with
  | |- context [exec ?t ?c] =>
      lazymatch t with context [exec _ _] => fail | _ => idtac end;
      let v := eval cbv [exec forced perform succeed fail next_fault with_rc with_persistent
                         with_transient with_sequences allocate lookup_object
                         faults persistent transient sequences allocated capabilityData
                         lastResponseCode connectThrows tail] in (exec t c) in
      change (exec t c) with v
  end.

Lemma drop_app_length' {A} (l k : list A) : drop (length l) (l ++ k) = k.
Proof. induction l; simpl; auto. Qed.

Ltac new_events :=
  unfold since; cbn [trace];
  first [ rewrite drop_app_length'
        | rewrite <- !app_assoc, drop_app_length'
        | rewrite drop_all ].

(** *** Delivering answers one at a time *)

Lemma run_nil `{External} (n fuel : nat) (w : World) :
  inflight w = [] -> run n fuel w = Returned tt w.
Proof. intros Hi. destruct n; unfold run; rewrite Hi; reflexivity. Qed.

Lemma run_cons `{External} (n fuel : nat) (w : World) (x : Command * Kont)
    (rest : list (Command * Kont)) :
  inflight w = x :: rest ->
  run (S n) fuel w = settle n fuel (deliver fuel w).
Proof.
  intros Hi. unfold settle, run. rewrite Hi. fold run.
  destruct (deliver fuel w); reflexivity.
Qed.

Lemma deliver_cons `{External} (fuel : nat) (w : World) (c : Command) (k : Kont)
    (rest : list (Command * Kont)) :
  inflight w = (c, k) :: rest ->
  deliver fuel w
  = resume fuel k (snd (exec (tpm w) c))
      (set_inflight rest (set_tpm (fst (exec (tpm w) c)) w)).
Proof.
  intros Hi. unfold deliver. rewrite Hi. reflexivity.
Qed.

Lemma settle_issue `{External} (n fuel : nat) (c : Command) (k : Kont) (w : World) :
  inflight w = [] ->
  settle (S n) fuel (issue c k w)
  = settle n fuel
      (resume fuel k (snd (exec (tpm w) c))
         (mkWorld (client w) (fst (exec (tpm w) c)) [] (trace w ++ [Issued c]))).
Proof.
  intros Hi. destruct w as [cl t infl tr]. simpl in Hi. subst.
  unfold settle at 1. unfold issue, modify.
  rewrite (run_cons n fuel _ (c, k) []) by reflexivity.
  rewrite (deliver_cons fuel _ c k []) by reflexivity.
  reflexivity.
Qed.

(** The oldest command in flight is answered and its continuation is left
    to run. *)
Ltac deliver_next :=
  lazymatch goal with
  | |- context [settle (S ?n) ?fuel (Returned tt ?w)] =>
      change (settle (S n) fuel (Returned tt w)) with (run (S n) fuel w);
      rewrite (run_cons n fuel w _ _ eq_refl);
      rewrite (deliver_cons fuel w _ _ _ eq_refl);
      cbn [tpm client inflight trace set_inflight set_tpm]
  end.

(** The same, with the answer of the module named and left abstract. *)
Ltac answer :=
  deliver_next;
  let t := fresh "t" in
  let r := fresh "resp" in
  let E := fresh "E" in
  match goal with
  | |- context [exec ?t0 ?c] => destruct (exec t0 c) as [t r] eqn:E
  end;
  cbn [fst snd].

(** Nothing is in flight any more. *)
Ltac quiet :=
  lazymatch goal with
  | |- context [settle ?n ?fuel (Returned tt ?w)] =>
      change (settle n fuel (Returned tt w)) with (run n fuel w);
      rewrite (run_nil n fuel w eq_refl)
  end.

(** An exception ends the run. *)
Ltac thrown :=
  lazymatch goal with
  | |- context [settle ?n ?fuel (Thrown ?e ?w)] =>
      change (settle n fuel (Thrown e w)) with (@Thrown unit e w)
  end.

(** A run to its end, with a case for each response code the source tests
    and for each field of an answer it reads that may be null. *)
Ltac go :=
  repeat first
    [ progress (match goal with
                | |- context [negb (lastResponseCode ?t =? TPM_RC.SUCCESS)] =>
                    destruct (lastResponseCode t =? TPM_RC.SUCCESS) eqn:?; turn
                | |- context [match unique (outPublic ?r) with _ => _ end] =>
                    destruct (unique (outPublic r)) as [[[?|]]|] eqn:?; turn
                end)
    | answer; turn
    | quiet
    | thrown ].

(** ** The module's fault script *)

Lemma perform_faults `{External} (t : Tpm) (c : Command) :
  faults (fst (perform t c)) = faults t.
Proof.
  destruct c; cbn [perform]; repeat case_match; reflexivity.
Qed.

(** A module with no forced failure left has none after a command. *)
Lemma exec_faults_nil `{External} (t t' : Tpm) (c : Command) (r : Response) :
  faults t = [] -> exec t c = (t', r) -> faults t' = [].
Proof.
  intros Hf He. unfold exec, forced in He. rewrite Hf in He.
  destruct c; try (apply (f_equal fst) in He; cbn [fst] in He; subst t';
                   rewrite perform_faults; cbn; rewrite Hf; reflexivity).
  injection He as <- _. exact Hf.
Qed.

(** [CreatePrimary] answers with the public area of the new object, or, when
    the script forces a failure, with an answer that has none. *)
Lemma exec_CreatePrimary `{External} (t t' : Tpm) (hierarchy : Z)
    (template : TPMT_PUBLIC) (r : Response) :
  exec t (CreatePrimary hierarchy template) = (t', r) ->
  (outPublic r = primary_public hierarchy template
   /\ lastResponseCode t' = TPM_RC.SUCCESS)
  \/ (r = no_response
      /\ lastResponseCode t' <> TPM_RC.SUCCESS
      /\ exists rc rest, faults t = rc :: rest /\ rc <> TPM_RC.SUCCESS).
Proof.
  intros He. unfold exec, forced in He.
  destruct (faults t) as [|rc rest] eqn:Hf.
  - injection He as <- <-. left. split; reflexivity.
  - destruct (rc =? TPM_RC.SUCCESS) eqn:Hrc.
    + injection He as <- <-. left. split; reflexivity.
    + injection He as <- <-. right. apply Z.eqb_neq in Hrc.
      split; [reflexivity|]. split; [exact Hrc|]. eauto.
Qed.

(** ** Signing preconditions *)

(** C6 (as the code has it): [signWithIdentity] with null or empty data
    throws the validation error of the source (a ReferenceError), and with
    data but no identity key public descriptor it throws
    InvalidOperationError; in each case the exception leaves in the world the
    call was made in: no command was issued and the state machine saw no
    input.  A client that was just constructed has no descriptor.  What the
    second check tests is the descriptor and not the success of an
    activation: with a descriptor, however it came there, the call is the
    dispatch of the request. *)
Theorem C6_signWithIdentity_preconditions `{External} :
  forall (fuel : nat) (callback : Callback) (w : World),
    signWithIdentity fuel None callback w
      = Thrown (ReferenceError "'dataToSign' cannot be 'null'") w
    /\ signWithIdentity fuel (Some []) callback w
      = Thrown (ReferenceError "'dataToSign' cannot be ''") w
    /\ (forall data : Buffer,
          data <> [] ->
          _idKeyPub (client w) = None ->
          signWithIdentity fuel (Some data) callback w
            = Thrown (InvalidOperationError
                 "activateSymmetricIdentity must be invoked before any signing is attempted.") w)
    /\ (forall registrationId, _idKeyPub (TpmSecurityClient registrationId) = None)
    /\ (forall (data : Buffer) (pub : TPMT_PUBLIC),
          data <> [] ->
          _idKeyPub (client w) = Some pub ->
          signWithIdentity fuel (Some data) callback w
            = handle fuel (request (SignWithIdentity data) callback) w).
Proof.
  intros fuel callback w. repeat split.
  - intros data Hdata Hkey.
    destruct data as [|b data]; [congruence|].
    unfold signWithIdentity, bind, get, throw. rewrite Hkey. reflexivity.
  - intros data pub Hdata Hkey.
    destruct data as [|b data]; [congruence|].
    unfold signWithIdentity, bind, get. rewrite Hkey. reflexivity.
Qed.

Lemma C6_signWithIdentity_preconditions_witness :
  signWithIdentity 9 (Some (Buffer_from_hex "0102")) (User 1)
      (new_world None (Reference.tpm_with 2 []))
  = Thrown (InvalidOperationError
       "activateSymmetricIdentity must be invoked before any signing is attempted.")
      (new_world None (Reference.tpm_with 2 [])).
Proof.
  apply (C6_signWithIdentity_preconditions 9 (User 1)
           (new_world None (Reference.tpm_with 2 []))).
  - vm_compute. discriminate.
  - reflexivity.
Defined.

(** C6, the claim refuted: on a connected client with no descriptor, an
    activation whose session start is forced to fail reports a device error,
    so no activation has succeeded; [signWithIdentity] called then does not
    throw InvalidOperationError: it returns, and the request has gone to the
    state machine, which starts to connect. *)
Lemma C6_counterexample :
  _idKeyPub (client (Reference.connected_world 2 (repeat TPM_RC.SUCCESS 9 ++ [TPM_RC.FAILURE])))
  = None
  /\ exists w' w'',
    settle 10 9
      (activateSymmetricIdentity 9 (Some Reference.blob) (User 1)
         (Reference.connected_world 2 (repeat TPM_RC.SUCCESS 9 ++ [TPM_RC.FAILURE])))
    = Returned tt w'
    /\ List.filter (fun e => match e with Called _ _ _ => true | _ => false end)
         (since (Reference.connected_world 2 (repeat TPM_RC.SUCCESS 9 ++ [TPM_RC.FAILURE]))
                w')
       = [Called 1
            (Some (SecurityDeviceError
                     "Authorization session unable to be created.  RC value: "
                     (Some TPM_RC.FAILURE)))
            VUndefined]
    /\ persistent (tpm w') !! _idKeyPersistentHandle = None
    /\ signWithIdentity 9 (Some (Buffer_from_hex "0102")) (User 2) w' = Returned tt w''
    /\ In (Handling disconnected
             (request (SignWithIdentity (Buffer_from_hex "0102")) (User 2)))
          (since w' w'')
    /\ inflight w''
       = [(Connect,
           K_connect (Redispatch (SignWithIdentity (Buffer_from_hex "0102")) (User 2)))].
Proof.
  split; [vm_compute; reflexivity|].
  eexists. eexists.
  split; [vm_compute; reflexivity|].
  split; [vm_compute; reflexivity|].
  split; [vm_compute; reflexivity|].
  split; [vm_compute; reflexivity|].
  split; [vm_compute; repeat (first [left; reflexivity | right])|].
  vm_compute. reflexivity.
Qed.

(** ** Unmarshalling failures *)

Lemma unmarshal_failure_throws `{External} :
  forall (fuel : nat) (blob : Buffer) (callback : Callback) (w : World),
    unmarshal blob = None ->
    state (client w) = connected ->
    _activateSymmetricIdentity blob callback w = Thrown (TssError "unmarshal") w
    /\ handle (S fuel) (request (ActivateSymmetricIdentity blob) callback) w
       = Thrown (TssError "unmarshal")
           (log (Handling connected (request (ActivateSymmetricIdentity blob) callback)) w).
Proof.
  intros fuel blob callback w Hparse Hstate.
  assert (Hact : forall w0, _activateSymmetricIdentity blob callback w0
                            = Thrown (TssError "unmarshal") w0).
  { intros w0. unfold _activateSymmetricIdentity. rewrite Hparse. reflexivity. }
  split; [apply Hact|].
  simpl. unfold bind at 1. unfold get. rewrite Hstate.
  unfold bind, emit, modify. rewrite Hact. reflexivity.
Qed.

(** C10: when a field of the activation blob cannot be unmarshalled, the
    activation routine throws; dispatched in the [connected] state, the
    exception leaves the handler and the public method with nothing but the
    dispatch recorded: the callback was not called, no command was issued, and
    the state is still [connected]. *)
Theorem C10_unmarshal_failure_is_thrown `{External} :
  forall (fuel : nat) (blob : Buffer) (callback : Callback) (w : World),
    unmarshal blob = None ->
    blob <> [] ->
    state (client w) = connected ->
    let dispatched :=
      log (Handling connected (request (ActivateSymmetricIdentity blob) callback)) w in
    _activateSymmetricIdentity blob callback w = Thrown (TssError "unmarshal") w
    /\ handle (S fuel) (request (ActivateSymmetricIdentity blob) callback) w
         = Thrown (TssError "unmarshal") dispatched
    /\ activateSymmetricIdentity (S fuel) (Some blob) callback w
         = Thrown (TssError "unmarshal") dispatched
    /\ state (client dispatched) = connected
    /\ inflight dispatched = inflight w.
Proof.
  intros fuel blob callback w Hparse Hblob Hstate dispatched.
  destruct (unmarshal_failure_throws fuel blob callback w Hparse Hstate) as [Hact Hhandle].
  repeat split; auto.
  destruct blob as [|b blob]; [congruence|]. exact Hhandle.
Qed.

Lemma C10_unmarshal_failure_is_thrown_witness :
  handle 9 (request (ActivateSymmetricIdentity Reference.truncated_blob) (User 1))
         (mkWorld (mkClient None None EmptyString None connected [] connected)
                  (Reference.tpm_with 2 []) [] [])
  = Thrown (TssError "unmarshal")
      (log (Handling connected
              (request (ActivateSymmetricIdentity Reference.truncated_blob) (User 1)))
           (mkWorld (mkClient None None EmptyString None connected [] connected)
                    (Reference.tpm_with 2 []) [] [])).
Proof.
  apply (C10_unmarshal_failure_is_thrown 8 Reference.truncated_blob (User 1)
           (mkWorld (mkClient None None EmptyString None connected [] connected)
                    (Reference.tpm_with 2 []) [] [])).
  - vm_compute. reflexivity.
  - vm_compute. discriminate.
  - reflexivity.
Defined.

(** ** Failures while connected *)

(** A failure that a continuation of signing or of activation finds in the
    answer of the module is handed to the transition to [disconnected]. *)
Lemma failure_is_a_transition `{External} (fuel : nat) (k : Kont) (resp : Response)
    (callback : Callback) (e : Error) (w : World) :
  operation_callback k = Some callback ->
  failure k resp w = Some e ->
  resume fuel k resp w = transition fuel disconnected callback (Some e) w.
Proof.
  intros Hk Hfail.
  destruct k; simpl in Hk; try discriminate Hk; injection Hk as ->;
    unfold failure in Hfail; try discriminate Hfail;
    unfold resume, bind, get, command_failed, device_error, activate_callback,
      signData_callback.
  1: { destruct (tpmProperty resp) as [|[property value] [|]];
         [injection Hfail as <-; reflexivity| |injection Hfail as <-; reflexivity].
       destruct (property =? TPM_PT.INPUT_BUFFER);
         [discriminate Hfail|injection Hfail as <-; reflexivity]. }
  all: destruct (lastResponseCode (tpm w) =? TPM_RC.SUCCESS); cbn [negb] in Hfail |- *;
       [discriminate Hfail|injection Hfail as <-; reflexivity].
Qed.

(** C8 (as the code has it): in the [connected] state with nothing deferred,
    when a continuation of signing or of activation finds a failure in the
    answer of the module (an unexpected capability result, or a response
    code other than success where the source tests it), the turn ends in the
    world [disconnect_with]: the state is [disconnected], [_ek] and [_srk]
    are null, the error has reached the caller's callback, and nothing was
    added in flight, so nothing is retried.  The next request then enters
    [connecting] and sends [tpm.connect], whose continuation reads the
    endorsement key again. *)
Theorem C8_failure_while_connected_disconnects `{External} :
  forall (fuel : nat) (k : Kont) (resp : Response) (id : nat) (e : Error) (w : World),
    operation_callback k = Some (User id) ->
    state (client w) = connected ->
    inputQueue (client w) = [] ->
    failure k resp w = Some e ->
    resume (4 + fuel) k resp w = Returned tt (disconnect_with id e w)
    /\ forall op callback,
         connectThrows (tpm w) = false ->
         handle (4 + fuel) (request op callback) (disconnect_with id e w)
           = Returned tt (connect_started op callback (disconnect_with id e w))
         /\ forall r w0,
              resume fuel (K_connect (Redispatch op callback)) r w0
              = _createPersistentPrimary "EK" tss.Endorsement _ekPersistentHandle
                  _ekTemplate (EkCreated (Redispatch op callback)) w0.
Proof.
  intros fuel k resp id e w Hk Hs Hq Hfail.
  rewrite (failure_is_a_transition _ k resp (User id) e w Hk Hfail).
  clear Hk Hfail.
  open_world w. unfold disconnect_with, connect_started. turn.
  split; [rewrite <- ?app_assoc; reflexivity|].
  intros op callback Hthrows. turn. rewrite Hthrows. turn.
  split; [rewrite <- ?app_assoc; reflexivity|reflexivity].
Qed.

Lemma C8_failure_while_connected_disconnects_witness :
  resume 4 (K_GetCapability (Buffer_from_hex "0102") TPM_ALG_ID.SHA256 (User 1)) no_response
    (mkWorld (mkClient (Some _ekTemplate) (Some _srkTemplate) EmptyString
                       (Some Reference.idKey) connected [] connected)
             (Reference.tpm_with 2 []) [] [])
  = Returned tt
      (disconnect_with 1
         (SecurityDeviceError
            "Unexpected result of TPM2_GetCapability(TPM_PT.INPUT_BUFFER)" None)
         (mkWorld (mkClient (Some _ekTemplate) (Some _srkTemplate) EmptyString
                            (Some Reference.idKey) connected [] connected)
                  (Reference.tpm_with 2 []) [] [])).
Proof.
  apply (C8_failure_while_connected_disconnects 0
           (K_GetCapability (Buffer_from_hex "0102") TPM_ALG_ID.SHA256 (User 1))
           no_response 1
           (SecurityDeviceError
              "Unexpected result of TPM2_GetCapability(TPM_PT.INPUT_BUFFER)" None)
           (mkWorld (mkClient (Some _ekTemplate) (Some _srkTemplate) EmptyString
                              (Some Reference.idKey) connected [] connected)
                    (Reference.tpm_with 2 []) [] [])
           eq_refl eq_refl eq_refl eq_refl).
Defined.

(** ** The persistent-key provisioner *)

Lemma fresh_not_persistent (t : Tpm) : is_persistent (fresh_handle t) = false.
Proof.
  unfold is_persistent, fresh_handle.
  rewrite Z.shiftr_div_pow2 by lia.
  assert (Hm : 0 <= allocated t mod 0x1000000 < 0x1000000) by (apply Z.mod_pos_bound; lia).
  replace ((0x80000000 + allocated t mod 0x1000000) / 2 ^ 24) with 0x80; [reflexivity|].
  change (2 ^ 24) with 0x1000000.
  apply Z.div_unique with (r := allocated t mod 0x1000000); lia.
Qed.

Lemma provision_present `{External} :
  forall fuel name hierarchy handle template id pub (w : World),
    inflight w = [] ->
    faults (tpm w) = [] ->
    is_persistent handle = true ->
    persistent (tpm w) !! handle = Some pub ->
    settle 4 fuel (_createPersistentPrimary name hierarchy handle template (Observe id) w)
    = Returned tt
        (mkWorld (client w) (with_rc TPM_RC.SUCCESS (tpm w)) []
                 (trace w ++ [Issued (ReadPublic handle); Provisioned id None pub])).
Proof.
  intros fuel name hierarchy handle template id pub w Hi Hf Hp Hl.
  destruct w as [c t infl tr]. destruct t as [pers trans seqs alloc caps fl rc thr].
  simpl in *. subst. turn.
  deliver_next. exec_step. rewrite Hp, Hl. turn. try quiet.
  rewrite <- app_assoc. reflexivity.
Qed.

Lemma provision_absent `{External} :
  forall fuel name hierarchy handle template id (w : World),
    inflight w = [] ->
    faults (tpm w) = [] ->
    is_persistent handle = true ->
    persistent (tpm w) !! handle = None ->
    settle 4 fuel (_createPersistentPrimary name hierarchy handle template (Observe id) w)
    = Returned tt
        (mkWorld (client w) (provisioned_tpm hierarchy handle template (tpm w)) []
                 (trace w ++ [Issued (ReadPublic handle);
                              Issued (CreatePrimary hierarchy template);
                              Issued (EvictControl tss.Owner (fresh_handle (tpm w)) handle);
                              Issued (FlushContext (fresh_handle (tpm w)));
                              Provisioned id None (primary_public hierarchy template)])).
Proof.
  intros fuel name hierarchy handle template id w Hi Hf Hp Hl.
  destruct w as [c t infl tr]. destruct t as [pers trans seqs alloc caps fl rc thr].
  simpl in *. subst. turn.
  deliver_next. exec_step. rewrite Hp, Hl. turn.
  deliver_next. exec_step. turn.
  deliver_next. exec_step.
  rewrite fresh_not_persistent, lookup_insert_eq, Hl, Hp. turn.
  deliver_next. exec_step. rewrite lookup_insert_eq. turn. try quiet.
  unfold provisioned_tpm. cbn. rewrite <- !app_assoc. reflexivity.
Qed.

(** C4 (as the code has it): every response code of the first read other than
    success, the not-found code or any other, makes the provisioner create
    the key: [CreatePrimary] is the next command, and the read result is not
    handed to the caller as a failure.  When the module has failed the read,
    the run ends in one of two ways: the key is created, moved to the
    persistent handle and released, and the callback receives a null error;
    or the answer to [CreatePrimary] carries no public key, the continuation
    throws on reading it, and the callback is not called. *)
Theorem C4_every_read_failure_creates `{External} :
  forall (fuel : nat) (name : string) (hierarchy handle : Z) (template : TPMT_PUBLIC)
         (callback : ProvisionCallback) (id : nat) (resp : Response) (w : World),
    (lastResponseCode (tpm w) <> TPM_RC.SUCCESS ->
     resume fuel (K_ReadPublic name hierarchy handle template callback) resp w
     = Returned tt
         (mkWorld (client w) (tpm w)
            (inflight w ++ [(CreatePrimary hierarchy template,
                             K_CreatePrimary name handle callback)])
            (trace w ++ [Issued (CreatePrimary hierarchy template)])))
    /\ (forall (rc : Z) (rest : list Z),
          inflight w = [] ->
          faults (tpm w) = rc :: rest ->
          rc <> TPM_RC.SUCCESS ->
          exists w',
            ((exists created pub,
                settle 4 fuel
                  (_createPersistentPrimary name hierarchy handle template (Observe id) w)
                = Returned tt w'
                /\ since w w'
                   = [Issued (ReadPublic handle);
                      Issued (CreatePrimary hierarchy template);
                      Issued (EvictControl tss.Owner created handle);
                      Issued (FlushContext created);
                      Provisioned id None pub])
             \/ (exists message,
                   settle 4 fuel
                     (_createPersistentPrimary name hierarchy handle template (Observe id) w)
                   = Thrown (TypeError message) w'
                   /\ since w w'
                      = [Issued (ReadPublic handle);
                         Issued (CreatePrimary hierarchy template)]))
            /\ inflight w' = []).
Proof.
  intros fuel name hierarchy handle template callback id resp w. split.
  - intros Hrc. unfold resume, bind, get, command_failed.
    destruct (lastResponseCode (tpm w) =? TPM_RC.SUCCESS) eqn:E.
    + apply Z.eqb_eq in E. contradiction.
    + reflexivity.
  - intros rc rest Hi Hf Hrc. apply Z.eqb_neq in Hrc.
    destruct w as [c t infl tr]. destruct t as [pers trans seqs alloc caps fl rc0 thr].
    simpl in Hi, Hf. subst. turn.
    deliver_next. exec_step. rewrite Hrc. turn. rewrite Hrc. turn.
    go.
    all: eexists; split;
      [first [ left; eexists; eexists; split; [reflexivity|]; new_events; reflexivity
             | right; eexists; split; [reflexivity|]; new_events; reflexivity ]
      |reflexivity].
Qed.

Lemma C4_every_read_failure_creates_witness :
  resume 9 (K_ReadPublic "EK" tss.Endorsement _ekPersistentHandle _ekTemplate (Observe 1))
    no_response
    (new_world None (with_rc TPM_RC.FAILURE (Reference.tpm_with 2 [])))
  = Returned tt
      (mkWorld (TpmSecurityClient None) (with_rc TPM_RC.FAILURE (Reference.tpm_with 2 []))
         [(CreatePrimary tss.Endorsement _ekTemplate,
           K_CreatePrimary "EK" _ekPersistentHandle (Observe 1))]
         [Issued (CreatePrimary tss.Endorsement _ekTemplate)])
  /\ exists w',
       settle 4 9
         (_createPersistentPrimary "EK" tss.Endorsement _ekPersistentHandle _ekTemplate
            (Observe 1) (new_world None (Reference.tpm_with 2 [TPM_RC.NV_DEFINED])))
       = Returned tt w'
       /\ last (trace w')
          = Some (Provisioned 1 None (primary_public tss.Endorsement _ekTemplate)).
Proof.
  destruct (C4_every_read_failure_creates 9 "EK" tss.Endorsement _ekPersistentHandle
              _ekTemplate (Observe 1) 1 no_response
              (new_world None (with_rc TPM_RC.FAILURE (Reference.tpm_with 2 []))))
    as [Hcreate _].
  split; [apply Hcreate; discriminate|].
  destruct (C4_every_read_failure_creates 9 "EK" tss.Endorsement _ekPersistentHandle
              _ekTemplate (Observe 1) 1 no_response
              (new_world None (Reference.tpm_with 2 [TPM_RC.NV_DEFINED])))
    as [_ Hrun].
  destruct (Hrun TPM_RC.NV_DEFINED [] eq_refl eq_refl ltac:(discriminate))
    as [w' [[[created [pub [Hsettle Hsince]]]|[message [Hsettle Hsince]]] _]].
  - exists w'. split; [exact Hsettle|].
    vm_compute in Hsettle. injection Hsettle as <-. vm_compute. reflexivity.
  - vm_compute in Hsettle. discriminate Hsettle.
Defined.

(** C4, the claim refuted: the first read is answered with [FAILURE], which is
    not the not-found code [HANDLE], and still the provisioner creates the
    key, makes it persistent and calls back with a null error. *)
Lemma C4_counterexample :
  TPM_RC.FAILURE <> TPM_RC.HANDLE
  /\ lastResponseCode
       (fst (exec (Reference.tpm_with 2 [TPM_RC.FAILURE]) (ReadPublic _ekPersistentHandle)))
     = TPM_RC.FAILURE
  /\ exists w',
       settle 4 9
         (_createPersistentPrimary "EK" tss.Endorsement _ekPersistentHandle _ekTemplate
            (Observe 1) (new_world None (Reference.tpm_with 2 [TPM_RC.FAILURE])))
       = Returned tt w'
       /\ trace w'
          = [Issued (ReadPublic _ekPersistentHandle);
             Issued (CreatePrimary tss.Endorsement _ekTemplate);
             Issued (EvictControl tss.Owner 0x80000000 _ekPersistentHandle);
             Issued (FlushContext 0x80000000);
             Provisioned 1 None (primary_public tss.Endorsement _ekTemplate)].
Proof.
  split; [discriminate|]. split; [reflexivity|].
  eexists. split; vm_compute; reflexivity.
Qed.

(** ** Idempotent provisioning *)

(** C5 (as the code has it): on a module that fails no command, provisioning
    the same persistent handle twice in sequence is idempotent.  The first
    call ends with the key at the handle, the one that was there or, where
    there was none, the primary key it had the module create, and hands its
    public area to the callback; the second call then sends the module one
    command only, the read of the public area, hands over the same public
    area, and leaves the object spaces of the module as they were: no
    create, no evict. *)
Theorem C5_provisioning_twice_is_idempotent `{External} :
  forall (fuel : nat) (name : string) (hierarchy handle : Z) (template : TPMT_PUBLIC)
         (w : World),
    inflight w = [] ->
    faults (tpm w) = [] ->
    is_persistent handle = true ->
    exists pub w1 w2,
      settle 4 fuel
        (_createPersistentPrimary name hierarchy handle template (Observe 1) w)
        = Returned tt w1
      /\ last (trace w1) = Some (Provisioned 1 None pub)
      /\ persistent (tpm w1) !! handle = Some pub
      /\ match persistent (tpm w) !! handle with
         | Some old => pub = old /\ since w w1 = [Issued (ReadPublic handle);
                                                  Provisioned 1 None pub]
         | None =>
             pub = primary_public hierarchy template
             /\ In (Issued (CreatePrimary hierarchy template)) (since w w1)
         end
      /\ settle 4 fuel
           (_createPersistentPrimary name hierarchy handle template (Observe 2) w1)
           = Returned tt w2
      /\ since w1 w2 = [Issued (ReadPublic handle); Provisioned 2 None pub]
      /\ persistent (tpm w2) = persistent (tpm w1)
      /\ transient (tpm w2) = transient (tpm w1).
Proof.
  intros fuel name hierarchy handle template w Hi Hf Hp.
  destruct (persistent (tpm w) !! handle) as [pub|] eqn:Hl.
  - exists pub. eexists. eexists.
    split; [apply provision_present; eauto|].
    split; [simpl; rewrite last_app; reflexivity|].
    split; [exact Hl|].
    split; [split; [reflexivity|new_events; reflexivity]|].
    split; [apply provision_present with (pub := pub); simpl; eauto|].
    split; [new_events; reflexivity|].
    split; reflexivity.
  - exists (primary_public hierarchy template). eexists. eexists.
    split; [apply provision_absent; eauto|].
    split; [simpl; rewrite last_app; reflexivity|].
    split; [apply lookup_insert_eq|].
    split; [split; [reflexivity|new_events; right; left; reflexivity]|].
    split; [apply provision_present with (pub := primary_public hierarchy template);
            simpl; eauto; apply lookup_insert_eq|].
    split; [new_events; reflexivity|].
    split; reflexivity.
Qed.

Lemma C5_provisioning_twice_is_idempotent_witness :
  exists pub w1 w2,
    settle 4 9
      (_createPersistentPrimary "EK" tss.Endorsement _ekPersistentHandle _ekTemplate
         (Observe 1) (new_world None (Reference.tpm_with 2 [])))
      = Returned tt w1
    /\ persistent (tpm w1) !! _ekPersistentHandle = Some pub
    /\ settle 4 9
         (_createPersistentPrimary "EK" tss.Endorsement _ekPersistentHandle _ekTemplate
            (Observe 2) w1)
         = Returned tt w2
    /\ since w1 w2 = [Issued (ReadPublic _ekPersistentHandle); Provisioned 2 None pub].
Proof.
  destruct (C5_provisioning_twice_is_idempotent 9 "EK" tss.Endorsement _ekPersistentHandle
              _ekTemplate (new_world None (Reference.tpm_with 2 []))
              eq_refl eq_refl eq_refl)
    as [pub [w1 [w2 [Hfirst [_ [Hkey [_ [Hsecond [Hsince _]]]]]]]]].
  exists pub, w1, w2. repeat split; assumption.
Defined.

(** C5, the claim refuted: the module fails the [EvictControl] of the first
    call.  That call hands its callback a null error and the public area of
    the key all the same, but the key is not at the handle; the second call
    finds nothing there, and creates and evicts again. *)
Lemma C5_counterexample :
  exists w1 w2,
    settle 4 9
      (_createPersistentPrimary "EK" tss.Endorsement _ekPersistentHandle _ekTemplate
         (Observe 1)
         (new_world None
            (Reference.tpm_with 2 [TPM_RC.SUCCESS; TPM_RC.SUCCESS; TPM_RC.FAILURE])))
      = Returned tt w1
    /\ last (trace w1)
       = Some (Provisioned 1 None (primary_public tss.Endorsement _ekTemplate))
    /\ persistent (tpm w1) !! _ekPersistentHandle = None
    /\ settle 4 9
         (_createPersistentPrimary "EK" tss.Endorsement _ekPersistentHandle _ekTemplate
            (Observe 2) w1)
         = Returned tt w2
    /\ since w1 w2
       = [Issued (ReadPublic _ekPersistentHandle);
          Issued (CreatePrimary tss.Endorsement _ekTemplate);
          Issued (EvictControl tss.Owner 0x80000001 _ekPersistentHandle);
          Issued (FlushContext 0x80000001);
          Provisioned 2 None (primary_public tss.Endorsement _ekTemplate)].
Proof.
  eexists. eexists.
  split; [vm_compute; reflexivity|].
  split; [vm_compute; reflexivity|].
  split; [vm_compute; reflexivity|].
  split; vm_compute; reflexivity.
Qed.

(** ** Chunked signing *)

Lemma loopFn_update `{External} (l : SignLoop) (w : World) :
  maxInputBuffer l < bytesLeft l ->
  loopFn l w
  = issue (SequenceUpdate (hSequence l)
             (slice (loop_data l) (curPos l) (curPos l + maxInputBuffer l)))
          (K_loopFn (mkLoop (loop_data l) (maxInputBuffer l) (hSequence l)
                            (curPos l + maxInputBuffer l)
                            (bytesLeft l - maxInputBuffer l))) w.
Proof.
  intros Hlt. unfold loopFn. apply Z.ltb_lt in Hlt. rewrite Hlt. reflexivity.
Qed.

Lemma loopFn_complete `{External} (l : SignLoop) (w : World) :
  bytesLeft l <= maxInputBuffer l ->
  loopFn l w
  = issue (SequenceComplete (hSequence l)
             (slice (loop_data l) (curPos l) (curPos l + bytesLeft l)) TPM_RH.NULL)
          K_SequenceComplete w.
Proof.
  intros Hle. unfold loopFn.
  destruct (maxInputBuffer l <? bytesLeft l) eqn:E; [|reflexivity].
  apply Z.ltb_lt in E. lia.
Qed.

(** The loop sends [n] updates of [limit] bytes and then the completion, and
    nothing else happens. *)
Lemma loopFn_settles `{External} :
  forall (n : nat) (fuel : nat) (data : Buffer) (limit h : Z) (j : nat) (r : Z) (w : World),
    inflight w = [] ->
    0 < r <= limit ->
    exists w',
      settle (S n) fuel
        (loopFn (mkLoop data limit h (Z.of_nat j * limit) (Z.of_nat n * limit + r)) w)
      = Returned tt w'
      /\ trace w'
         = trace w
           ++ map (fun i => Issued (SequenceUpdate h (update_chunk data limit i))) (seq j n)
           ++ [Issued (SequenceComplete h (final_chunk data limit (j + n) r) TPM_RH.NULL)]
      /\ client w' = client w
      /\ inflight w' = [].
Proof.
  induction n as [|n IH]; intros fuel data limit h j r w Hi Hr.
  - rewrite loopFn_complete by (simpl; lia).
    rewrite settle_issue by assumption.
    change (resume fuel K_SequenceComplete ?resp ?w0) with (Returned tt w0).
    quiet.
    eexists. split; [reflexivity|]. simpl.
    unfold final_chunk. rewrite Nat.add_0_r. repeat split.
  - rewrite loopFn_update by (simpl; nia).
    rewrite settle_issue by assumption.
    change (resume fuel (K_loopFn ?l) ?resp ?w0) with (loopFn l w0).
    cbn [loop_data maxInputBuffer hSequence curPos bytesLeft].
    replace (Z.of_nat j * limit + limit) with (Z.of_nat (S j) * limit) by lia.
    replace (Z.of_nat (S n) * limit + r - limit) with (Z.of_nat n * limit + r) by lia.
    match goal with
    | |- context [loopFn _ ?w0] =>
        destruct (IH fuel data limit h (S j) r w0 eq_refl Hr) as [w' [Hrun [Htr [Hcl Hin]]]]
    end.
    exists w'. split; [exact Hrun|]. split; [|split; [exact Hcl|exact Hin]].
    rewrite Htr. cbn [trace seq map]. rewrite <- app_assoc. cbn [app].
    unfold update_chunk at 2.
    replace (S j + n)%nat with (j + S n)%nat by lia.
    replace ((Z.of_nat j + 1) * limit) with (Z.of_nat (S j) * limit) by lia.
    reflexivity.
Qed.

Lemma slice_length (buf : Buffer) (a b : Z) :
  0 <= a <= b ->
  b <= Buffer_length buf ->
  Buffer_length (slice buf a b) = b - a.
Proof.
  intros Hab Hb. unfold Buffer_length, slice in *.
  rewrite length_take, length_drop. lia.
Qed.

Lemma slice_to_end (buf : Buffer) (a b : Z) :
  0 <= a ->
  b = Buffer_length buf ->
  slice buf a b = drop (Z.to_nat a) buf.
Proof.
  intros Ha Hb. unfold Buffer_length, slice in *.
  apply take_ge. rewrite length_drop. lia.
Qed.

Lemma slice_then_drop (buf : Buffer) (a b : Z) :
  0 <= a <= b ->
  slice buf a b ++ drop (Z.to_nat b) buf = drop (Z.to_nat a) buf.
Proof.
  intros Hab. unfold slice.
  replace (Z.to_nat b) with (Z.to_nat a + Z.to_nat (b - a))%nat by lia.
  rewrite <- drop_drop. apply take_drop.
Qed.

(** The chunks of the loop are the data, cut at the multiples of [limit]. *)
Lemma chunks_concat (data : Buffer) (limit r : Z) :
  0 < r <= limit ->
  forall (n j : nat),
    Buffer_length data = Z.of_nat (j + n) * limit + r ->
    concat (map (update_chunk data limit) (seq j n)) ++ final_chunk data limit (j + n) r
    = drop (Z.to_nat (Z.of_nat j * limit)) data.
Proof.
  intros Hr. induction n as [|n IH]; intros j Hlen.
  - simpl. unfold final_chunk. rewrite Nat.add_0_r in *.
    apply slice_to_end; nia.
  - cbn [seq map concat]. rewrite <- app_assoc.
    replace (j + S n)%nat with (S j + n)%nat in * by lia.
    rewrite IH by exact Hlen.
    unfold update_chunk.
    replace (Z.of_nat (S j) * limit) with ((Z.of_nat j + 1) * limit) by lia.
    apply slice_then_drop. nia.
Qed.

Lemma chunks_length (data : Buffer) (limit r : Z) (k : nat) :
  0 < r <= limit ->
  Buffer_length data = Z.of_nat k * limit + r ->
  Forall (fun i => Buffer_length (update_chunk data limit i) = limit) (seq 0 k)
  /\ Buffer_length (final_chunk data limit k r) = r.
Proof.
  intros Hr Hlen. split.
  - apply List.Forall_forall. intros i Hi. apply in_seq in Hi.
    unfold update_chunk. rewrite slice_length; nia.
  - unfold final_chunk. rewrite slice_length; nia.
Qed.

(** C1: with an identity key installed and data longer than the limit the
    module reports, that is [k * limit + r] bytes with [k >= 1] and
    [0 < r <= limit], the module receives the capability query, the start
    of a hash sequence, [k] updates of exactly [limit] bytes each and one
    completion of [r] bytes, and these chunks are the data in order.  Then
    nothing is left in flight and the caller's callback has not been called:
    the completion handler only logs, so the signature of the sequence never
    reaches the caller. *)
Theorem C1_chunked_signature_never_delivered `{External} :
  forall (fuel k : nat) (data : Buffer) (limit r : Z) (id : nat) (pub : TPMT_PUBLIC)
         (w : World),
    state (client w) = connected ->
    inflight w = [] ->
    _idKeyPub (client w) = Some pub ->
    reported_input_buffer (tpm w) = [(TPM_PT.INPUT_BUFFER, limit)] ->
    Buffer_length data = Z.of_nat k * limit + r ->
    (1 <= k)%nat ->
    0 < r <= limit ->
    exists w' hSeq,
      settle (k + 3) fuel
        (handle (S fuel) (request (SignWithIdentity data) (User id)) w)
      = Returned tt w'
      /\ since w w'
         = [Handling connected (request (SignWithIdentity data) (User id));
            Issued (GetCapability TPM_CAP.TPM_PROPERTIES TPM_PT.INPUT_BUFFER 1);
            Issued (HMAC_Start _idKeyPersistentHandle [] (idKeyHashAlg_of pub))]
           ++ map (fun i => Issued (SequenceUpdate hSeq (update_chunk data limit i)))
                  (seq 0 k)
           ++ [Issued (SequenceComplete hSeq (final_chunk data limit k r) TPM_RH.NULL)]
      /\ Forall (fun i => Buffer_length (update_chunk data limit i) = limit) (seq 0 k)
      /\ Buffer_length (final_chunk data limit k r) = r
      /\ concat (map (update_chunk data limit) (seq 0 k)) ++ final_chunk data limit k r
         = data
      /\ inflight w' = []
      /\ (forall e v, ~ In (Called id e v) (since w w')).
Proof.
  intros fuel k data limit r id pub w Hs Hi Hkey Hcap Hlen Hk Hr.
  assert (Hbig : (Buffer_length data <=? limit) = false) by (apply Z.leb_gt; nia).
  destruct w as [cl t infl tr]. destruct cl as [ek srk rid idk st q trs].
  simpl in Hs, Hi, Hkey, Hcap. subst.
  replace (k + 3)%nat with (S (S (S k))) by lia.
  cbn [handle]. unfold bind at 1. unfold get. cbn [client state].
  unfold bind at 1. unfold emit, modify, log. cbn [client tpm inflight trace].
  unfold _signData. unfold bind at 1. unfold get. cbn [client _idKeyPub].
  rewrite settle_issue by reflexivity.
  cbn [client tpm inflight trace].
  unfold reported_input_buffer in Hcap.
  unfold resume at 1. unfold bind at 1. unfold get. rewrite Hcap.
  change (TPM_PT.INPUT_BUFFER =? TPM_PT.INPUT_BUFFER) with true. cbv iota.
  rewrite Hbig.
  rewrite settle_issue by reflexivity.
  cbn [client tpm inflight trace].
  unfold resume at 1. unfold bind at 1. unfold get.
  rewrite Hlen.
  match goal with
  | |- context [loopFn (mkLoop _ _ ?h 0 _) ?w0] =>
      destruct (loopFn_settles k fuel data limit h 0%nat r w0 eq_refl Hr)
        as [w' [Hrun [Htr [Hcl Hin]]]];
      exists w', h
  end.
  change (Z.of_nat 0 * limit) with 0 in Hrun.
  split; [exact Hrun|].
  assert (Hsince : since {| client := {| _ek := ek; _srk := srk; _registrationId := rid;
                                          _idKeyPub := Some pub; state := connected;
                                          inputQueue := q; targetReplayState := trs |};
                            tpm := t; inflight := []; trace := tr |} w'
          = [Handling connected (request (SignWithIdentity data) (User id));
             Issued (GetCapability TPM_CAP.TPM_PROPERTIES TPM_PT.INPUT_BUFFER 1);
             Issued (HMAC_Start _idKeyPersistentHandle [] (idKeyHashAlg_of pub))]
            ++ map (fun i => Issued (SequenceUpdate
                     (resp_handle (snd (exec
                        (fst (exec t (GetCapability TPM_CAP.TPM_PROPERTIES
                                        TPM_PT.INPUT_BUFFER 1)))
                        (HMAC_Start _idKeyPersistentHandle [] (idKeyHashAlg_of pub)))))
                     (update_chunk data limit i))) (seq 0 k)
            ++ [Issued (SequenceComplete
                     (resp_handle (snd (exec
                        (fst (exec t (GetCapability TPM_CAP.TPM_PROPERTIES
                                        TPM_PT.INPUT_BUFFER 1)))
                        (HMAC_Start _idKeyPersistentHandle [] (idKeyHashAlg_of pub)))))
                     (final_chunk data limit k r) TPM_RH.NULL)]).
  { unfold since. rewrite Htr. cbn [trace]. rewrite <- !app_assoc.
    rewrite drop_app_length'. reflexivity. }
  split; [exact Hsince|].
  destruct (chunks_length data limit r k Hr Hlen) as [Hupd Hfin].
  split; [exact Hupd|]. split; [exact Hfin|].
  split.
  { exact (chunks_concat data limit r Hr k 0%nat Hlen). }
  split; [exact Hin|].
  intros e v Hcalled. rewrite Hsince in Hcalled.
  apply in_app_or in Hcalled. destruct Hcalled as [Hc|Hc].
  { simpl in Hc. repeat destruct Hc as [Hc|Hc]; try discriminate; contradiction. }
  apply in_app_or in Hc. destruct Hc as [Hc|Hc].
  { apply in_map_iff in Hc. destruct Hc as [i [Hc _]]. discriminate. }
  simpl in Hc. destruct Hc as [Hc|Hc]; [discriminate|contradiction].
Qed.

Lemma C1_chunked_signature_never_delivered_witness :
  exists w' hSeq,
    settle 4 9
      (handle 10 (request (SignWithIdentity (Buffer_from_hex "010203")) (User 1))
         (Reference.activated_world 2 []))
    = Returned tt w'
    /\ since (Reference.activated_world 2 []) w'
       = [Handling connected
            (request (SignWithIdentity (Buffer_from_hex "010203")) (User 1));
          Issued (GetCapability TPM_CAP.TPM_PROPERTIES TPM_PT.INPUT_BUFFER 1);
          Issued (HMAC_Start _idKeyPersistentHandle [] TPM_ALG_ID.SHA256);
          Issued (SequenceUpdate hSeq (Buffer_from_hex "0102"));
          Issued (SequenceComplete hSeq (Buffer_from_hex "03") TPM_RH.NULL)]
    /\ inflight w' = []
    /\ (forall e v, ~ In (Called 1 e v) (since (Reference.activated_world 2 []) w')).
Proof.
  destruct (C1_chunked_signature_never_delivered 9 1 (Buffer_from_hex "010203") 2 1 1
              Reference.idKey (Reference.activated_world 2 []))
    as [w' [hSeq [Hrun [Hsince [_ [_ [_ [Hin Hnever]]]]]]]].
  - vm_compute. reflexivity.
  - vm_compute. reflexivity.
  - vm_compute. reflexivity.
  - vm_compute. reflexivity.
  - vm_compute. reflexivity.
  - lia.
  - lia.
  - exists w', hSeq. repeat split; assumption.
Defined.

(** ** Activation *)

Lemma exec_keeps_persistent `{External} (t : Tpm) (c : Command) :
  writes_persistent c = false ->
  persistent (fst (exec t c)) = persistent t.
Proof.
  intros Hc. destruct c; try discriminate Hc;
    unfold exec, forced, perform, lookup_object, succeed, fail;
    repeat match goal with
    | |- context [match ?x with _ => _ end] => destruct x
    end; reflexivity.
Qed.

(** C3 (as the code has it): when the module fails the start of the session,
    the policy, the activation of the credential, the import or the load,
    the steps before the old key is evicted, the activation sends no
    [EvictControl] at all: the run ends with the persistent object space as
    it was, so the identity key persisted before is untouched, and the
    device error of the failed step has reached the callback. *)
Theorem C3_failure_before_evict_keeps_old_key `{External} :
  forall (fuel : nat) (blob : Buffer) (parts : ActivationParts)
         (pub : option TPMT_PUBLIC) (id j : nat) (rc : Z) (rest : list Z) (w : World),
    state (client w) = connected ->
    inflight w = [] ->
    inputQueue (client w) = [] ->
    unmarshal blob = Some (parts, pub) ->
    (j < 5)%nat ->
    faults (tpm w) = repeat TPM_RC.SUCCESS (S j) ++ rc :: rest ->
    rc <> TPM_RC.SUCCESS ->
    exists w',
      settle 10 (4 + fuel)
        (handle (4 + fuel) (request (ActivateSymmetricIdentity blob) (User id)) w)
      = Returned tt w'
      /\ inflight w' = []
      /\ persistent (tpm w') = persistent (tpm w)
      /\ (forall c, In (Issued c) (since w w') -> writes_persistent c = false)
      /\ In (Called id
               (Some (SecurityDeviceError (nth j failures_before_evict EmptyString)
                        (Some rc)))
               VUndefined)
            (since w w')
      /\ state (client w') = disconnected.
Proof.
  intros fuel blob parts pub id j rc rest w Hs Hi Hq Hparse Hj Hf Hrc.
  apply Z.eqb_neq in Hrc.
  destruct w as [c t infl tr]. destruct c.
  destruct t as [pers trans seqs alloc caps fl rc0 thr].
  simpl in *. subst.
  unfold _activateSymmetricIdentity. turn. rewrite Hparse. turn.
  destruct j as [|[|[|[|[|j]]]]]; [| | | | |lia]; cbn [repeat app].
  all: repeat (deliver_next; exec_step;
               change (TPM_RC.SUCCESS =? TPM_RC.SUCCESS) with true; cbv iota;
               rewrite ?Hrc; turn; rewrite ?Hrc; turn).
  all: try quiet.
  all: eexists; split; [reflexivity|]; split; [reflexivity|]; split; [reflexivity|].
  all: new_events; split; [|split; [|reflexivity]].
  all: try (intros c Hin; cbn in Hin;
            repeat destruct Hin as [Hin|Hin]; try discriminate Hin; try contradiction;
            injection Hin as <-; reflexivity).
  all: cbn; repeat (first [left; reflexivity | right]).
Qed.

Lemma C3_failure_before_evict_keeps_old_key_witness :
  persistent (tpm (Reference.activated_world 2 (repeat TPM_RC.SUCCESS 23 ++ [TPM_RC.FAILURE])))
    !! _idKeyPersistentHandle = Some Reference.idKey
  /\ exists w',
       settle 10 4
         (handle 4 (request (ActivateSymmetricIdentity Reference.blob2) (User 1))
            (Reference.activated_world 2 (repeat TPM_RC.SUCCESS 23 ++ [TPM_RC.FAILURE])))
       = Returned tt w'
       /\ persistent (tpm w') !! _idKeyPersistentHandle = Some Reference.idKey
       /\ state (client w') = disconnected.
Proof.
  split; [vm_compute; reflexivity|].
  destruct (C3_failure_before_evict_keeps_old_key 0 Reference.blob2
              Reference.parts
              (Some (mkPublic TPM_ALG_ID.SHA256 0 (Some [])
                       (TPMS_KEYEDHASH_PARMS (TPMS_SCHEME_HMAC TPM_ALG_ID.SHA256))
                       (Some (mkUnique (Some (Buffer_from_hex "ccdd"))))))
              1 4 TPM_RC.FAILURE []
              (Reference.activated_world 2 (repeat TPM_RC.SUCCESS 23 ++ [TPM_RC.FAILURE])))
    as [w' [Hrun [_ [Hkeep [_ [_ Hstate]]]]]].
  - vm_compute. reflexivity.
  - vm_compute. reflexivity.
  - vm_compute. reflexivity.
  - vm_compute. reflexivity.
  - lia.
  - vm_compute. reflexivity.
  - discriminate.
  - exists w'. split; [exact Hrun|]. split; [|exact Hstate].
    rewrite Hkeep. vm_compute. reflexivity.
Defined.

(** C3, the claim refuted: an identity key is persisted, a second activation
    is forced to fail at the persist step, and the handle of the identity key
    is then empty: the old key was evicted before the new one was persisted. *)
Lemma C3_counterexample :
  persistent (tpm (Reference.activated_world 2 (repeat TPM_RC.SUCCESS 25 ++ [TPM_RC.FAILURE])))
    !! _idKeyPersistentHandle = Some Reference.idKey
  /\ exists w',
       settle 10 9
         (activateSymmetricIdentity 9 (Some Reference.blob2) (User 1)
            (Reference.activated_world 2 (repeat TPM_RC.SUCCESS 25 ++ [TPM_RC.FAILURE])))
       = Returned tt w'
       /\ In (Called 1
                (Some (SecurityDeviceError
                         "Upable to persist the device id key into the TPM.  RC value: "
                         (Some TPM_RC.FAILURE)))
                VUndefined)
             (trace w')
       /\ persistent (tpm w') !! _idKeyPersistentHandle = None.
Proof.
  split; [vm_compute; reflexivity|].
  eexists. split; [vm_compute; reflexivity|].
  split; [|vm_compute; reflexivity].
  vm_compute. tauto.
Qed.

(** C2 (as the code has it): an activation whose blob cannot be unmarshalled
    throws and leaves the identity key public descriptor as it was, so that
    with none set before a later [signWithIdentity] still throws
    InvalidOperationError.  A blob that unmarshals sets the descriptor to its
    fifth field in the turn of the call, before the module has answered
    anything, and whatever the module then answers, success or error, the
    descriptor is still that field when the run has ended. *)
Theorem C2_identity_key_is_set_by_unmarshalling `{External} :
  forall (fuel : nat) (blob : Buffer) (id : nat) (w : World),
    state (client w) = connected ->
    inflight w = [] ->
    inputQueue (client w) = [] ->
    (unmarshal blob = None ->
     exists w',
       handle (4 + fuel) (request (ActivateSymmetricIdentity blob) (User id)) w
       = Thrown (TssError "unmarshal") w'
       /\ _idKeyPub (client w') = _idKeyPub (client w)
       /\ (_idKeyPub (client w) = None ->
           forall data callback,
             data <> [] ->
             signWithIdentity fuel (Some data) callback w'
             = Thrown (InvalidOperationError
                  "activateSymmetricIdentity must be invoked before any signing is attempted.")
                 w'))
    /\ (forall parts pub,
          unmarshal blob = Some (parts, pub) ->
          (exists w1,
             handle (4 + fuel) (request (ActivateSymmetricIdentity blob) (User id)) w
             = Returned tt w1
             /\ _idKeyPub (client w1) = pub
             /\ since w w1
                = [Handling connected (request (ActivateSymmetricIdentity blob) (User id));
                   Issued (GetRandom 20)])
          /\ exists w',
               settle 10 (4 + fuel)
                 (handle (4 + fuel) (request (ActivateSymmetricIdentity blob) (User id)) w)
               = Returned tt w'
               /\ _idKeyPub (client w') = pub).
Proof.
  intros fuel blob id w Hs Hi Hq. split.
  - intros Hparse.
    destruct (unmarshal_failure_throws (3 + fuel) blob (User id) w Hparse Hs)
      as [_ Hthrow].
    eexists. split; [exact Hthrow|]. split; [reflexivity|].
    intros Hnone data callback Hdata.
    destruct data as [|b data]; [congruence|].
    unfold signWithIdentity, bind, get, throw. cbn [log client]. rewrite Hnone. reflexivity.
  - intros parts pub Hparse. open_world w.
    unfold _activateSymmetricIdentity. turn. rewrite Hparse. turn. split.
    + eexists. split; [reflexivity|]. split; [reflexivity|]. new_events. reflexivity.
    + go; eexists; split; reflexivity.
Qed.

Lemma C2_identity_key_is_set_by_unmarshalling_witness :
  exists w',
    settle 10 4
      (handle 4 (request (ActivateSymmetricIdentity Reference.blob) (User 1))
         (Reference.connected_world 2 (repeat TPM_RC.SUCCESS 9 ++ [TPM_RC.FAILURE])))
    = Returned tt w'
    /\ _idKeyPub (client w') = Some Reference.idKey.
Proof.
  apply (C2_identity_key_is_set_by_unmarshalling 0 Reference.blob 1
           (Reference.connected_world 2 (repeat TPM_RC.SUCCESS 9 ++ [TPM_RC.FAILURE]))
           eq_refl eq_refl eq_refl)
    with (parts := Reference.parts).
  vm_compute. reflexivity.
Defined.

(** C2, the claim refuted: on a connected client with no identity key, an
    activation whose session start is forced to fail hands a device error to
    the callback, and the identity key public descriptor is set all the same;
    the next [signWithIdentity] does not throw but is dispatched. *)
Lemma C2_counterexample :
  _idKeyPub (client (Reference.connected_world 2 (repeat TPM_RC.SUCCESS 9 ++ [TPM_RC.FAILURE])))
  = None
  /\ exists w',
       settle 10 9
         (activateSymmetricIdentity 9 (Some Reference.blob) (User 1)
            (Reference.connected_world 2 (repeat TPM_RC.SUCCESS 9 ++ [TPM_RC.FAILURE])))
       = Returned tt w'
       /\ In (Called 1
                (Some (SecurityDeviceError
                         "Authorization session unable to be created.  RC value: "
                         (Some TPM_RC.FAILURE)))
                VUndefined)
             (trace w')
       /\ _idKeyPub (client w') = Some Reference.idKey
       /\ exists w'',
            signWithIdentity 9 (Some (Buffer_from_hex "01")) (User 2) w' = Returned tt w''
            /\ since w' w''
               = [Handling disconnected
                    (request (SignWithIdentity (Buffer_from_hex "01")) (User 2));
                  Handling disconnected
                    (connect (Redispatch (SignWithIdentity (Buffer_from_hex "01")) (User 2)));
                  Transition disconnected connecting;
                  Issued Connect].
Proof.
  split; [vm_compute; reflexivity|].
  eexists. split; [vm_compute; reflexivity|].
  split; [vm_compute; repeat (first [left; reflexivity | right])|].
  split; [vm_compute; reflexivity|].
  eexists. split; vm_compute; reflexivity.
Qed.

(** ** The registration id *)

Example base32_foobar :
  base32Encode (Buffer_from_hex "666f6f626172") = "MZXW6YTBOI======"%string.
Proof. vm_compute. reflexivity. Qed.

Example base32_fo :
  replace_eq_signs (toLowerCase (base32Encode (Buffer_from_hex "666f"))) = "mzxq"%string.
Proof. vm_compute. reflexivity. Qed.

Lemma alphabet_plain (v : Z) : plain (alphabet_at v).
Proof.
  unfold alphabet_at.
  assert (Hall : List.Forall plain RFC4648) by (repeat constructor).
  destruct (Nat.lt_ge_cases (Z.to_nat v) (length RFC4648)) as [Hlt|Hge].
  - rewrite List.Forall_forall in Hall. apply Hall. apply nth_In. exact Hlt.
  - rewrite nth_overflow by exact Hge. reflexivity.
Qed.

Lemma base32_loop_plain (view : Buffer) :
  forall bits value, List.Forall plain (base32_loop view bits value).
Proof.
  induction view as [|b rest IH]; intros bits value; simpl.
  - destruct (0 <? bits); repeat constructor. apply alphabet_plain.
  - destruct (5 <=? bits + 8 - 5); repeat constructor;
      try apply alphabet_plain; apply IH.
Qed.

Lemma base32_loop_nonempty (view : Buffer) (bits value : Z) :
  view <> [] -> base32_loop view bits value <> [].
Proof.
  destruct view as [|b rest]; [congruence|]. intros _. simpl.
  destruct (5 <=? bits + 8 - 5); discriminate.
Qed.

Lemma filter_plain (l : list ascii) :
  List.Forall plain l ->
  List.filter (fun c => negb (is_eq_sign c)) (map lower_char l) = map lower_char l.
Proof.
  induction 1 as [|c l Hc _ IH]; simpl; [reflexivity|].
  unfold plain in Hc. rewrite Hc. simpl. f_equal. exact IH.
Qed.





Lemma registrationId_nonempty `{External} (endorsementKey : Buffer) :
  registrationId_of endorsementKey <> EmptyString.
Proof.
  unfold registrationId_of, replace_eq_signs, toLowerCase, base32Encode, base32Encode_chars.
  rewrite !list_ascii_of_string_of_list_ascii.
  pose proof (base32_loop_plain (sha256 endorsementKey) 0 0) as Hplain.
  pose proof (base32_loop_nonempty (sha256 endorsementKey) 0 0) as Hne.
  rewrite map_app, List.filter_app, filter_plain by exact Hplain.
  destruct (base32_loop (sha256 endorsementKey) 0 0) as [|c body].
  - exfalso. apply Hne; [|reflexivity].
    pose proof (sha256_length endorsementKey) as Hlen.
    destruct (sha256 endorsementKey); [discriminate Hlen|discriminate].
  - simpl. discriminate.
Qed.

Arguments replace_eq_signs : simpl never.
Arguments toLowerCase : simpl never.
Arguments base32Encode : simpl never.

Lemma getRegistrationId_cached `{External} (fuel id : nat) (w : World) :
  _registrationId (client w) <> EmptyString ->
  getRegistrationId (S fuel) (User id) w
  = Returned tt (log (Called id None (VString (_registrationId (client w)))) w).
Proof.
  intros Hne. unfold getRegistrationId, bind, get.
  destruct (_registrationId (client w)); [congruence|reflexivity].
Qed.

(** ** Deferred operations *)

Lemma bind_ret_tt (m : Turn unit) (w : World) : (m ;; ret tt) w = m w.
Proof. unfold bind. destruct (m w) as [[] w'| |]; reflexivity. Qed.

Lemma each_app (f : Input -> Turn unit) (l1 l2 : list Input) (w : World) :
  each f (l1 ++ l2) w = (each f l1 ;; each f l2) w.
Proof.
  revert w. induction l1 as [|x l1 IH]; intros w; simpl.
  - reflexivity.
  - unfold bind. destruct (f x w); try reflexivity.
    rewrite IH. reflexivity.
Qed.

Lemma connected_stays `{External} :
  forall fuel : nat,
    (forall i w w',
        state (client w) = connected ->
        targetReplayState (client w) = connected ->
        handle fuel i w = Returned tt w' ->
        settled w w')
    /\ (forall callback err value w w',
           state (client w) = connected ->
           targetReplayState (client w) = connected ->
           invoke fuel callback err value w = Returned tt w' ->
           settled w w').
Proof.
  induction fuel as [|n [IHh IHi]]; split.
  - intros i w w' _ _ Hrun. discriminate Hrun.
  - intros callback err value w w' _ _ Hrun. discriminate Hrun.
  - intros i w w' Hs Ht Hrun. cbn [handle] in Hrun.
    unfold bind at 1 in Hrun. unfold get in Hrun. rewrite Hs in Hrun.
    destruct i as [cb|[| |data|blob] cb|cb].
    + injection Hrun as <-. repeat split; assumption.
    + unfold bind, emit, modify in Hrun.
      destruct (_ek (client w)); [|discriminate Hrun].
      apply IHi in Hrun; [|assumption|assumption]. exact Hrun.
    + unfold bind, emit, modify in Hrun.
      destruct (_srk (client w)); [|discriminate Hrun].
      apply IHi in Hrun; [|assumption|assumption]. exact Hrun.
    + unfold bind, emit, modify, _signData, bind, get in Hrun. cbn [log client] in Hrun.
      destruct (_idKeyPub (client w)); [|discriminate Hrun].
      injection Hrun as <-. repeat split; assumption.
    + unfold bind, emit, modify, _activateSymmetricIdentity in Hrun.
      destruct (unmarshal blob) as [[parts pub]|]; [|discriminate Hrun].
      injection Hrun as <-. repeat split; assumption.
    + injection Hrun as <-. repeat split; assumption.
  - intros callback err value w w' Hs Ht Hrun. cbn [invoke] in Hrun.
    destruct callback as [id|op cb|cb].
    + injection Hrun as <-. repeat split; assumption.
    + destruct err.
      * apply IHi in Hrun; assumption.
      * apply IHh in Hrun; assumption.
    + destruct err.
      * apply IHi in Hrun; assumption.
      * destruct value; try discriminate Hrun.
        unfold bind, update, modify in Hrun.
        apply IHi in Hrun; [|assumption|assumption]. exact Hrun.
Qed.

Lemma transition_to_connected `{External} (n : nat) (callback : Callback) (w : World) :
  state (client w) = connecting ->
  transition (S n) connected callback None w
  = (invoke n callback None VUndefined ;;
     w' <- get ;;
     if State_eqb (targetReplayState (client w')) connected
     then processQueue n
     else ret tt)
      (log (Transition connecting connected) (on_client (set_state connected) w)).
Proof.
  intros Hs. cbn [transition]. unfold bind at 1. unfold get. rewrite Hs. reflexivity.
Qed.

Lemma processQueue_replays `{External} (n : nat) (w : World) :
  processQueue (S n) w
  = each (handle n) (inputQueue (client w)) (on_client (set_inputQueue []) w).
Proof. reflexivity. Qed.

Lemma deferral `{External} (fuel : nat) (i : Input) (w : World) :
  state (client w) = connecting ->
  handle (S fuel) i w = Returned tt (deferred [i] w).
Proof.
  intros Hs. open_world w. unfold deferred. turn.
  rewrite <- ?app_assoc. reflexivity.
Qed.

(** C9 (as the code has it): two inputs [A] then [B] given to the machine in
    the [connecting] state are both deferred: they join the queue in that
    order, and nothing else happens.  When the storage root key arrives and
    [connected] is entered, the operation that started the connection is
    dispatched first; if that dispatch returns, the queue is emptied and
    replayed in order, what was queued before, then [A], then [B], each
    dispatched when the one before has returned, so an exception of one
    dispatch ends the replay; if the first dispatch throws, nothing is
    replayed. *)
Theorem C9_deferred_operations_replay_in_order `{External} :
  forall (fuel : nat) (A B : Input) (w : World),
    state (client w) = connecting ->
    (handle (S fuel) A ;; handle (S fuel) B) w = Returned tt (deferred [A; B] w)
    /\ forall op0 callback0 srkPublicKey,
         (forall w0,
            handle (S fuel) (request op0 callback0)
                   (entered_connected srkPublicKey (deferred [A; B] w))
            = Returned tt w0 ->
            provisioned (3 + fuel) (SrkCreated (Redispatch op0 callback0)) None
                        srkPublicKey (deferred [A; B] w)
            = (each (handle (S fuel)) (inputQueue (client w)) ;;
               each (handle (S fuel)) [A; B])
                (on_client (set_inputQueue []) w0))
         /\ (forall e w0,
               handle (S fuel) (request op0 callback0)
                      (entered_connected srkPublicKey (deferred [A; B] w))
               = Thrown e w0 ->
               provisioned (3 + fuel) (SrkCreated (Redispatch op0 callback0)) None
                           srkPublicKey (deferred [A; B] w)
               = Thrown e w0).
Proof.
  intros fuel A B w Hs.
  assert (Hdefer : (handle (S fuel) A ;; handle (S fuel) B) w
                   = Returned tt (deferred [A; B] w)).
  { unfold bind. rewrite deferral by exact Hs.
    rewrite deferral by (destruct w as [c t infl tr]; destruct c; exact Hs).
    unfold deferred. destruct w as [c t infl tr]. destruct c. cbn.
    rewrite <- !app_assoc. reflexivity. }
  split; [exact Hdefer|].
  intros op0 callback0 srkPublicKey.
  assert (Hprov : provisioned (3 + fuel) (SrkCreated (Redispatch op0 callback0)) None
                    srkPublicKey (deferred [A; B] w)
                  = (handle (S fuel) (request op0 callback0) ;;
                     w' <- get ;;
                     if State_eqb (targetReplayState (client w')) connected
                     then processQueue (2 + fuel)
                     else ret tt)
                      (entered_connected srkPublicKey (deferred [A; B] w))).
  { unfold provisioned. unfold bind at 1. unfold update, modify.
    change (3 + fuel)%nat with (S (2 + fuel)).
    rewrite transition_to_connected
      by (destruct w as [c t infl tr]; destruct c; exact Hs).
    destruct w as [c t infl tr]. destruct c. simpl in Hs. subst. reflexivity. }
  split.
  - intros w0 Hrun. rewrite Hprov. unfold bind at 1. rewrite Hrun.
    destruct (proj1 (connected_stays (S fuel)) (request op0 callback0)
                (entered_connected srkPublicKey (deferred [A; B] w)) w0
                eq_refl eq_refl Hrun)
      as [_ [Htarget Hqueue]].
    unfold bind at 1. unfold get. rewrite Htarget. cbn [State_eqb].
    change (2 + fuel)%nat with (S (S fuel)).
    rewrite processQueue_replays, Hqueue.
    cbn [entered_connected deferred client inputQueue set_inputQueue].
    apply each_app.
  - intros e w0 Hrun. rewrite Hprov. unfold bind at 1. rewrite Hrun. reflexivity.
Qed.

Lemma C9_deferred_operations_replay_in_order_witness :
  (handle 2 (request GetEndorsementKey (User 1)) ;;
   handle 2 (request GetStorageRootKey (User 2))) connecting_world
  = Returned tt
      (deferred [request GetEndorsementKey (User 1); request GetStorageRootKey (User 2)]
                connecting_world)
  /\ exists w',
       provisioned 4 (SrkCreated (Redispatch GetStorageRootKey (User 0))) None
         (primary_public tss.Owner _srkTemplate)
         (deferred [request GetEndorsementKey (User 1); request GetStorageRootKey (User 2)]
                   connecting_world)
       = Returned tt w'
       /\ List.filter (fun e => match e with Called _ _ _ => true | _ => false end)
                 (since connecting_world w')
          = [Called 0 None (VBuffer (asTpm2B (primary_public tss.Owner _srkTemplate)));
             Called 1 None (VBuffer (asTpm2B (primary_public tss.Endorsement _ekTemplate)));
             Called 2 None (VBuffer (asTpm2B (primary_public tss.Owner _srkTemplate)))].
Proof.
  destruct (C9_deferred_operations_replay_in_order 1
              (request GetEndorsementKey (User 1)) (request GetStorageRootKey (User 2))
              connecting_world eq_refl) as [Hdefer Hreplay].
  split; [exact Hdefer|].
  destruct (Hreplay GetStorageRootKey (User 0) (primary_public tss.Owner _srkTemplate))
    as [Hreturns _].
  assert (Hrun : handle 2 (request GetStorageRootKey (User 0))
                    (entered_connected (primary_public tss.Owner _srkTemplate)
                       (deferred [request GetEndorsementKey (User 1);
                                  request GetStorageRootKey (User 2)] connecting_world))
                 = Returned tt
                     (Reference.world_of
                        (handle 2 (request GetStorageRootKey (User 0))
                           (entered_connected (primary_public tss.Owner _srkTemplate)
                              (deferred [request GetEndorsementKey (User 1);
                                         request GetStorageRootKey (User 2)]
                                        connecting_world)))))
    by (vm_compute; reflexivity).
  eexists. split.
  - etransitivity; [exact (Hreturns _ Hrun)|]. vm_compute. reflexivity.
  - vm_compute. reflexivity.
Defined.

(** C9, the claim refuted: [A], the activation of a truncated blob, and [B],
    a request for the storage root key, are given while the machine is
    connecting.  When the connection is made the replay of [A] throws, and
    [B], taken off the queue with it, is never dispatched: its callback is
    not called, nothing is in flight and nothing is queued. *)
Lemma C9_counterexample :
  exists w1 w',
    three_submitted = Returned tt w1
    /\ state (client w1) = connecting
    /\ inputQueue (client w1)
       = [request (ActivateSymmetricIdentity Reference.truncated_blob) (User 1);
          request GetStorageRootKey (User 2)]
    /\ run 30 9 w1 = Thrown (TssError "unmarshal") w'
    /\ state (client w') = connected
    /\ inputQueue (client w') = []
    /\ inflight w' = []
    /\ In (Handling connected
             (request (ActivateSymmetricIdentity Reference.truncated_blob) (User 1)))
          (trace w')
    /\ ~ In (Handling connected (request GetStorageRootKey (User 2))) (trace w')
    /\ (forall e v, ~ In (Called 2 e v) (trace w')).
Proof.
  eexists. eexists.
  split; [vm_compute; reflexivity|].
  split; [vm_compute; reflexivity|].
  split; [vm_compute; reflexivity|].
  split; [vm_compute; reflexivity|].
  split; [vm_compute; reflexivity|].
  split; [vm_compute; reflexivity|].
  split; [vm_compute; reflexivity|].
  split; [vm_compute; repeat (first [left; reflexivity | right])|].
  split.
  - vm_compute. intros Hin.
    repeat destruct Hin as [Hin|Hin]; try discriminate Hin; contradiction.
  - intros e v. vm_compute. intros Hin.
    repeat destruct Hin as [Hin|Hin]; try discriminate Hin; contradiction.
Qed.

(** C8, the claim refuted: on a connected client the activation of a
    truncated blob fails by throwing; the machine stays [connected], the
    cached keys stay, there is no transition and no callback. *)
Lemma C8_counterexample :
  state (client (Reference.connected_world 2 [])) = connected
  /\ _ek (client (Reference.connected_world 2 []))
     = Some (primary_public tss.Endorsement _ekTemplate)
  /\ exists w',
       activateSymmetricIdentity 9 (Some Reference.truncated_blob) (User 1)
         (Reference.connected_world 2 [])
       = Thrown (TssError "unmarshal") w'
       /\ state (client w') = connected
       /\ _ek (client w') = Some (primary_public tss.Endorsement _ekTemplate)
       /\ _srk (client w') = Some (primary_public tss.Owner _srkTemplate)
       /\ since (Reference.connected_world 2 []) w'
          = [Handling connected
               (request (ActivateSymmetricIdentity Reference.truncated_blob) (User 1))].
Proof.
  split; [vm_compute; reflexivity|].
  split; [vm_compute; reflexivity|].
  eexists.
  split; [vm_compute; reflexivity|].
  split; [vm_compute; reflexivity|].
  split; [vm_compute; reflexivity|].
  split; vm_compute; reflexivity.
Qed.

(** ** Properties that every turn keeps *)

(** Turns are built from kept turns. *)
Section Keeping.
Context `{External}.
Variable R : World -> World -> Prop.
Hypothesis R_refl : forall w, R w w.
Hypothesis R_trans : forall a b c, R a b -> R b c -> R a c.

Lemma keeps_ret {A} (a : A) : keeps R (ret a).
Proof. intros w. apply R_refl. Qed.

Lemma keeps_throw {A} (e : Error) : keeps R (@throw A e).
Proof. intros w. apply R_refl. Qed.

Lemma keeps_exhausted {A} : keeps R (@exhausted A).
Proof. intros w. exact I. Qed.

Lemma keeps_get : keeps R get.
Proof. intros w. apply R_refl. Qed.

Lemma keeps_bind {A B} (m : Turn A) (k : A -> Turn B) :
  keeps R m -> (forall a, keeps R (k a)) -> keeps R (bind m k).
Proof.
  intros Hm Hk w. unfold bind. specialize (Hm w).
  destruct (m w) as [a w1|e w1|]; [|exact Hm|exact I].
  specialize (Hk a w1). destruct (k a w1) as [b w2|e w2|]; [| |exact I].
  - exact (R_trans _ _ _ Hm Hk).
  - exact (R_trans _ _ _ Hm Hk).
Qed.

Lemma keeps_try_catch {A} (m : Turn A) (h : Error -> Turn A) :
  keeps R m -> (forall e, keeps R (h e)) -> keeps R (try_catch m h).
Proof.
  intros Hm Hh w. unfold try_catch. specialize (Hm w).
  destruct (m w) as [a w1|e w1|]; [exact Hm| |exact I].
  specialize (Hh e w1). destruct (h e w1) as [b w2|e2 w2|]; [| |exact I].
  - exact (R_trans _ _ _ Hm Hh).
  - exact (R_trans _ _ _ Hm Hh).
Qed.

Lemma keeps_each {A} (f : A -> Turn unit) (items : list A) :
  (forall x, keeps R (f x)) -> keeps R (each f items).
Proof.
  intros Hf. induction items as [|x rest IH]; cbn [each].
  - apply keeps_ret.
  - apply keeps_bind; [apply Hf|intros _; exact IH].
Qed.

Hypothesis R_tpm : forall t l w, R w (set_inflight l (set_tpm t w)).

Lemma keeps_deliver (fuel : nat) :
  (forall k resp, keeps R (resume fuel k resp)) -> keeps R (deliver fuel).
Proof.
  intros Hk w. unfold deliver. destruct (inflight w) as [|[c k] rest]; [apply R_refl|].
  pose proof (Hk k (snd (exec (tpm w) c))
                (set_inflight rest (set_tpm (fst (exec (tpm w) c)) w))) as Hr.
  destruct (resume _ _ _ _) as [a w1|e w1|]; [| |exact I].
  - exact (R_trans _ _ _ (R_tpm _ _ w) Hr).
  - exact (R_trans _ _ _ (R_tpm _ _ w) Hr).
Qed.

Lemma keeps_run (steps fuel : nat) :
  (forall k resp, keeps R (resume fuel k resp)) -> keeps R (run steps fuel).
Proof.
  intros Hk. induction steps as [|n IH]; intros w.
  - unfold run. destruct (inflight w); [apply R_refl|exact I].
  - unfold run; fold run. destruct (inflight w) as [|x rest] eqn:E; [apply R_refl|].
    pose proof (keeps_deliver fuel Hk w) as Hd.
    destruct (deliver fuel w) as [[] w1|e w1|]; [|exact Hd|exact I].
    specialize (IH w1). destruct (run n fuel w1) as [[] w2|e w2|]; [| |exact I].
    + exact (R_trans _ _ _ Hd IH).
    + exact (R_trans _ _ _ Hd IH).
Qed.

Lemma keeps_settle (steps fuel : nat) (m : Turn unit) (w w' : World) :
  (forall k resp, keeps R (resume fuel k resp)) ->
  keeps R m ->
  (settle steps fuel (m w) = Returned tt w'
   \/ exists e, settle steps fuel (m w) = Thrown e w') ->
  R w w'.
Proof.
  intros Hk Hm Hrun. specialize (Hm w). unfold settle in Hrun.
  destruct (m w) as [[] w1|e1 w1|].
  - pose proof (keeps_run steps fuel Hk w1) as Hr.
    destruct Hrun as [Hrun|[e Hrun]]; rewrite Hrun in Hr; exact (R_trans _ _ _ Hm Hr).
  - destruct Hrun as [Hrun|[e Hrun]]; [discriminate Hrun|].
    injection Hrun as _ <-. exact Hm.
  - destruct Hrun as [Hrun|[e Hrun]]; discriminate Hrun.
Qed.

End Keeping.

(** One step through the code of a turn: [prim] closes the primitive turns,
    [side] the conditions under which the machine keeps the relation. *)
Ltac keeps_step refl trans prim side :=
  first
    [ apply (keeps_ret _ refl) | apply (keeps_throw _ refl) | apply keeps_exhausted
    | apply (keeps_get _ refl)
    | prim
    | apply (keeps_bind _ trans); [|intros ?; cbv beta]
    | apply (keeps_try_catch _ trans); [|intros ?; cbv beta]
    | apply (keeps_each _ refl trans); intros ?
    | match goal with
      | IH : context [handle ?n] |- keeps _ (handle ?n _) => apply IH; side
      | IH : context [transition ?n] |- keeps _ (transition ?n _ _ _) => apply IH; side
      | IH : context [invoke ?n] |- keeps _ (invoke ?n _ _ _) => apply IH; side
      | IH : keeps _ (processQueue ?n) |- keeps _ (processQueue ?n) => exact IH
      | |- keeps _ (match ?x with _ => _ end) => destruct x
      | |- keeps _ (if ?b then _ else _) => destruct b
      end
    | progress (cbv zeta)
    | progress (unfold _signData, _activateSymmetricIdentity, tpm_connect,
                deferUntilTransition, _createPersistentPrimary, loopFn,
                provisioned, signData_callback, activate_callback) ].

(** ** A registration id given to the constructor *)

Section Supplied.
Context `{External}.















End Supplied.

(** ** The registration id, derived or given *)

(** The creation of a primary key that failed, among the answers of a run. *)
Ltac failed_create :=
  match goal with
  | E : exec _ (CreatePrimary _ _) = (_, ?r), Hu : unique (outPublic ?r) = _ |- _ =>
      let Hpub := fresh "Hpub" in
      let Hrc := fresh "Hrc" in
      let Hf := fresh "Hfaults" in
      destruct (exec_CreatePrimary _ _ _ _ _ E)
        as [[Hpub _]|[_ [Hrc [? [? [Hf _]]]]]];
      [rewrite Hpub in Hu; discriminate Hu|]
  end.

(** A script that was empty is empty at every later command. *)
Ltac script_stays_empty :=
  repeat match goal with
         | E : exec ?t0 _ = (?t1, _), Hf : faults ?t0 = [] |- _ =>
             lazymatch goal with
             | _ : faults t1 = [] |- _ => fail
             | _ => pose proof (exec_faults_nil _ _ _ _ Hf E)
             end
         end.



(** A client that was given an id keeps it through a connection, a failed
    activation and the disconnection that follows. *)
Example supplied_id_after_a_history :
  exists w',
    history 12
      [called method_getEndorsementKey 1; answered; answered; answered; answered;
       answered; answered; answered; answered; answered;
       called (method_activateSymmetricIdentity (Some Reference.blob)) 2;
       answered; answered; called method_getRegistrationId 3]
      (new_world (Some "abc123"%string)
         (Reference.tpm_with 2 (repeat TPM_RC.SUCCESS 9 ++ [TPM_RC.FAILURE])))
    = Some w'
    /\ state (client w') = disconnected
    /\ last (trace w') = Some (Called 3 None (VString "abc123")).
Proof. eexists. vm_compute. repeat split. Qed.


(** * Further properties *)

(** ** Connecting *)

(** Once [tpm.connect] has not thrown, a request for the endorsement key or
    for the storage root key made on a disconnected client ends in one of two
    ways, whatever the module answers to the provisioning commands.  Either
    the machine is [connected]: both keys are cached, the callback receives
    the marshalled key asked for, nothing is left in flight, and the machine
    never went back to [disconnected].  Or the creation of a primary key was
    forced to fail: the read of the key in its empty answer throws a
    TypeError out of the continuation, the machine is left [connecting] with
    nothing in flight, and the callback is never called. *)
Theorem connect_always_reaches_connected `{External} :
  forall (fuel id : nat) (op : Op) (w : World),
    op = GetEndorsementKey \/ op = GetStorageRootKey ->
    state (client w) = disconnected ->
    inputQueue (client w) = [] ->
    inflight w = [] ->
    connectThrows (tpm w) = false ->
    exists w',
      ((exists key,
          settle 9 (5 + fuel) (handle (5 + fuel) (request op (User id)) w)
          = Returned tt w'
             /\ state (client w') = connected
             /\ is_Some (_ek (client w'))
             /\ is_Some (_srk (client w'))
             /\ cached_key op (client w') = Some key
             /\ last (trace w') = Some (Called id None (VBuffer (asTpm2B key))))
          \/ (exists message hierarchy template,
                settle 9 (5 + fuel) (handle (5 + fuel) (request op (User id)) w)
                = Thrown (TypeError message) w'
                /\ last (trace w') = Some (Issued (CreatePrimary hierarchy template))
                /\ lastResponseCode (tpm w') <> TPM_RC.SUCCESS
                /\ faults (tpm w) <> []
                /\ state (client w') = connecting
                /\ forall e v, ~ In (Called id e v) (since w w')))
      /\ inflight w' = []
      /\ ~ In (Transition connecting disconnected) (since w w').
Proof.
  intros fuel id op w Hop Hs Hq Hi Hthrows.
  destruct w as [c t infl tr]. destruct c. simpl in *. subst.
  destruct Hop as [-> | ->]; turn; rewrite Hthrows; turn; go.
  all: eexists; split;
    [ first
        [ left; eexists; split; [reflexivity|]; split; [reflexivity|];
          split; [eexists; reflexivity|]; split; [eexists; reflexivity|];
          split; [reflexivity|]; cbn [trace]; rewrite last_app; reflexivity
        | right; do 3 eexists; split; [reflexivity|];
          split; [cbn [trace]; rewrite last_app; reflexivity|];
          failed_create; cbn [tpm client state];
          split; [assumption|];
          split; [intros Hnil; script_stays_empty; congruence|];
          split; [reflexivity|];
          intros e v; new_events; cbn; intros Hin;
          repeat destruct Hin as [Hin|Hin]; try discriminate Hin; contradiction ]
    | split; [reflexivity|];
      new_events; cbn; intros Hin;
      repeat destruct Hin as [Hin|Hin]; try discriminate Hin; contradiction ].
Qed.

Lemma connect_always_reaches_connected_witness :
  exists w' key,
    settle 9 5 (handle 5 (request GetStorageRootKey (User 1))
                  (new_world None
                     (Reference.tpm_with 2
                        [TPM_RC.FAILURE; TPM_RC.SUCCESS; TPM_RC.FAILURE])))
    = Returned tt w'
    /\ state (client w') = connected
    /\ is_Some (_ek (client w'))
    /\ is_Some (_srk (client w'))
    /\ cached_key GetStorageRootKey (client w') = Some key
    /\ last (trace w') = Some (Called 1 None (VBuffer (asTpm2B key))).
Proof.
  destruct (connect_always_reaches_connected 0 1 GetStorageRootKey
              (new_world None
                 (Reference.tpm_with 2 [TPM_RC.FAILURE; TPM_RC.SUCCESS; TPM_RC.FAILURE])))
    as [w' [[[key Hok]|[message [hierarchy [template [Hthrown _]]]]] _]];
    [right; reflexivity | reflexivity | reflexivity | reflexivity | reflexivity | |].
  - exists w', key. exact Hok.
  - vm_compute in Hthrown. discriminate Hthrown.
Defined.

(** The other end: the creation of the endorsement key is forced to fail. *)
Example connect_stops_at_a_failed_creation :
  exists w',
    settle 9 5 (handle 5 (request GetStorageRootKey (User 1))
                  (new_world None (Reference.tpm_with 2 [TPM_RC.FAILURE; TPM_RC.FAILURE])))
    = Thrown (TypeError "Cannot read property 'buffer' of null") w'
    /\ state (client w') = connecting
    /\ inflight w' = []
    /\ List.filter is_call (trace w') = [].
Proof. eexists. vm_compute. repeat split. Qed.

(** When [tpm.connect] throws, the request made on a disconnected client is
    answered in the same turn: the machine goes to [connecting] and back to
    [disconnected], the caller's callback receives the exception, nothing is
    sent to the module, and the operation is not tried again. *)
Theorem connect_exception_reaches_the_callback `{External} :
  forall (fuel id : nat) (op : Op) (w : World),
    state (client w) = disconnected ->
    inputQueue (client w) = [] ->
    connectThrows (tpm w) = true ->
    handle (6 + fuel) (request op (User id)) w
    = Returned tt (connect_failed op id (TssError "connect") w).
Proof.
  intros fuel id op w Hs Hq Hthrows.
  destruct w as [c t infl tr]. destruct c. simpl in *. subst.
  unfold connect_failed. turn. rewrite Hthrows. turn.
  rewrite <- ?app_assoc. reflexivity.
Qed.

Lemma connect_exception_reaches_the_callback_witness :
  handle 6 (request (SignWithIdentity (Buffer_from_hex "01")) (User 1))
    (new_world None (mkTpm ∅ ∅ ∅ 0 [] [] TPM_RC.SUCCESS true))
  = Returned tt
      (connect_failed (SignWithIdentity (Buffer_from_hex "01")) 1 (TssError "connect")
         (new_world None (mkTpm ∅ ∅ ∅ 0 [] [] TPM_RC.SUCCESS true))).
Proof.
  apply (connect_exception_reaches_the_callback 0 1
           (SignWithIdentity (Buffer_from_hex "01"))
           (new_world None (mkTpm ∅ ∅ ∅ 0 [] [] TPM_RC.SUCCESS true)));
    reflexivity.
Defined.

(** ** The provisioner's commands *)

(** Whatever the module answers, a run of the provisioner is one of three
    command sequences.  The read alone; or the read, the creation of the
    primary object, its move to the persistent handle and the release of the
    transient handle the creation returned: the release follows also when the
    move failed, and the callback comes last, with no error.  Or, when the
    creation failed, the read and the creation alone: the read of the key in
    the empty answer throws a TypeError, and the callback is not called. *)
Theorem provisioner_releases_what_it_creates `{External} :
  forall (fuel : nat) (name : string) (hierarchy handle : Z) (template : TPMT_PUBLIC)
         (id : nat) (w : World),
    inflight w = [] ->
    exists w',
      ((exists pub,
             settle 4 fuel
               (_createPersistentPrimary name hierarchy handle template (Observe id) w)
             = Returned tt w'
             /\ (since w w' = [Issued (ReadPublic handle); Provisioned id None pub]
                 \/ exists transientHandle,
                      since w w'
                      = [Issued (ReadPublic handle);
                         Issued (CreatePrimary hierarchy template);
                         Issued (EvictControl tss.Owner transientHandle handle);
                         Issued (FlushContext transientHandle);
                         Provisioned id None pub]))
          \/ (exists message,
                settle 4 fuel
                  (_createPersistentPrimary name hierarchy handle template (Observe id) w)
                = Thrown (TypeError message) w'
                /\ lastResponseCode (tpm w') <> TPM_RC.SUCCESS
                /\ since w w'
                   = [Issued (ReadPublic handle);
                      Issued (CreatePrimary hierarchy template)]))
      /\ inflight w' = [].
Proof.
  intros fuel name hierarchy handle template id w Hi.
  destruct w as [c t infl tr]. simpl in Hi. subst. turn. go.
  - eexists. split;
      [left; eexists; split; [reflexivity|]; left; new_events; reflexivity
      |reflexivity].
  - eexists. split;
      [left; eexists; split; [reflexivity|]; right; eexists; new_events; reflexivity
      |reflexivity].
  - eexists. split;
      [right; eexists; split; [reflexivity|]; failed_create;
       split; [assumption|]; new_events; reflexivity
      |reflexivity].
  - eexists. split;
      [right; eexists; split; [reflexivity|]; failed_create;
       split; [assumption|]; new_events; reflexivity
      |reflexivity].
Qed.

Lemma provisioner_releases_what_it_creates_witness :
  exists w' pub,
    settle 4 9
      (_createPersistentPrimary "SRK" tss.Owner _srkPersistentHandle _srkTemplate (Observe 1)
         (new_world None
            (Reference.tpm_with 2 [TPM_RC.SUCCESS; TPM_RC.SUCCESS; TPM_RC.FAILURE])))
    = Returned tt w'
    /\ inflight w' = []
    /\ (since (new_world None
                 (Reference.tpm_with 2 [TPM_RC.SUCCESS; TPM_RC.SUCCESS; TPM_RC.FAILURE])) w'
        = [Issued (ReadPublic _srkPersistentHandle); Provisioned 1 None pub]
        \/ exists transientHandle,
             since (new_world None
                      (Reference.tpm_with 2 [TPM_RC.SUCCESS; TPM_RC.SUCCESS; TPM_RC.FAILURE]))
                   w'
             = [Issued (ReadPublic _srkPersistentHandle);
                Issued (CreatePrimary tss.Owner _srkTemplate);
                Issued (EvictControl tss.Owner transientHandle _srkPersistentHandle);
                Issued (FlushContext transientHandle);
                Provisioned 1 None pub]).
Proof.
  destruct (provisioner_releases_what_it_creates 9 "SRK" tss.Owner _srkPersistentHandle
              _srkTemplate 1
              (new_world None
                 (Reference.tpm_with 2 [TPM_RC.SUCCESS; TPM_RC.SUCCESS; TPM_RC.FAILURE]))
              eq_refl)
    as [w' [[[pub [Hrun Hseq]]|[message [Hthrown _]]] Hquiet]].
  - exists w', pub. split; [exact Hrun|]. split; [exact Hquiet|exact Hseq].
  - vm_compute in Hthrown. discriminate Hthrown.
Defined.
(** ** Failures that find the machine disconnected *)

(** A failure of signing or of activation that finds the machine already
    [disconnected] is lost: the transition to the state the machine is in
    does nothing, so the turn changes nothing and the caller's callback is
    never called, with the error or without. *)
Theorem failure_while_disconnected_is_dropped `{External} :
  forall (fuel : nat) (k : Kont) (resp : Response) (id : nat) (e : Error) (w : World),
    operation_callback k = Some (User id) ->
    state (client w) = disconnected ->
    failure k resp w = Some e ->
    resume (2 + fuel) k resp w = Returned tt w.
Proof.
  intros fuel k resp id e w Hk Hs Hfail.
  destruct k; simpl in Hk; try discriminate Hk; injection Hk as ->;
    unfold failure in Hfail; try discriminate Hfail;
    open_world w; turn.
  1: { destruct (tpmProperty resp) as [|[property value] [|]]; turn;
         try reflexivity.
       destruct (property =? TPM_PT.INPUT_BUFFER); [discriminate Hfail|reflexivity]. }
  all: destruct (lastResponseCode _ =? TPM_RC.SUCCESS); turn;
       [discriminate Hfail|reflexivity].
Qed.

Lemma failure_while_disconnected_is_dropped_witness :
  resume 2 (K_GetCapability (Buffer_from_hex "0102") TPM_ALG_ID.SHA256 (User 1)) no_response
    (new_world None (Reference.tpm_with 2 []))
  = Returned tt (new_world None (Reference.tpm_with 2 [])).
Proof.
  apply (failure_while_disconnected_is_dropped 0
           (K_GetCapability (Buffer_from_hex "0102") TPM_ALG_ID.SHA256 (User 1))
           no_response 1
           (SecurityDeviceError
              "Unexpected result of TPM2_GetCapability(TPM_PT.INPUT_BUFFER)" None)
           (new_world None (Reference.tpm_with 2 []))); reflexivity.
Defined.

(** Two requests in flight that both fail: the first failure disconnects and
    reaches its callback, the second finds the machine disconnected and its
    callback is never called. *)
Example second_failure_is_never_reported :
  exists w',
    two_signatures_failing = Returned tt w'
    /\ List.filter (fun e => match e with Called _ _ _ => true | _ => false end) (trace w')
       = [Called 0 None VUndefined;
          Called 1 (Some (SecurityDeviceError
                            "Unexpected result of TPM2_GetCapability(TPM_PT.INPUT_BUFFER)"
                            None)) VUndefined]
    /\ inflight w' = [].
Proof.
  eexists. split; [vm_compute; reflexivity|]. split; vm_compute; reflexivity.
Qed.

(** ** Validation and acceptance of an activation *)

(** [activateSymmetricIdentity] throws the ReferenceError of the source on a
    null or empty blob, in the world of the call.  A blob that is not empty
    is not looked at while the client is not connected: whatever its bytes,
    on a disconnected client the call returns with the connection started,
    and on a connecting client it returns with the request deferred. *)
Theorem activation_is_validated_then_accepted `{External} :
  forall (fuel id : nat) (w : World),
    activateSymmetricIdentity fuel None (User id) w
    = Thrown (ReferenceError "'identityKey' cannot be 'null'") w
    /\ activateSymmetricIdentity fuel (Some []) (User id) w
       = Thrown (ReferenceError "'identityKey' cannot be ''") w
    /\ forall blob,
         blob <> [] ->
         (state (client w) = disconnected ->
          inputQueue (client w) = [] ->
          connectThrows (tpm w) = false ->
          activateSymmetricIdentity (4 + fuel) (Some blob) (User id) w
          = Returned tt (connect_started (ActivateSymmetricIdentity blob) (User id) w))
         /\ (state (client w) = connecting ->
             activateSymmetricIdentity (1 + fuel) (Some blob) (User id) w
             = Returned tt
                 (deferred [request (ActivateSymmetricIdentity blob) (User id)] w)).
Proof.
  intros fuel id w. split; [reflexivity|]. split; [reflexivity|].
  intros blob Hblob. destruct blob as [|b blob]; [congruence|]. split.
  - intros Hs Hq Hthrows. unfold activateSymmetricIdentity.
    destruct w as [c t infl tr]. destruct c. simpl in *. subst.
    unfold connect_started. turn. rewrite Hthrows. turn.
    rewrite <- ?app_assoc. reflexivity.
  - intros Hs. unfold activateSymmetricIdentity. apply deferral. exact Hs.
Qed.

Lemma activation_is_validated_then_accepted_witness :
  activateSymmetricIdentity 4 (Some Reference.truncated_blob) (User 1)
    (new_world None (Reference.tpm_with 2 []))
  = Returned tt
      (connect_started (ActivateSymmetricIdentity Reference.truncated_blob) (User 1)
         (new_world None (Reference.tpm_with 2 []))).
Proof.
  apply (activation_is_validated_then_accepted 0 1 (new_world None (Reference.tpm_with 2 []))).
  - vm_compute. discriminate.
  - reflexivity.
  - reflexivity.
  - reflexivity.
Defined.

(** ** Any number of deferred operations *)

(** Inputs given to the machine while it is [connecting], however many, are
    all deferred: they are appended to the queue in the order given, each
    recorded as handled and deferred, and nothing is sent to the module and
    no callback is called. *)
Theorem every_input_is_deferred_while_connecting `{External} :
  forall (fuel : nat) (l : list Input) (w : World),
    state (client w) = connecting ->
    each (handle (S fuel)) l w = Returned tt (deferred l w).
Proof.
  intros fuel l. induction l as [|i l IH]; intros w Hs.
  - unfold deferred. destruct w as [c t infl tr]. destruct c. simpl.
    rewrite !app_nil_r. reflexivity.
  - cbn [each]. unfold bind. rewrite deferral by exact Hs.
    rewrite IH by (destruct w as [c t infl tr]; destruct c; exact Hs).
    unfold deferred. destruct w as [c t infl tr]. destruct c. cbn.
    rewrite <- !app_assoc. reflexivity.
Qed.

Lemma every_input_is_deferred_while_connecting_witness :
  each (handle 1)
       [request GetEndorsementKey (User 1);
        request (SignWithIdentity (Buffer_from_hex "01")) (User 2);
        request GetStorageRootKey (User 3)]
       connecting_world
  = Returned tt
      (deferred [request GetEndorsementKey (User 1);
                 request (SignWithIdentity (Buffer_from_hex "01")) (User 2);
                 request GetStorageRootKey (User 3)]
                connecting_world).
Proof.
  apply (every_input_is_deferred_while_connecting 0
           [request GetEndorsementKey (User 1);
            request (SignWithIdentity (Buffer_from_hex "01")) (User 2);
            request GetStorageRootKey (User 3)]
           connecting_world).
  reflexivity.
Defined.

(** ** Signing within the limit *)

(** Data no longer than the limit the module reports is signed by one
    keyed-hash command over the whole buffer under the identity key handle,
    with the hash algorithm of the key's scheme, and no sequence command.
    The response code of that command is not looked at: whatever the module
    answers, the callback receives a null error and the buffer of the
    response, and the machine stays [connected]. *)
Theorem signing_within_the_limit_is_one_command `{External} :
  forall (fuel : nat) (data : Buffer) (limit : Z) (id : nat) (pub : TPMT_PUBLIC) (w : World),
    state (client w) = connected ->
    inflight w = [] ->
    _idKeyPub (client w) = Some pub ->
    reported_input_buffer (tpm w) = [(TPM_PT.INPUT_BUFFER, limit)] ->
    Buffer_length data <= limit ->
    exists w',
      settle 2 (S fuel) (handle (S fuel) (request (SignWithIdentity data) (User id)) w)
      = Returned tt w'
      /\ since w w'
         = [Handling connected (request (SignWithIdentity data) (User id));
            Issued (GetCapability TPM_CAP.TPM_PROPERTIES TPM_PT.INPUT_BUFFER 1);
            Issued (HMAC _idKeyPersistentHandle data (idKeyHashAlg_of pub));
            Called id None
              (VBuffer
                 (outBuffer
                    (snd (exec
                            (fst (exec (tpm w)
                                    (GetCapability TPM_CAP.TPM_PROPERTIES
                                       TPM_PT.INPUT_BUFFER 1)))
                            (HMAC _idKeyPersistentHandle data (idKeyHashAlg_of pub))))))]
      /\ inflight w' = []
      /\ state (client w') = connected.
Proof.
  intros fuel data limit id pub w Hs Hi Hkey Hcap Hlen.
  apply Z.leb_le in Hlen.
  open_world w. unfold reported_input_buffer in Hcap. turn.
  deliver_next. turn. rewrite Hcap. turn. rewrite Hlen. turn.
  deliver_next. turn. try quiet.
  eexists. split; [reflexivity|]. split; [|split; reflexivity].
  new_events. reflexivity.
Qed.

Lemma signing_within_the_limit_is_one_command_witness :
  exists w',
    settle 2 1
      (handle 1 (request (SignWithIdentity (Buffer_from_hex "0102")) (User 1))
         (Reference.activated_world 2 (repeat TPM_RC.SUCCESS 19 ++ [TPM_RC.FAILURE])))
    = Returned tt w'
    /\ List.filter (fun e => match e with Called _ _ _ => true | _ => false end)
         (since (Reference.activated_world 2 (repeat TPM_RC.SUCCESS 19 ++ [TPM_RC.FAILURE])) w')
       = [Called 1 None (VBuffer [])]
    /\ state (client w') = connected.
Proof.
  destruct (signing_within_the_limit_is_one_command 0 (Buffer_from_hex "0102") 2 1
              Reference.idKey
              (Reference.activated_world 2 (repeat TPM_RC.SUCCESS 19 ++ [TPM_RC.FAILURE])))
    as [w' [Hrun [Hsince [_ Hstate]]]].
  - vm_compute. reflexivity.
  - vm_compute. reflexivity.
  - vm_compute. reflexivity.
  - vm_compute. reflexivity.
  - vm_compute. discriminate.
  - exists w'. split; [exact Hrun|]. split; [|exact Hstate].
    rewrite Hsince. vm_compute. reflexivity.
Defined.

(** ** The registration id *)

(** When [tpm.connect] throws, [getRegistrationId] on a new client hands the
    exception and a null id to the callback, as the exception is and not as
    a device error; no id is stored, so the next call tries again, and the
    machine is [disconnected]. *)
Theorem registration_id_reports_the_connection_error `{External} :
  forall (fuel id : nat) (w : World),
    _registrationId (client w) = EmptyString ->
    state (client w) = disconnected ->
    inputQueue (client w) = [] ->
    connectThrows (tpm w) = true ->
    exists w',
      getRegistrationId (8 + fuel) (User id) w = Returned tt w'
      /\ since w w'
         = [Handling disconnected
              (request GetEndorsementKey (DeriveRegistrationId (User id)));
            Handling disconnected
              (connect (Redispatch GetEndorsementKey (DeriveRegistrationId (User id))));
            Transition disconnected connecting;
            Transition connecting disconnected;
            Called id (Some (TssError "connect")) VNull]
      /\ _registrationId (client w') = EmptyString
      /\ state (client w') = disconnected
      /\ inflight w' = inflight w
      /\ tpm w' = tpm w.
Proof.
  intros fuel id w Hid Hs Hq Hthrows.
  open_world w. unfold getRegistrationId, getEndorsementKey. turn.
  rewrite Hthrows. turn.
  eexists. split; [reflexivity|]. split; [new_events; reflexivity|].
  repeat split.
Qed.

Lemma registration_id_reports_the_connection_error_witness :
  exists w',
    getRegistrationId 8 (User 1) (new_world None (mkTpm ∅ ∅ ∅ 0 [] [] TPM_RC.SUCCESS true))
    = Returned tt w'
    /\ last (trace w') = Some (Called 1 (Some (TssError "connect")) VNull)
    /\ _registrationId (client w') = EmptyString.
Proof.
  destruct (registration_id_reports_the_connection_error 0 1
              (new_world None (mkTpm ∅ ∅ ∅ 0 [] [] TPM_RC.SUCCESS true))
              eq_refl eq_refl eq_refl eq_refl)
    as [w' [Hrun [Hsince [Hid _]]]].
  exists w'. split; [exact Hrun|]. split; [|exact Hid].
  injection Hrun as <-. reflexivity.
Defined.

Lemma base32_loop_length (view : Buffer) :
  forall bits value,
    0 <= bits < 5 ->
    Z.of_nat (length (base32_loop view bits value))
    = (bits + 8 * Z.of_nat (length view) + 4) / 5.
Proof.
  induction view as [|b rest IH]; intros bits value Hbits.
  - cbn [base32_loop length]. rewrite Z.mul_0_r, Z.add_0_r.
    destruct (0 <? bits) eqn:E.
    + apply Z.ltb_lt in E. cbn [length].
      apply Z.div_unique with (r := bits - 1); lia.
    + apply Z.ltb_ge in E. assert (bits = 0) as -> by lia. reflexivity.
  - cbn [base32_loop]. cbv zeta.
    destruct (5 <=? bits + 8 - 5) eqn:E.
    + apply Z.leb_le in E. cbn [length].
      rewrite !Nat2Z.inj_succ, IH by lia.
      Z.div_mod_to_equations. lia.
    + apply Z.leb_gt in E. cbn [length].
      rewrite !Nat2Z.inj_succ, IH by lia.
      Z.div_mod_to_equations. lia.
Qed.

Lemma alphabet_lower (v : Z) : In (lower_char (alphabet_at v)) lower_RFC4648.
Proof.
  assert (Hall : forallb (fun c => existsb (Ascii.eqb (lower_char c)) lower_RFC4648) RFC4648
                 = true) by (vm_compute; reflexivity).
  rewrite forallb_forall in Hall.
  assert (Hin : In (alphabet_at v) RFC4648).
  { unfold alphabet_at.
    destruct (Nat.lt_ge_cases (Z.to_nat v) (length RFC4648)) as [Hlt|Hge].
    - apply nth_In. exact Hlt.
    - rewrite nth_overflow by exact Hge. left. reflexivity. }
  apply Hall in Hin. apply existsb_exists in Hin as [c [Hc Heq]].
  apply Ascii.eqb_eq in Heq. rewrite Heq. exact Hc.
Qed.

Lemma base32_loop_lower (view : Buffer) :
  forall bits value,
    Forall (fun c => In (lower_char c) lower_RFC4648) (base32_loop view bits value).
Proof.
  induction view as [|b rest IH]; intros bits value; cbn [base32_loop]; cbv zeta.
  - destruct (0 <? bits); [|apply Forall_nil_2].
    apply Forall_cons_2; [apply alphabet_lower|apply Forall_nil_2].
  - destruct (5 <=? bits + 8 - 5).
    + apply Forall_cons_2; [apply alphabet_lower|].
      apply Forall_cons_2; [apply alphabet_lower|apply IH].
    + apply Forall_cons_2; [apply alphabet_lower|apply IH].
Qed.

Lemma string_length_of_list (l : list ascii) :
  String.length (string_of_list_ascii l) = length l.
Proof. induction l; simpl; congruence. Qed.

(** The id derived from the endorsement key has 52 characters, each a
    lower-case letter or a digit from 2 to 7: the 32 bytes of the digest give
    52 base-32 digits, and the four [=] that pad them to 56 are removed. *)
Theorem derived_registration_id_format `{External} :
  forall (fuel id : nat) (ek : TPMT_PUBLIC) (w : World),
    _registrationId (client w) = EmptyString ->
    state (client w) = connected ->
    _ek (client w) = Some ek ->
    exists w' registrationId,
      getRegistrationId (4 + fuel) (User id) w = Returned tt w'
      /\ last (trace w') = Some (Called id None (VString registrationId))
      /\ _registrationId (client w') = registrationId
      /\ String.length registrationId = 52%nat
      /\ Forall (fun c => In c lower_RFC4648) (list_ascii_of_string registrationId)
      /\ String.length (base32Encode (sha256 (asTpm2B ek))) = 56%nat.
Proof.
  intros fuel id ek w Hid Hs Hek.
  open_world w. unfold getRegistrationId, getEndorsementKey. turn.
  eexists. eexists. split; [reflexivity|].
  split; [cbn; rewrite last_app; reflexivity|]. split; [reflexivity|].
  pose proof (base32_loop_length (sha256 (asTpm2B ek)) 0 0 ltac:(lia)) as Hlen.
  rewrite sha256_length in Hlen.
  assert (Hlen' : length (base32_loop (sha256 (asTpm2B ek)) 0 0) = 52%nat).
  { apply Nat2Z.inj. rewrite Hlen. reflexivity. }
  clear Hlen.
  pose proof (base32_loop_plain (sha256 (asTpm2B ek)) 0 0) as Hplain.
  pose proof (base32_loop_lower (sha256 (asTpm2B ek)) 0 0) as Hlower.
  unfold replace_eq_signs, toLowerCase, base32Encode, base32Encode_chars.
  rewrite !list_ascii_of_string_of_list_ascii.
  rewrite map_app, List.filter_app, filter_plain by exact Hplain.
  unfold base32_padding. rewrite Hlen'.
  change ((8 - 52 mod 8) mod 8)%nat with 4%nat.
  change (List.filter (fun c => negb (is_eq_sign c))
            (map lower_char (repeat "="%char 4))) with (@nil ascii).
  rewrite app_nil_r, !string_length_of_list, length_app, !length_map, Hlen'.
  split; [reflexivity|]. split; [|reflexivity].
  rewrite List.Forall_forall in Hlower. apply List.Forall_forall.
  intros c Hc. apply in_map_iff in Hc as [c0 [<- Hc0]]. apply Hlower, Hc0.
Qed.

Lemma derived_registration_id_format_witness :
  exists w' registrationId,
    getRegistrationId 4 (User 1)
      (mkWorld (mkClient (Some _ekTemplate) (Some _srkTemplate) EmptyString None
                         connected [] connected)
               (Reference.tpm_with 2 []) [] [])
    = Returned tt w'
    /\ last (trace w') = Some (Called 1 None (VString registrationId))
    /\ String.length registrationId = 52%nat.
Proof.
  destruct (derived_registration_id_format 0 1 _ekTemplate
              (mkWorld (mkClient (Some _ekTemplate) (Some _srkTemplate) EmptyString None
                                 connected [] connected)
                       (Reference.tpm_with 2 []) [] [])
              eq_refl eq_refl eq_refl)
    as [w' [registrationId [Hrun [Hlast [_ [Hlen _]]]]]].
  exists w', registrationId. split; [exact Hrun|]. split; [exact Hlast|exact Hlen].
Defined.

(** ** Activation and signing on a module that answers *)

(** On a module that fails no command, the activation of a blob that
    unmarshals ends with the key of the blob at the persistent handle of the
    identity key, whether a key was there before or not, and with the rest
    of the persistent object space as it was; the descriptor of the client
    is the same key, the callback is called once, with no error, and the
    machine is still [connected]. *)
Theorem activation_installs_the_identity_key `{External} :
  forall (fuel : nat) (blob : Buffer) (parts : ActivationParts) (pub : TPMT_PUBLIC)
         (id : nat) (w : World),
    state (client w) = connected ->
    inflight w = [] ->
    faults (tpm w) = [] ->
    unmarshal blob = Some (parts, Some pub) ->
    exists w',
      settle 10 (4 + fuel)
        (handle (4 + fuel) (request (ActivateSymmetricIdentity blob) (User id)) w)
      = Returned tt w'
      /\ persistent (tpm w') = <[_idKeyPersistentHandle := pub]> (persistent (tpm w))
      /\ _idKeyPub (client w') = Some pub
      /\ state (client w') = connected
      /\ inflight w' = []
      /\ List.filter (fun e => match e with Called _ _ _ => true | _ => false end)
           (since w w')
         = [Called id None VUndefined].
Proof.
  intros fuel blob parts pub id w Hs Hi Hf Hparse.
  destruct w as [c t infl tr]. destruct c.
  destruct t as [pers trans seqs alloc caps fl rc thr].
  simpl in *. subst. unfold _activateSymmetricIdentity. turn. rewrite Hparse. turn.
  deliver_next. exec_step. turn.
  deliver_next. exec_step. turn.
  deliver_next. exec_step. turn.
  deliver_next. exec_step. turn.
  deliver_next. exec_step. turn.
  deliver_next. exec_step. turn.
  deliver_next. exec_step.
  change (is_persistent _idKeyPersistentHandle) with true. cbv iota.
  rewrite Z.eqb_refl.
  destruct (pers !! _idKeyPersistentHandle) as [old|] eqn:Hold; turn.
  - deliver_next. exec_step.
    rewrite fresh_not_persistent, lookup_insert_eq, lookup_delete_eq.
    change (is_persistent _idKeyPersistentHandle) with true. turn.
    deliver_next. exec_step. rewrite lookup_insert_eq. turn.
    deliver_next. turn. try quiet.
    eexists. split; [reflexivity|]. cbn [tpm client inflight].
    split; [rewrite exec_keeps_persistent by reflexivity; apply insert_delete_eq|].
    repeat (split; [reflexivity|]).
    new_events. reflexivity.
  - deliver_next. exec_step.
    rewrite fresh_not_persistent, lookup_insert_eq, Hold.
    change (is_persistent _idKeyPersistentHandle) with true. turn.
    deliver_next. exec_step. rewrite lookup_insert_eq. turn.
    deliver_next. turn. try quiet.
    eexists. split; [reflexivity|]. cbn [tpm client inflight].
    split; [rewrite exec_keeps_persistent by reflexivity; reflexivity|].
    repeat (split; [reflexivity|]).
    new_events. reflexivity.
Qed.

Lemma activation_installs_the_identity_key_witness :
  persistent (tpm (Reference.activated_world 2 [])) !! _idKeyPersistentHandle
  = Some Reference.idKey
  /\ exists w',
       settle 10 4
         (handle 4 (request (ActivateSymmetricIdentity Reference.blob2) (User 1))
            (Reference.activated_world 2 []))
       = Returned tt w'
       /\ persistent (tpm w') !! _idKeyPersistentHandle
          = Some (mkPublic TPM_ALG_ID.SHA256 0 (Some [])
                    (TPMS_KEYEDHASH_PARMS (TPMS_SCHEME_HMAC TPM_ALG_ID.SHA256))
                    (Some (mkUnique (Some (Buffer_from_hex "ccdd")))))
       /\ state (client w') = connected.
Proof.
  split; [vm_compute; reflexivity|].
  destruct (activation_installs_the_identity_key 0 Reference.blob2
              Reference.parts
              (mkPublic TPM_ALG_ID.SHA256 0 (Some [])
                 (TPMS_KEYEDHASH_PARMS (TPMS_SCHEME_HMAC TPM_ALG_ID.SHA256))
                 (Some (mkUnique (Some (Buffer_from_hex "ccdd")))))
              1 (Reference.activated_world 2 []))
    as [w' [Hrun [Hkey [_ [Hstate _]]]]].
  - vm_compute. reflexivity.
  - vm_compute. reflexivity.
  - vm_compute. reflexivity.
  - vm_compute. reflexivity.
  - exists w'. split; [exact Hrun|]. split; [|exact Hstate].
    rewrite Hkey. apply lookup_insert_eq.
Defined.

(** On a module that fails no command, data within the reported limit is
    signed with the key the module holds at the persistent handle of the
    identity key, and with the hash algorithm of the descriptor the client
    holds; the client and the persistent object space are as they were. *)
Theorem signature_is_keyed_by_the_persisted_key `{External} :
  forall (fuel : nat) (data : Buffer) (limit : Z) (id : nat) (pub key : TPMT_PUBLIC)
         (w : World),
    state (client w) = connected ->
    inflight w = [] ->
    faults (tpm w) = [] ->
    _idKeyPub (client w) = Some pub ->
    persistent (tpm w) !! _idKeyPersistentHandle = Some key ->
    capabilityData (tpm w) = [(TPM_PT.INPUT_BUFFER, limit)] ->
    data <> [] ->
    Buffer_length data <= limit ->
    exists w',
      settle 2 (S fuel) (signWithIdentity (S fuel) (Some data) (User id) w) = Returned tt w'
      /\ since w w'
         = [Handling connected (request (SignWithIdentity data) (User id));
            Issued (GetCapability TPM_CAP.TPM_PROPERTIES TPM_PT.INPUT_BUFFER 1);
            Issued (HMAC _idKeyPersistentHandle data (idKeyHashAlg_of pub));
            Called id None (VBuffer (keyed_hash (Some key) (idKeyHashAlg_of pub) data))]
      /\ client w' = client w
      /\ persistent (tpm w') = persistent (tpm w)
      /\ inflight w' = [].
Proof.
  intros fuel data limit id pub key w Hs Hi Hf Hpub Hkey Hcap Hdata Hlen.
  apply Z.leb_le in Hlen.
  destruct w as [c t infl tr]. destruct c.
  destruct t as [pers trans seqs alloc caps fl rc thr].
  simpl in *. subst. unfold signWithIdentity.
  destruct data as [|b data]; [congruence|]. turn.
  deliver_next. exec_step. turn. rewrite Hlen. turn.
  deliver_next. exec_step.
  change (is_persistent _idKeyPersistentHandle) with true. cbv iota. rewrite Hkey. turn.
  try quiet.
  eexists. split; [reflexivity|]. split; [new_events; reflexivity|].
  repeat split.
Qed.

Lemma signature_is_keyed_by_the_persisted_key_witness :
  exists w',
    settle 2 1
      (signWithIdentity 1 (Some (Buffer_from_hex "0102")) (User 1)
         (Reference.activated_world 2 []))
    = Returned tt w'
    /\ last (trace w')
       = Some (Called 1 None (VBuffer (Buffer_from_hex "aabb0102"))).
Proof.
  destruct (signature_is_keyed_by_the_persisted_key 0 (Buffer_from_hex "0102") 2 1
              Reference.idKey Reference.idKey (Reference.activated_world 2 []))
    as [w' [Hrun _]].
  - vm_compute. reflexivity.
  - vm_compute. reflexivity.
  - vm_compute. reflexivity.
  - vm_compute. reflexivity.
  - vm_compute. reflexivity.
  - vm_compute. reflexivity.
  - vm_compute. discriminate.
  - vm_compute. discriminate.
  - exists w'. split; [exact Hrun|].
    vm_compute in Hrun. injection Hrun as <-. vm_compute. reflexivity.
Defined.

(** The answers of the module to [FlushContext] on its object spaces. *)
Ltac lookups :=
  repeat match goal with
  | |- context [match lookup ?k ?m with _ => _ end] => destruct (lookup k m) eqn:?
  end.

(** Activation, then signing: on a module that fails no command, the
    signature handed over after the activation of a blob is the keyed hash
    of the data under the key of that blob, with the hash algorithm of its
    scheme. *)
Theorem activation_then_signature `{External} :
  forall (fuel : nat) (blob data : Buffer) (limit : Z) (parts : ActivationParts)
         (pub : TPMT_PUBLIC) (id id' : nat) (w : World),
    state (client w) = connected ->
    inflight w = [] ->
    faults (tpm w) = [] ->
    capabilityData (tpm w) = [(TPM_PT.INPUT_BUFFER, limit)] ->
    unmarshal blob = Some (parts, Some pub) ->
    blob <> [] ->
    data <> [] ->
    Buffer_length data <= limit ->
    exists w',
      settle 2 (4 + fuel)
        (after (settle 10 (4 + fuel)
                  (activateSymmetricIdentity (4 + fuel) (Some blob) (User id) w))
               (signWithIdentity (4 + fuel) (Some data) (User id')))
      = Returned tt w'
      /\ List.filter (fun e => match e with Called _ _ _ => true | _ => false end)
           (since w w')
         = [Called id None VUndefined;
            Called id' None (VBuffer (keyed_hash (Some pub) (idKeyHashAlg_of pub) data))]
      /\ state (client w') = connected
      /\ inflight w' = [].
Proof.
  intros fuel blob data limit parts pub id id' w Hs Hi Hf Hcap Hparse Hblob Hdata Hlen.
  apply Z.leb_le in Hlen.
  destruct w as [c t infl tr]. destruct c.
  destruct t as [pers trans seqs alloc caps fl rc thr].
  simpl in *. subst. unfold activateSymmetricIdentity, _activateSymmetricIdentity.
  destruct blob as [|b0 blob]; [congruence|]. turn. rewrite Hparse. turn.
  deliver_next. exec_step. turn.
  deliver_next. exec_step. turn.
  deliver_next. exec_step. turn.
  deliver_next. exec_step. turn.
  deliver_next. exec_step. turn.
  deliver_next. exec_step. turn.
  deliver_next. exec_step.
  change (is_persistent _idKeyPersistentHandle) with true. cbv iota.
  rewrite Z.eqb_refl.
  destruct (pers !! _idKeyPersistentHandle) as [old|] eqn:Hold; turn.
  all: deliver_next; exec_step;
    rewrite fresh_not_persistent, lookup_insert_eq, ?lookup_delete_eq, ?Hold;
    change (is_persistent _idKeyPersistentHandle) with true; turn;
    deliver_next; exec_step; rewrite lookup_insert_eq; turn;
    deliver_next; exec_step; lookups; cbn [fst snd]; turn.
  all: destruct data as [|b data]; [congruence|]; unfold signWithIdentity; turn.
  all: deliver_next; exec_step; turn; rewrite Hlen; turn.
  all: deliver_next; exec_step;
    change (is_persistent _idKeyPersistentHandle) with true; cbv iota;
    rewrite lookup_insert_eq; turn; try quiet.
  all: eexists; split; [reflexivity|]; split; [new_events; reflexivity|];
    split; reflexivity.
Qed.

Lemma activation_then_signature_witness :
  exists w',
    settle 2 4
      (after (settle 10 4
                (activateSymmetricIdentity 4 (Some Reference.blob) (User 1)
                   (Reference.connected_world 2 [])))
             (signWithIdentity 4 (Some (Buffer_from_hex "0102")) (User 2)))
    = Returned tt w'
    /\ last (trace w')
       = Some (Called 2 None (VBuffer (Buffer_from_hex "aabb0102"))).
Proof.
  destruct (activation_then_signature 0 Reference.blob (Buffer_from_hex "0102") 2
              Reference.parts
              Reference.idKey 1 2 (Reference.connected_world 2 []))
    as [w' [Hrun _]].
  - vm_compute. reflexivity.
  - vm_compute. reflexivity.
  - vm_compute. reflexivity.
  - vm_compute. reflexivity.
  - vm_compute. reflexivity.
  - vm_compute. discriminate.
  - vm_compute. discriminate.
  - vm_compute. discriminate.
  - exists w'. split; [exact Hrun|].
    vm_compute in Hrun. injection Hrun as <-. vm_compute. reflexivity.
Defined.

(** ** What a failed activation leaves in the module *)

(** Whatever the module answers, an activation that hands an error to the
    callback has issued no [FlushContext]: the session it started and the
    key it loaded, where it came that far, are left in the module.  An
    activation that reports no error has issued two, the first for the
    handle of the loaded key that was made persistent, the second for the
    session of the policy. *)
Theorem failed_activation_releases_nothing `{External} :
  forall (fuel : nat) (blob : Buffer) (parts : ActivationParts)
         (pub : option TPMT_PUBLIC)
         (id : nat) (w : World),
    state (client w) = connected ->
    inflight w = [] ->
    inputQueue (client w) = [] ->
    unmarshal blob = Some (parts, pub) ->
    exists w',
      settle 10 (4 + fuel)
        (handle (4 + fuel) (request (ActivateSymmetricIdentity blob) (User id)) w)
      = Returned tt w'
      /\ inflight w' = []
      /\ (forall e v,
            In (Called id (Some e) v) (since w w') ->
            List.filter is_flush (since w w') = [])
      /\ (In (Called id None VUndefined) (since w w') ->
          exists hIdKey policySession,
            List.filter is_flush (since w w')
            = [Issued (FlushContext hIdKey); Issued (FlushContext policySession)]
            /\ In (Issued (PolicySecret tss.Endorsement policySession)) (since w w')
            /\ In (Issued (EvictControl tss.Owner hIdKey _idKeyPersistentHandle))
                 (since w w')).
Proof.
  intros fuel blob parts pub id w Hs Hi Hq Hparse.
  open_world w. unfold _activateSymmetricIdentity. turn. rewrite Hparse. turn.
  go.
  all: eexists; split; [reflexivity|]; split; [reflexivity|].
  all: new_events; split.
  all: try (intros e v Hin; cbn in Hin |- *;
            repeat destruct Hin as [Hin|Hin]; try discriminate Hin; try contradiction;
            reflexivity).
  all: intros Hin; cbn in Hin |- *.
  all: try (exfalso; repeat destruct Hin as [Hin|Hin]; try discriminate Hin; contradiction).
  all: eexists; eexists; split; [reflexivity|]; split;
       repeat (first [left; reflexivity | right]).
Qed.

Lemma failed_activation_releases_nothing_witness :
  exists w',
    settle 10 4
      (handle 4 (request (ActivateSymmetricIdentity Reference.blob) (User 1))
         (Reference.connected_world 2 (repeat TPM_RC.SUCCESS 15 ++ [TPM_RC.FAILURE])))
    = Returned tt w'
    /\ In (Issued (Load _srkPersistentHandle (Buffer_from_hex "01010101010101010101010101010101")
                     (Some Reference.idKey)))
          (since (Reference.connected_world 2 (repeat TPM_RC.SUCCESS 15 ++ [TPM_RC.FAILURE]))
                 w')
    /\ List.filter is_flush
         (since (Reference.connected_world 2 (repeat TPM_RC.SUCCESS 15 ++ [TPM_RC.FAILURE]))
                w')
       = [].
Proof.
  destruct (failed_activation_releases_nothing 0 Reference.blob
              Reference.parts (Some Reference.idKey) 1
              (Reference.connected_world 2 (repeat TPM_RC.SUCCESS 15 ++ [TPM_RC.FAILURE])))
    as [w' [Hrun [_ [Hfail _]]]].
  - vm_compute. reflexivity.
  - vm_compute. reflexivity.
  - vm_compute. reflexivity.
  - vm_compute. reflexivity.
  - exists w'. split; [exact Hrun|]. split.
    + vm_compute in Hrun. injection Hrun as <-.
      vm_compute. repeat (first [left; reflexivity | right]).
    + apply (Hfail (SecurityDeviceError
                      "Upable to persist the device id key into the TPM.  RC value: "
                      (Some TPM_RC.FAILURE)) VUndefined).
      vm_compute in Hrun. injection Hrun as <-.
      vm_compute. repeat (first [left; reflexivity | right]).
Defined.

(** ** A module that reports an input buffer of no bytes *)

(** With a limit of zero every turn of the loop sends an empty update and
    leaves the number of bytes left as it was. *)
Lemma loopFn_stalls `{External} :
  forall (n fuel : nat) (data : Buffer) (h left : Z) (w : World),
    0 < left ->
    inflight w = [] ->
    exists w' l,
      after (loopFn (mkLoop data 0 h 0 left) w) (answers n fuel) = Returned tt w'
      /\ trace w' = trace w ++ repeat (Issued (SequenceUpdate h [])) (S n)
      /\ client w' = client w
      /\ inflight w' = [(SequenceUpdate h [], K_loopFn l)].
Proof.
  induction n as [|n IH]; intros fuel data h left w Hleft Hi.
  - rewrite loopFn_update by (simpl; lia).
    cbn [loop_data maxInputBuffer hSequence curPos bytesLeft].
    destruct w as [c t infl tr]. simpl in Hi. subst.
    eexists. eexists. cbn. split; [reflexivity|]. repeat split.
  - rewrite loopFn_update by (simpl; lia).
    cbn [loop_data maxInputBuffer hSequence curPos bytesLeft].
    rewrite Z.sub_0_r. change (0 + 0) with 0.
    destruct w as [c t infl tr]. simpl in Hi. subst.
    change (slice data 0 0) with (@nil Byte.byte).
    unfold issue, modify, after. cbn [answers]. unfold bind at 1.
    cbn [tpm client inflight trace set_inflight set_tpm log app].
    match goal with
  | |- context [deliver ?f ?w0] => rewrite (deliver_cons f w0 _ _ _ eq_refl)
  end.
    cbn [tpm client inflight trace set_inflight set_tpm log].
    change (resume fuel (K_loopFn ?l) ?resp ?w0) with (loopFn l w0).
    match goal with
    | |- context [loopFn _ ?w0] =>
        destruct (IH fuel data h left w0 Hleft eq_refl) as [w' [l [Hrun [Htr [Hcl Hin]]]]]
    end.
    unfold after in Hrun.
    exists w', l. split.
    + destruct (loopFn _ _); [exact Hrun|discriminate Hrun|discriminate Hrun].
    + split; [|split; [exact Hcl|exact Hin]].
      rewrite Htr. cbn. rewrite <- app_assoc. reflexivity.
Qed.

(** When the module reports an input buffer of zero bytes, signing goes
    into the chunked branch and stays there: after the capability query and
    the start of the sequence, every answer of the module is followed by one
    more [SequenceUpdate] with an empty buffer; however many answers are
    delivered, a command is still in flight, no [SequenceComplete] was sent
    and the callback was not called. *)
Theorem signing_with_no_input_buffer_never_ends `{External} :
  forall (n fuel : nat) (data : Buffer) (id : nat) (pub : TPMT_PUBLIC) (w : World),
    state (client w) = connected ->
    inflight w = [] ->
    _idKeyPub (client w) = Some pub ->
    reported_input_buffer (tpm w) = [(TPM_PT.INPUT_BUFFER, 0)] ->
    data <> [] ->
    exists w' hSeq l,
      after (handle (S fuel) (request (SignWithIdentity data) (User id)) w)
            (answers (2 + n) fuel)
      = Returned tt w'
      /\ since w w'
         = [Handling connected (request (SignWithIdentity data) (User id));
            Issued (GetCapability TPM_CAP.TPM_PROPERTIES TPM_PT.INPUT_BUFFER 1);
            Issued (HMAC_Start _idKeyPersistentHandle [] (idKeyHashAlg_of pub))]
           ++ repeat (Issued (SequenceUpdate hSeq [])) (S n)
      /\ inflight w' = [(SequenceUpdate hSeq [], K_loopFn l)]
      /\ state (client w') = connected.
Proof.
  intros n fuel data id pub w Hs Hi Hkey Hcap Hdata.
  assert (Hlen : 0 < Buffer_length data).
  { destruct data; [congruence|]. unfold Buffer_length. simpl length. lia. }
  assert (Hbig : (Buffer_length data <=? 0) = false) by (apply Z.leb_gt; exact Hlen).
  destruct w as [cl t infl tr]. destruct cl as [ek srk rid idk st q trs].
  simpl in Hs, Hi, Hkey, Hcap. subst.
  unfold reported_input_buffer in Hcap.
  cbn [handle]. unfold bind at 1. unfold get. cbn [client state].
  unfold bind at 1. unfold emit, modify, log. cbn [client tpm inflight trace].
  unfold _signData. unfold bind at 1. unfold get. cbn [client _idKeyPub].
  unfold issue, modify, after.
  cbn [tpm client inflight trace set_inflight set_tpm log app].
  cbn [answers Nat.add]. unfold bind at 1.
  match goal with
  | |- context [deliver ?f ?w0] => rewrite (deliver_cons f w0 _ _ _ eq_refl)
  end.
  cbn [tpm client inflight trace set_inflight set_tpm log].
  unfold resume at 1. unfold bind at 1. unfold get. rewrite Hcap.
  change (TPM_PT.INPUT_BUFFER =? TPM_PT.INPUT_BUFFER) with true. cbv iota.
  rewrite Hbig.
  unfold issue, modify. cbn [tpm client inflight trace app set_inflight set_tpm log].
  unfold bind at 1.
  match goal with
  | |- context [deliver ?f ?w0] => rewrite (deliver_cons f w0 _ _ _ eq_refl)
  end.
  cbn [tpm client inflight trace set_inflight set_tpm log].
  unfold resume at 1. unfold bind at 1. unfold get.
  match goal with
  | |- context [loopFn (mkLoop _ _ ?h 0 _) ?w0] =>
      destruct (loopFn_stalls n fuel data h (Buffer_length data) w0 Hlen eq_refl)
        as [w' [l [Hrun [Htr [Hcl Hin]]]]];
      exists w', h, l
  end.
  unfold after in Hrun.
  split.
  - destruct (loopFn _ _); [exact Hrun|discriminate Hrun|discriminate Hrun].
  - split; [|split; [exact Hin|rewrite Hcl; reflexivity]].
    unfold since. rewrite Htr. cbn. rewrite <- !app_assoc.
    rewrite drop_app_length'. reflexivity.
Qed.

Lemma signing_with_no_input_buffer_never_ends_witness :
  exists w' hSeq l,
    after (handle 1 (request (SignWithIdentity (Buffer_from_hex "0102")) (User 1))
             (Reference.activated_world 0 []))
          (answers 5 0)
    = Returned tt w'
    /\ since (Reference.activated_world 0 []) w'
       = [Handling connected (request (SignWithIdentity (Buffer_from_hex "0102")) (User 1));
          Issued (GetCapability TPM_CAP.TPM_PROPERTIES TPM_PT.INPUT_BUFFER 1);
          Issued (HMAC_Start _idKeyPersistentHandle []
                    (idKeyHashAlg_of Reference.idKey))]
         ++ repeat (Issued (SequenceUpdate hSeq [])) 4
    /\ inflight w' = [(SequenceUpdate hSeq [], K_loopFn l)]
    /\ state (client w') = connected.
Proof.
  apply (signing_with_no_input_buffer_never_ends 3 0 (Buffer_from_hex "0102") 1
           Reference.idKey (Reference.activated_world 0 [])).
  - vm_compute. reflexivity.
  - vm_compute. reflexivity.
  - vm_compute. reflexivity.
  - vm_compute. reflexivity.
  - vm_compute. discriminate.
Defined.

(** ** An exception in a continuation *)

(** A blob that does not unmarshal, given to a disconnected client, raises
    nothing in the caller: the call returns with [tpm.connect] in flight.
    The exception is raised in the turn of the last answer of provisioning,
    out of the continuation the module called; the machine is then
    [connected].  Where the creation of a primary key was forced to fail,
    the connection ends before that, with the TypeError of the read of the
    key in the empty answer, and the machine is left [connecting].  Either
    way nothing is in flight, and the callback of the operation was never
    called, with an error or without. *)
Theorem unmarshal_failure_after_connecting `{External} :
  forall (fuel id : nat) (blob : Buffer) (w : World),
    state (client w) = disconnected ->
    inputQueue (client w) = [] ->
    inflight w = [] ->
    connectThrows (tpm w) = false ->
    unmarshal blob = None ->
    blob <> [] ->
    activateSymmetricIdentity (5 + fuel) (Some blob) (User id) w
    = Returned tt (connect_started (ActivateSymmetricIdentity blob) (User id) w)
    /\ exists w',
         ((settle 9 (5 + fuel)
             (activateSymmetricIdentity (5 + fuel) (Some blob) (User id) w)
           = Thrown (TssError "unmarshal") w'
           /\ state (client w') = connected
           /\ last (trace w')
              = Some (Handling connected
                        (request (ActivateSymmetricIdentity blob) (User id))))
          \/ (exists message hierarchy template,
                settle 9 (5 + fuel)
                  (activateSymmetricIdentity (5 + fuel) (Some blob) (User id) w)
                = Thrown (TypeError message) w'
                /\ state (client w') = connecting
                /\ last (trace w') = Some (Issued (CreatePrimary hierarchy template))
                /\ lastResponseCode (tpm w') <> TPM_RC.SUCCESS
                /\ faults (tpm w) <> []))
         /\ inflight w' = []
         /\ forall e v, ~ In (Called id e v) (since w w').
Proof.
  intros fuel id blob w Hs Hq Hi Hthrows Hparse Hblob.
  destruct blob as [|b0 blob]; [congruence|].
  destruct w as [c t infl tr]. destruct c. simpl in *. subst.
  unfold activateSymmetricIdentity, connect_started.
  split.
  - turn. rewrite Hthrows. turn. rewrite <- !app_assoc. reflexivity.
  - turn. rewrite Hthrows. turn. go.
    all: unfold _activateSymmetricIdentity; rewrite ?Hparse; turn; try thrown.
    all: eexists; split;
      [ first
          [ left; split; [reflexivity|]; split; [reflexivity|];
            cbn [trace]; rewrite last_app; reflexivity
          | right; do 3 eexists; split; [reflexivity|]; split; [reflexivity|];
            split; [cbn [trace]; rewrite last_app; reflexivity|];
            failed_create; cbn [tpm];
            split; [assumption|];
            intros Hnil; script_stays_empty; congruence ]
      | split; [reflexivity|];
        intros e v; new_events; cbn; intros Hin;
        repeat destruct Hin as [Hin|Hin]; try discriminate Hin; contradiction ].
Qed.

Lemma unmarshal_failure_after_connecting_witness :
  activateSymmetricIdentity 5 (Some Reference.truncated_blob) (User 1)
    (new_world None (Reference.tpm_with 2 []))
  = Returned tt
      (connect_started (ActivateSymmetricIdentity Reference.truncated_blob) (User 1)
         (new_world None (Reference.tpm_with 2 [])))
  /\ exists w',
       settle 9 5
         (activateSymmetricIdentity 5 (Some Reference.truncated_blob) (User 1)
            (new_world None (Reference.tpm_with 2 [])))
       = Thrown (TssError "unmarshal") w'
       /\ state (client w') = connected
       /\ inflight w' = [].
Proof.
  destruct (unmarshal_failure_after_connecting 0 1 Reference.truncated_blob
              (new_world None (Reference.tpm_with 2 [])))
    as [Hcall [w' [[[Hrun [Hstate _]]|[message [hierarchy [template Hfailed]]]]
                   [Hquiet _]]]].
  - reflexivity.
  - reflexivity.
  - reflexivity.
  - reflexivity.
  - vm_compute. reflexivity.
  - vm_compute. discriminate.
  - split; [exact Hcall|]. exists w'.
    split; [exact Hrun|]. split; [exact Hstate|exact Hquiet].
  - exfalso. destruct Hfailed as [_ [_ [_ [_ Hscript]]]]. apply Hscript. reflexivity.
Defined.
(** ** Signing on a disconnected client *)

Lemma persistent_handles :
  is_persistent _ekPersistentHandle = true
  /\ is_persistent _srkPersistentHandle = true
  /\ is_persistent _idKeyPersistentHandle = true
  /\ _ekPersistentHandle <> _srkPersistentHandle
  /\ _ekPersistentHandle <> _idKeyPersistentHandle
  /\ _srkPersistentHandle <> _idKeyPersistentHandle.
Proof. repeat split; vm_compute; discriminate. Qed.

Ltac module_step :=
  deliver_next; exec_step;
  repeat first
    [ rewrite fresh_not_persistent
    | rewrite (proj1 persistent_handles)
    | rewrite (proj1 (proj2 persistent_handles))
    | rewrite (proj1 (proj2 (proj2 persistent_handles)))
    | rewrite lookup_insert_eq
    | rewrite lookup_delete_eq
    | rewrite lookup_insert_ne by (vm_compute; discriminate)
    | match goal with
      | E : lookup ?k ?m = _ |- context [lookup ?k ?m] => rewrite E
      end ];
  lookups; cbn [fst snd]; turn.

(** A client that holds an identity key and is [disconnected], as after a
    failure, signs on the next request: on a module that fails no command
    the machine connects, reads or creates the endorsement and storage root
    keys, enters [connected], and the callback receives the keyed hash of
    the data under the persisted key; it is called once, after the two
    transitions. *)
Theorem signing_reconnects_first `{External} :
  forall (fuel : nat) (data : Buffer) (limit : Z) (id : nat) (pub key : TPMT_PUBLIC)
         (w : World),
    state (client w) = disconnected ->
    inputQueue (client w) = [] ->
    inflight w = [] ->
    connectThrows (tpm w) = false ->
    faults (tpm w) = [] ->
    _idKeyPub (client w) = Some pub ->
    persistent (tpm w) !! _idKeyPersistentHandle = Some key ->
    capabilityData (tpm w) = [(TPM_PT.INPUT_BUFFER, limit)] ->
    data <> [] ->
    Buffer_length data <= limit ->
    exists w',
      settle 11 (5 + fuel) (signWithIdentity (5 + fuel) (Some data) (User id) w)
      = Returned tt w'
      /\ state (client w') = connected
      /\ is_Some (_ek (client w'))
      /\ is_Some (_srk (client w'))
      /\ inflight w' = []
      /\ List.filter (fun e => match e with
                               | Called _ _ _ | Transition _ _ => true
                               | _ => false
                               end)
           (since w w')
         = [Transition disconnected connecting;
            Transition connecting connected;
            Called id None (VBuffer (keyed_hash (Some key) (idKeyHashAlg_of pub) data))].
Proof.
  intros fuel data limit id pub key w Hs Hq Hi Hthrows Hf Hpub Hkey Hcap Hdata Hlen.
  apply Z.leb_le in Hlen.
  destruct w as [c t infl tr]. destruct c.
  destruct t as [pers trans seqs alloc caps fl rc thr].
  simpl in *. subst. unfold signWithIdentity.
  destruct data as [|b data]; [congruence|]. turn.
  deliver_next. exec_step. cbn [fst snd]. turn.
  module_step.
  all: repeat (module_step; rewrite ?Hlen; turn).
  all: try quiet.
  all: eexists; split; [reflexivity|]; split; [reflexivity|].
  all: split; [eexists; reflexivity|]; split; [eexists; reflexivity|].
  all: split; [reflexivity|]; new_events; reflexivity.
Qed.

Lemma signing_reconnects_first_witness :
  exists w',
    settle 11 5
      (signWithIdentity 5 (Some (Buffer_from_hex "0102")) (User 1)
         (mkWorld (mkClient None None EmptyString (Some Reference.idKey)
                            disconnected [] disconnected)
                  (mkTpm {[ _idKeyPersistentHandle := Reference.idKey ]} ∅ ∅ 0
                         [(TPM_PT.INPUT_BUFFER, 2)] [] TPM_RC.SUCCESS false)
                  [] []))
    = Returned tt w'
    /\ state (client w') = connected
    /\ last (trace w') = Some (Called 1 None (VBuffer (Buffer_from_hex "aabb0102"))).
Proof.
  destruct (signing_reconnects_first 0 (Buffer_from_hex "0102") 2 1
              Reference.idKey Reference.idKey
              (mkWorld (mkClient None None EmptyString (Some Reference.idKey)
                                 disconnected [] disconnected)
                       (mkTpm {[ _idKeyPersistentHandle := Reference.idKey ]} ∅ ∅ 0
                              [(TPM_PT.INPUT_BUFFER, 2)] [] TPM_RC.SUCCESS false)
                       [] []))
    as [w' [Hrun [Hstate _]]].
  - reflexivity.
  - reflexivity.
  - reflexivity.
  - reflexivity.
  - reflexivity.
  - reflexivity.
  - vm_compute. reflexivity.
  - reflexivity.
  - vm_compute. discriminate.
  - vm_compute. discriminate.
  - exists w'. split; [exact Hrun|]. split; [exact Hstate|].
    vm_compute in Hrun. injection Hrun as <-. vm_compute. reflexivity.
Defined.

(** ** A failure that arrives while the machine is connecting *)

Lemma exec_forced `{External} (t : Tpm) (c : Command) (rc : Z) :
  forced t = Some rc ->
  is_Connect c = false ->
  exec t c = fail rc (next_fault t) /\ (rc =? TPM_RC.SUCCESS) = false.
Proof.
  intros Hforced Hc. split.
  - unfold exec. rewrite Hforced. destruct c; try reflexivity. discriminate Hc.
  - unfold forced in Hforced. destruct (faults t) as [|rc0 rest]; [discriminate|].
    destruct (rc0 =? TPM_RC.SUCCESS) eqn:E; [discriminate|].
    injection Hforced as <-. exact E.
Qed.

(** An operation started before the machine was disconnected keeps running,
    and its failure is handled in whatever state the machine is then in.
    When it arrives in the [connecting] state after the endorsement key was
    cached, the transition to [disconnected] clears the key and hands the
    error over, while the read of the storage root key is still in flight.
    Its answer then takes the machine from [disconnected] to [connected],
    and the request for the endorsement key that started the connection is
    dispatched there with [_ek] null: it throws a TypeError in the
    continuation.  Where the script of the module goes on and forces the
    creation of the storage root key to fail, the TypeError is that of the
    read of the key in the empty answer, and the machine stays
    [disconnected].  Either way the callback of the request is never
    called. *)
Theorem stale_failure_while_reconnecting `{External} :
  forall (fuel : nat) (c : Command) (k : Kont) (id : nat) (callback : Callback)
         (rc : Z) (ek : TPMT_PUBLIC) (w : World),
    state (client w) = connecting ->
    inputQueue (client w) = [] ->
    _ek (client w) = Some ek ->
    inflight w
    = [(c, k);
       (ReadPublic _srkPersistentHandle,
        K_ReadPublic "SRK" tss.Owner _srkPersistentHandle _srkTemplate
          (SrkCreated (Redispatch GetEndorsementKey callback)))] ->
    is_Connect c = false ->
    tests_the_answer k = true ->
    operation_callback k = Some (User id) ->
    forced (tpm w) = Some rc ->
    exists w' e,
      ((settle 5 (3 + fuel) (Returned tt w)
        = Thrown (TypeError "Cannot read property 'asTpm2B' of null") w'
        /\ state (client w') = connected
        /\ is_Some (_srk (client w'))
        /\ In (Transition disconnected connected) (since w w'))
       \/ (exists message,
             settle 5 (3 + fuel) (Returned tt w) = Thrown (TypeError message) w'
             /\ state (client w') = disconnected
             /\ last (trace w') = Some (Issued (CreatePrimary tss.Owner _srkTemplate))
             /\ lastResponseCode (tpm w') <> TPM_RC.SUCCESS
             /\ tail (faults (tpm w)) <> []))
      /\ _ek (client w') = None
      /\ inflight w' = []
      /\ In (Transition connecting disconnected) (since w w')
      /\ List.filter is_call (since w w') = [Called id (Some e) VUndefined].
Proof.
  intros fuel c k id callback rc ek w Hs Hq Hek Hin Hc Hk Hcb Hforced.
  destruct w as [cl t infl tr]. destruct cl as [ek0 srk rid idk st q trs].
  simpl in Hs, Hq, Hek, Hin, Hforced. subst.
  destruct (exec_forced t c rc Hforced Hc) as [Hexec Hrc].
  destruct k; try discriminate Hk; simpl in Hcb; injection Hcb as ->.
  all: deliver_next; rewrite Hexec; unfold fail; cbn [fst snd]; turn;
       rewrite ?Hrc; turn.
  all: go.
  all: eexists; eexists; split;
    [ first
        [ left; split; [reflexivity|]; split; [reflexivity|];
          split; [eexists; reflexivity|];
          new_events; cbn; repeat (first [left; reflexivity | right])
        | right; eexists; split; [reflexivity|]; split; [reflexivity|];
          split; [cbn [trace]; rewrite last_app; reflexivity|];
          failed_create; cbn [tpm faults];
          split; [assumption|];
          intros Hnil;
          match goal with
          | E : exec (with_rc ?r (next_fault ?t0)) _ = _ |- _ =>
              pose proof (Hnil : faults (with_rc r (next_fault t0)) = [])
          end;
          script_stays_empty; congruence ]
    | split; [reflexivity|]; split; [reflexivity|];
      new_events; cbn; split;
      [repeat (first [left; reflexivity | right])|reflexivity] ].
Qed.

Lemma stale_failure_while_reconnecting_witness :
  exists w',
    settle 5 3 (Returned tt reconnecting_world)
    = Thrown (TypeError "Cannot read property 'asTpm2B' of null") w'
    /\ state (client w') = connected
    /\ _ek (client w') = None.
Proof.
  destruct (stale_failure_while_reconnecting 0
              (ActivateCredential _srkPersistentHandle _ekPersistentHandle
                 (Some (mkIdObject (Buffer_from_hex "11") (Buffer_from_hex "22")))
                 (Buffer_from_hex "3333"))
              (K_ActivateCredential Reference.parts 0x80000002 (User 1))
              1 (User 3) TPM_RC.FAILURE
              (primary_public tss.Endorsement _ekTemplate)
              reconnecting_world)
    as [w' [e [[[Hrun [Hstate _]]|[message [_ [_ [_ [_ Hscript]]]]]] [Hek _]]]].
  - vm_compute. reflexivity.
  - vm_compute. reflexivity.
  - vm_compute. reflexivity.
  - vm_compute. reflexivity.
  - reflexivity.
  - reflexivity.
  - reflexivity.
  - vm_compute. reflexivity.
  - exists w'. split; [exact Hrun|]. split; [exact Hstate|exact Hek].
  - exfalso. apply Hscript. vm_compute. reflexivity.
Defined.
(** ** The registration id and the callbacks, through every turn *)

(** The registration id. *)
Section Stability.
Context `{External}.
Variable Q : string -> Prop.
Hypothesis Q_id : forall r endorsementKey, Q r -> Q (registrationId_of endorsementKey).

Lemma stable_refl (w : World) : stable Q w w.
Proof. intros Hw. exact Hw. Qed.

Lemma stable_trans (a b c : World) : stable Q a b -> stable Q b c -> stable Q a c.
Proof. intros Hab Hbc Ha. apply Hbc, Hab, Ha. Qed.

Lemma stable_emit (e : Event) : keeps (stable Q) (emit e).
Proof. intros w Hw. exact Hw. Qed.

Lemma stable_issue (c : Command) (k : Kont) : keeps (stable Q) (issue c k).
Proof. intros w Hw. exact Hw. Qed.

Lemma stable_update (f : Client -> Client) :
  (forall c, Q (_registrationId c) -> Q (_registrationId (f c))) ->
  keeps (stable Q) (update f).
Proof. intros Hf w Hw. apply Hf, Hw. Qed.

Ltac field_kept :=
  let c := fresh "c" in
  let Hc := fresh "Hc" in
  intros c Hc; destruct c; cbn in Hc |- *;
  first [exact Hc | eapply Q_id; exact Hc].

Ltac stable_step :=
  keeps_step stable_refl stable_trans
    ltac:(first [apply stable_emit | apply stable_issue | apply stable_update; field_kept])
    ltac:(idtac).

Lemma machine_stable :
  forall fuel : nat,
    (forall i, keeps (stable Q) (handle fuel i))
    /\ (forall s cb e, keeps (stable Q) (transition fuel s cb e))
    /\ (forall cb e v, keeps (stable Q) (invoke fuel cb e v))
    /\ keeps (stable Q) (processQueue fuel).
Proof.
  induction fuel as [|n [IHh [IHt [IHi IHp]]]].
  - repeat split; intros; apply keeps_exhausted.
  - split; [|split; [|split]].
    + intros i. cbn [handle]. repeat stable_step.
    + intros s cb e. cbn [transition]. repeat stable_step.
    + intros cb e v. cbn [invoke]. repeat stable_step.
    + cbn [processQueue]. repeat stable_step.
Qed.

Lemma resume_stable (fuel : nat) (k : Kont) (resp : Response) :
  keeps (stable Q) (resume fuel k resp).
Proof.
  destruct (machine_stable fuel) as [IHh [IHt [IHi IHp]]].
  unfold resume. apply (keeps_bind _ stable_trans); [apply (keeps_get _ stable_refl)|].
  intros w0; cbv beta. destruct k; repeat stable_step.
Qed.

Lemma settle_stable (steps fuel : nat) (i : Input) (w w' : World) :
  (settle steps fuel (handle fuel i w) = Returned tt w'
   \/ exists e, settle steps fuel (handle fuel i w) = Thrown e w') ->
  stable Q w w'.
Proof.
  assert (Htpm : forall t l w0, stable Q w0 (set_inflight l (set_tpm t w0)))
    by (intros t l w0 Hw; exact Hw).
  apply (keeps_settle _ stable_refl stable_trans Htpm steps fuel (handle fuel i) w w').
  - apply resume_stable.
  - apply machine_stable.
Qed.

End Stability.

(** The calls of the callbacks. *)
Section Calls.
Context `{External}.

Lemma adds_refl (w : World) : adds_node_style w w.
Proof. exists []. split; [symmetry; apply app_nil_r|reflexivity]. Qed.

Lemma adds_trans (a b c : World) :
  adds_node_style a b -> adds_node_style b c -> adds_node_style a c.
Proof.
  intros [l1 [H1 P1]] [l2 [H2 P2]]. exists (l1 ++ l2). split.
  - rewrite H2, H1. symmetry. apply app_assoc.
  - rewrite forallb_app, P1, P2. reflexivity.
Qed.

Lemma adds_emit (e : Event) : node_style e = true -> keeps adds_node_style (emit e).
Proof.
  intros He w. exists [e]. split; [reflexivity|]. cbn. rewrite He. reflexivity.
Qed.

Lemma adds_issue (c : Command) (k : Kont) : keeps adds_node_style (issue c k).
Proof. intros w. exists [Issued c]. split; reflexivity. Qed.

Lemma adds_update (f : Client -> Client) : keeps adds_node_style (update f).
Proof. intros w. exists []. split; [symmetry; apply app_nil_r|reflexivity]. Qed.

Ltac adds_step :=
  keeps_step adds_refl adds_trans
    ltac:(first [apply adds_emit; first [reflexivity | assumption]
                | apply adds_issue | apply adds_update])
    ltac:(try discriminate; try reflexivity).

Lemma machine_adds :
  forall fuel : nat,
    (forall i, keeps adds_node_style (handle fuel i))
    /\ (forall s cb e,
          (s = disconnected -> e <> None) ->
          keeps adds_node_style (transition fuel s cb e))
    /\ (forall cb e v,
          node_style (Called 0 e v) = true ->
          keeps adds_node_style (invoke fuel cb e v))
    /\ keeps adds_node_style (processQueue fuel).
Proof.
  induction fuel as [|n [IHh [IHt [IHi IHp]]]].
  - repeat split; intros; apply keeps_exhausted.
  - split; [|split; [|split]].
    + intros i. cbn [handle]. repeat adds_step.
    + intros s cb e He.
      destruct s, e; try (exfalso; exact (He eq_refl eq_refl));
        cbn [transition]; repeat adds_step.
    + intros cb e v Hstyle. cbn [invoke]. repeat adds_step.
    + cbn [processQueue]. repeat adds_step.
Qed.

Lemma resume_adds (fuel : nat) (k : Kont) (resp : Response) :
  keeps adds_node_style (resume fuel k resp).
Proof.
  destruct (machine_adds fuel) as [IHh [IHt [IHi IHp]]].
  unfold resume. apply (keeps_bind _ adds_trans); [apply (keeps_get _ adds_refl)|].
  intros w0; cbv beta. destruct k; repeat adds_step.
Qed.

Lemma settle_adds (steps fuel : nat) (i : Input) (w w' : World) :
  (settle steps fuel (handle fuel i w) = Returned tt w'
   \/ exists e, settle steps fuel (handle fuel i w) = Thrown e w') ->
  adds_node_style w w'.
Proof.
  assert (Htpm : forall t l w0, adds_node_style w0 (set_inflight l (set_tpm t w0)))
    by (intros t l w0; exists []; split; [symmetry; apply app_nil_r|reflexivity]).
  apply (keeps_settle _ adds_refl adds_trans Htpm steps fuel (handle fuel i) w w').
  - apply resume_adds.
  - apply machine_adds.
Qed.

End Calls.

(** A registration id that is not empty is never made empty: the only
    assignment stores the id derived from the endorsement key, which has
    characters.  So [getRegistrationId] then answers at once, from the
    stored string. *)
Theorem registration_id_is_never_emptied `{External} :
  forall (steps fuel : nat) (i : Input) (w w' : World),
    _registrationId (client w) <> EmptyString ->
    (settle steps fuel (handle fuel i w) = Returned tt w'
     \/ exists e, settle steps fuel (handle fuel i w) = Thrown e w') ->
    _registrationId (client w') <> EmptyString
    /\ forall fuel' id,
         getRegistrationId (S fuel') (User id) w'
         = Returned tt (log (Called id None (VString (_registrationId (client w')))) w').
Proof.
  intros steps fuel i w w' Hid Hrun.
  assert (Hkept : _registrationId (client w') <> EmptyString).
  { apply (settle_stable (fun r => r <> EmptyString)) in Hrun.
    - apply Hrun, Hid.
    - intros r ek _. apply registrationId_nonempty. }
  split; [exact Hkept|].
  intros fuel' id. apply getRegistrationId_cached, Hkept.
Qed.

Lemma registration_id_is_never_emptied_witness :
  exists w',
    settle 9 9
      (handle 9 (request GetEndorsementKey (DeriveRegistrationId (User 1)))
         (new_world (Some "device-1"%string) (Reference.tpm_with 2 [])))
    = Returned tt w'
    /\ _registrationId (client w') <> EmptyString.
Proof.
  eexists. split; [vm_compute; reflexivity|].
  apply (registration_id_is_never_emptied 9 9
           (request GetEndorsementKey (DeriveRegistrationId (User 1)))
           (new_world (Some "device-1"%string) (Reference.tpm_with 2 []))).
  - vm_compute. discriminate.
  - left. vm_compute. reflexivity.
Defined.

(** Whatever is queued or in flight and whatever the module answers, every
    call of a callback made by an input to the machine and the answers that
    follow is in the style of Node: with an error the value is undefined or
    null, and without an error the value is never null.  So the branch of
    [disconnected._onEnter] that calls back with two nulls is never taken. *)
Theorem callbacks_get_an_error_or_a_result `{External} :
  forall (steps fuel : nat) (i : Input) (w w' : World),
    (settle steps fuel (handle fuel i w) = Returned tt w'
     \/ exists e, settle steps fuel (handle fuel i w) = Thrown e w') ->
    forall id err value,
      In (Called id err value) (since w w') ->
      match err with
      | Some _ => value = VUndefined \/ value = VNull
      | None => value <> VNull
      end.
Proof.
  intros steps fuel i w w' Hrun id err value Hin.
  destruct (settle_adds steps fuel i w w' Hrun) as [l [Htrace Hstyle]].
  unfold since in Hin. rewrite Htrace, drop_app_length' in Hin.
  rewrite forallb_forall in Hstyle. specialize (Hstyle _ Hin).
  destruct err as [e|]; destruct value; try discriminate Hstyle;
    first [left; reflexivity | right; reflexivity | discriminate].
Qed.

Lemma callbacks_get_an_error_or_a_result_witness :
  exists w',
    settle 9 9
      (handle 9 (request GetEndorsementKey (DeriveRegistrationId (User 1)))
         (new_world None (mkTpm ∅ ∅ ∅ 0 [] [] TPM_RC.SUCCESS true)))
    = Returned tt w'
    /\ In (Called 1 (Some (TssError "connect")) VNull)
          (since (new_world None (mkTpm ∅ ∅ ∅ 0 [] [] TPM_RC.SUCCESS true)) w')
    /\ (VNull = VUndefined \/ VNull = VNull).
Proof.
  eexists. split; [vm_compute; reflexivity|].
  assert (Hin : In (Called 1 (Some (TssError "connect")) VNull)
                   (since (new_world None (mkTpm ∅ ∅ ∅ 0 [] [] TPM_RC.SUCCESS true))
                      (Reference.world_of
                         (settle 9 9
                            (handle 9
                               (request GetEndorsementKey (DeriveRegistrationId (User 1)))
                               (new_world None
                                  (mkTpm ∅ ∅ ∅ 0 [] [] TPM_RC.SUCCESS true)))))))
    by (vm_compute; repeat (first [left; reflexivity | right])).
  split; [exact Hin|].
  exact (callbacks_get_an_error_or_a_result 9 9
           (request GetEndorsementKey (DeriveRegistrationId (User 1)))
           (new_world None (mkTpm ∅ ∅ ∅ 0 [] [] TPM_RC.SUCCESS true))
           _ (or_introl eq_refl) 1 (Some (TssError "connect")) VNull Hin).
Defined.

(** ** An activation blob without a key *)

(** The descriptor of the identity key is assigned whatever the blob holds:
    a blob that unmarshals with nothing in its last field, given to a
    connected client, sets the descriptor to null in the turn of the call,
    before the module has answered anything, also where a descriptor was
    there before.  From then on [signWithIdentity] fails its second check,
    as on a client that was never activated. *)
Theorem activation_can_clear_the_identity_key `{External} :
  forall (fuel fuel' : nat) (blob data : Buffer) (parts : ActivationParts)
         (id : nat) (callback : Callback) (w : World),
    state (client w) = connected ->
    unmarshal blob = Some (parts, None) ->
    blob <> [] ->
    data <> [] ->
    exists w',
      activateSymmetricIdentity (S fuel) (Some blob) (User id) w = Returned tt w'
      /\ _idKeyPub (client w') = None
      /\ since w w'
         = [Handling connected (request (ActivateSymmetricIdentity blob) (User id));
            Issued (GetRandom 20)]
      /\ tpm w' = tpm w
      /\ signWithIdentity fuel' (Some data) callback w'
         = Thrown (InvalidOperationError
                     "activateSymmetricIdentity must be invoked before any signing is attempted.")
                  w'.
Proof.
  intros fuel fuel' blob data parts id callback w Hs Hparse Hblob Hdata.
  destruct blob as [|b0 blob]; [congruence|].
  destruct data as [|b data]; [congruence|].
  open_world w. unfold activateSymmetricIdentity, _activateSymmetricIdentity. turn.
  rewrite Hparse. turn.
  eexists. split; [reflexivity|]. split; [reflexivity|].
  split; [new_events; reflexivity|]. split; reflexivity.
Qed.

Lemma activation_can_clear_the_identity_key_witness :
  _idKeyPub (client (Reference.activated_world 2 [])) = Some Reference.idKey
  /\ exists w',
       activateSymmetricIdentity 1 (Some Reference.blob_without_key) (User 1)
         (Reference.activated_world 2 [])
       = Returned tt w'
       /\ _idKeyPub (client w') = None
       /\ signWithIdentity 1 (Some (Buffer_from_hex "0102")) (User 2) w'
          = Thrown (InvalidOperationError
                      "activateSymmetricIdentity must be invoked before any signing is attempted.")
                   w'.
Proof.
  split; [vm_compute; reflexivity|].
  destruct (activation_can_clear_the_identity_key 0 1 Reference.blob_without_key
              (Buffer_from_hex "0102") Reference.parts 1 (User 2)
              (Reference.activated_world 2 []))
    as [w' [Hrun [Hkey [_ [_ Hsign]]]]].
  - vm_compute. reflexivity.
  - vm_compute. reflexivity.
  - vm_compute. discriminate.
  - vm_compute. discriminate.
  - exists w'. split; [exact Hrun|]. split; [exact Hkey|exact Hsign].
Defined.

(** ** Requests made while the machine is connecting *)

(** Two requests for a key made one after the other on a disconnected
    client: the first starts the connection, the second finds the machine
    [connecting] and is deferred.  Whatever the module answers to the
    provisioning commands, the run ends in one of two ways.  Either both
    callbacks are called, each once and with no error, the first before the
    second, each with the marshalled key it asked for, and the queue is then
    empty.  Or the creation of a primary key was forced to fail and the read
    of the key in its empty answer throws a TypeError: the machine is left
    [connecting], the second request is still in the queue, and neither
    callback is called. *)
Theorem requests_while_connecting_are_served_in_order `{External} :
  forall (fuel id1 id2 : nat) (op1 op2 : Op) (w : World),
    op1 = GetEndorsementKey \/ op1 = GetStorageRootKey ->
    op2 = GetEndorsementKey \/ op2 = GetStorageRootKey ->
    state (client w) = disconnected ->
    inputQueue (client w) = [] ->
    inflight w = [] ->
    connectThrows (tpm w) = false ->
    exists w',
      ((exists key1 key2,
          settle 9 (6 + fuel)
            (after (handle (6 + fuel) (request op1 (User id1)) w)
                   (handle (6 + fuel) (request op2 (User id2))))
          = Returned tt w'
          /\ cached_key op1 (client w') = Some key1
          /\ cached_key op2 (client w') = Some key2
          /\ List.filter is_call (since w w')
             = [Called id1 None (VBuffer (asTpm2B key1));
                Called id2 None (VBuffer (asTpm2B key2))]
          /\ state (client w') = connected
          /\ inputQueue (client w') = [])
       \/ (exists message hierarchy template,
             settle 9 (6 + fuel)
               (after (handle (6 + fuel) (request op1 (User id1)) w)
                      (handle (6 + fuel) (request op2 (User id2))))
             = Thrown (TypeError message) w'
             /\ last (trace w') = Some (Issued (CreatePrimary hierarchy template))
             /\ lastResponseCode (tpm w') <> TPM_RC.SUCCESS
             /\ faults (tpm w) <> []
             /\ List.filter is_call (since w w') = []
             /\ state (client w') = connecting
             /\ inputQueue (client w') = [request op2 (User id2)]))
      /\ In (Deferred (request op2 (User id2))) (since w w')
      /\ inflight w' = [].
Proof.
  intros fuel id1 id2 op1 op2 w Hop1 Hop2 Hs Hq Hi Hthrows.
  destruct w as [c t infl tr]. destruct c. simpl in *. subst.
  turn. rewrite Hthrows. turn. go.
  all: destruct Hop1 as [-> | ->]; turn; destruct Hop2 as [-> | ->]; turn;
       try quiet; try thrown.
  all: eexists; split;
    [ first
        [ left; eexists; eexists; split; [reflexivity|];
          split; [reflexivity|]; split; [reflexivity|];
          split; [new_events; reflexivity|]; split; reflexivity
        | right; do 3 eexists; split; [reflexivity|];
          split; [cbn [trace]; rewrite last_app; reflexivity|];
          failed_create; cbn [tpm client state inputQueue];
          split; [assumption|];
          split; [intros Hnil; script_stays_empty; congruence|];
          split; [new_events; reflexivity|]; split; reflexivity ]
    | split; [|reflexivity];
      new_events; cbn; repeat (first [left; reflexivity | right]) ].
Qed.

Lemma requests_while_connecting_are_served_in_order_witness :
  exists w' key1 key2,
    settle 9 6
      (after (handle 6 (request GetStorageRootKey (User 1))
                (new_world None (Reference.tpm_with 2 [])))
             (handle 6 (request GetEndorsementKey (User 2))))
    = Returned tt w'
    /\ List.filter is_call (since (new_world None (Reference.tpm_with 2 [])) w')
       = [Called 1 None (VBuffer (asTpm2B key1)); Called 2 None (VBuffer (asTpm2B key2))]
    /\ state (client w') = connected.
Proof.
  destruct (requests_while_connecting_are_served_in_order 0 1 2
              GetStorageRootKey GetEndorsementKey
              (new_world None (Reference.tpm_with 2 [])))
    as [w' [[[key1 [key2 [Hrun [_ [_ [Hcalls [Hstate _]]]]]]]
             |[message [hierarchy [template [_ [_ [_ [Hscript _]]]]]]]] _]].
  - right. reflexivity.
  - left. reflexivity.
  - reflexivity.
  - reflexivity.
  - reflexivity.
  - reflexivity.
  - exists w', key1, key2. split; [exact Hrun|]. split; [exact Hcalls|exact Hstate].
  - exfalso. apply Hscript. reflexivity.
Defined.
(** ** The command at which an activation fails *)

(** When the module fails the session start, the policy, the activation of
    the credential, the import or the load, the activation sends nothing
    after the failed command: the callback receives the device error of that
    step, with the response code of the module, through the transition to
    [disconnected]. *)
Theorem activation_stops_at_the_failed_command `{External} :
  forall (fuel : nat) (blob : Buffer) (parts : ActivationParts)
         (pub : option TPMT_PUBLIC) (id j : nat) (rc : Z) (rest : list Z) (w : World),
    state (client w) = connected ->
    inflight w = [] ->
    inputQueue (client w) = [] ->
    unmarshal blob = Some (parts, pub) ->
    (j < 5)%nat ->
    faults (tpm w) = repeat TPM_RC.SUCCESS (S j) ++ rc :: rest ->
    rc <> TPM_RC.SUCCESS ->
    exists w' cmds,
      settle 10 (4 + fuel)
        (handle (4 + fuel) (request (ActivateSymmetricIdentity blob) (User id)) w)
      = Returned tt w'
      /\ since w w'
         = Handling connected (request (ActivateSymmetricIdentity blob) (User id))
           :: map Issued cmds
           ++ [Transition connected disconnected;
               Called id
                 (Some (SecurityDeviceError (nth j failures_before_evict EmptyString)
                          (Some rc)))
                 VUndefined]
      /\ length cmds = (2 + j)%nat
      /\ faults (tpm w') = rest
      /\ inflight w' = [].
Proof.
  intros fuel blob parts pub id j rc rest w Hs Hi Hq Hparse Hj Hf Hrc.
  apply Z.eqb_neq in Hrc.
  destruct w as [c t infl tr]. destruct c.
  destruct t as [pers trans seqs alloc caps fl rc0 thr].
  simpl in *. subst.
  unfold _activateSymmetricIdentity. turn. rewrite Hparse. turn.
  destruct j as [|[|[|[|[|j]]]]]; [| | | | |lia]; cbn [repeat app].
  all: repeat (deliver_next; exec_step;
               change (TPM_RC.SUCCESS =? TPM_RC.SUCCESS) with true; cbv iota;
               rewrite ?Hrc; turn; rewrite ?Hrc; turn).
  all: try quiet.
  1: eexists _, [_; _].
  2: eexists _, [_; _; _].
  3: eexists _, [_; _; _; _].
  4: eexists _, [_; _; _; _; _].
  5: eexists _, [_; _; _; _; _; _].
  all: split; [reflexivity|]; split; [new_events; reflexivity|]; repeat split.
Qed.

Lemma activation_stops_at_the_failed_command_witness :
  exists (w' : World) (cmds : list Command),
    settle 10 4
      (handle 4 (request (ActivateSymmetricIdentity Reference.blob) (User 1))
         (Reference.connected_world 2
            (repeat TPM_RC.SUCCESS 8
             ++ repeat TPM_RC.SUCCESS 3 ++ [TPM_RC.NV_DEFINED; TPM_RC.FAILURE])))
    = Returned tt w'
    /\ last (trace w')
       = Some (Called 1
                 (Some (SecurityDeviceError
                    "Upable to decrypt the symmetric key used to protect duplication blob.  RC value: "
                    (Some TPM_RC.NV_DEFINED)))
                 VUndefined)
    /\ length cmds = 4%nat
    /\ faults (tpm w') = [TPM_RC.FAILURE].
Proof.
  destruct (activation_stops_at_the_failed_command 0 Reference.blob
              Reference.parts (Some Reference.idKey) 1 2 TPM_RC.NV_DEFINED [TPM_RC.FAILURE]
              (Reference.connected_world 2
                 (repeat TPM_RC.SUCCESS 8
                  ++ repeat TPM_RC.SUCCESS 3 ++ [TPM_RC.NV_DEFINED; TPM_RC.FAILURE])))
    as [w' [cmds [Hrun [Hsince [Hlen [Hfaults _]]]]]].
  - vm_compute. reflexivity.
  - vm_compute. reflexivity.
  - vm_compute. reflexivity.
  - vm_compute. reflexivity.
  - lia.
  - vm_compute. reflexivity.
  - vm_compute. discriminate.
  - exists w', cmds. split; [exact Hrun|]. split; [|split; [exact Hlen|exact Hfaults]].
    vm_compute in Hrun. injection Hrun as <-. vm_compute. reflexivity.
Defined.

(** ** A failure that finds requests deferred *)

Lemma each_deferred `{External} (fuel : nat) (l : list Input) (w : World) :
  state (client w) = connecting ->
  each (handle (S fuel)) l w = Returned tt (deferred l w).
Proof.
  revert w. induction l as [|i l IH]; intros w Hs.
  - destruct w as [c t infl tr]. destruct c. unfold deferred. cbn.
    rewrite !app_nil_r. reflexivity.
  - cbn [each]. unfold bind. rewrite deferral by exact Hs.
    rewrite IH by (destruct w as [c t infl tr]; destruct c; exact Hs).
    destruct w as [c t infl tr]. destruct c. unfold deferred. cbn.
    rewrite <- !app_assoc. reflexivity.
Qed.

Lemma request_starts_connection `{External} (fuel : nat) (op : Op) (callback : Callback)
    (w : World) :
  state (client w) = disconnected ->
  inputQueue (client w) = [] ->
  connectThrows (tpm w) = false ->
  handle (4 + fuel) (request op callback) w = Returned tt (connect_started op callback w).
Proof.
  intros Hs Hq Hthrows.
  destruct w as [c t infl tr]. destruct c. simpl in Hs, Hq, Hthrows. subst.
  unfold connect_started. turn. rewrite Hthrows. turn.
  rewrite <- ?app_assoc. reflexivity.
Qed.

(** A failure of signing or of activation that is reported while the
    machine is [connecting] with requests deferred takes the machine to
    [disconnected], hands the error to the callback, and replays the queue
    there: the first deferred request starts a new connection, with a second
    [tpm.connect] in flight beside the commands of the first, and the
    inputs behind it are deferred again, in their order. *)
Theorem failure_while_connecting_restarts_the_connection `{External} :
  forall (fuel : nat) (k : Kont) (resp : Response) (id : nat) (e : Error)
         (op : Op) (callback : Callback) (rest : list Input) (w : World),
    operation_callback k = Some (User id) ->
    state (client w) = connecting ->
    inputQueue (client w) = request op callback :: rest ->
    connectThrows (tpm w) = false ->
    failure k resp w = Some e ->
    resume (6 + fuel) k resp w
    = Returned tt (connection_restarted id e op callback rest w).
Proof.
  intros fuel k resp id e op callback rest w Hk Hs Hq Hthrows Hfail.
  rewrite (failure_is_a_transition _ k resp (User id) e w Hk Hfail).
  destruct w as [c t infl tr]. destruct c as [ek srk rid idk st q trs].
  simpl in Hs, Hq, Hthrows. subst.
  change (6 + fuel)%nat with (S (S (4 + fuel))).
  cbn [transition]. unfold bind at 1. unfold get. cbn [client state State_eqb].
  cbv [bind update modify emit on_client log set_state set_ek set_srk].
  cbn [client tpm inflight trace _ek _srk _registrationId _idKeyPub state inputQueue
       targetReplayState invoke].
  cbv [emit modify log get].
  cbn [client tpm inflight trace _ek _srk _registrationId _idKeyPub state inputQueue
       targetReplayState State_eqb].
  rewrite processQueue_replays.
  cbv [on_client set_inputQueue].
  cbn [client tpm inflight trace _ek _srk _registrationId _idKeyPub state inputQueue
       targetReplayState each].
  unfold bind at 1.
  rewrite request_starts_connection by (first [reflexivity | exact Hthrows]).
  cbv beta iota. change (4 + fuel)%nat with (S (3 + fuel)).
  rewrite each_deferred by reflexivity.
  unfold connection_restarted, connect_started, deferred. cbn.
  rewrite <- !app_assoc. reflexivity.
Qed.

Lemma failure_while_connecting_restarts_the_connection_witness :
  resume 6
    (K_PolicySecret
       Reference.parts
       0x80000002 (User 1))
    no_response
    (mkWorld (mkClient None None EmptyString (Some Reference.idKey) connecting
                       [request GetEndorsementKey (User 2); request GetStorageRootKey (User 3)]
                       connecting)
             (mkTpm ∅ ∅ ∅ 0 [] [] TPM_RC.FAILURE false) [] [])
  = Returned tt
      (connection_restarted 1
         (SecurityDeviceError
            "Upable to apply the necessary policy to authorize the EK.  RC value: "
            (Some TPM_RC.FAILURE))
         GetEndorsementKey (User 2) [request GetStorageRootKey (User 3)]
         (mkWorld (mkClient None None EmptyString (Some Reference.idKey) connecting
                            [request GetEndorsementKey (User 2);
                             request GetStorageRootKey (User 3)]
                            connecting)
                  (mkTpm ∅ ∅ ∅ 0 [] [] TPM_RC.FAILURE false) [] [])).
Proof.
  apply (failure_while_connecting_restarts_the_connection 0
           (K_PolicySecret
              Reference.parts
              0x80000002 (User 1))
           no_response 1
           (SecurityDeviceError
              "Upable to apply the necessary policy to authorize the EK.  RC value: "
              (Some TPM_RC.FAILURE))
           GetEndorsementKey (User 2) [request GetStorageRootKey (User 3)]);
    reflexivity.
Defined.
